(** * DailyReportTool: the resolution-and-aggregation engine of [fill_report.py]

    A shallow embedding of the four functions that carry the logic of the
    report filler, and the properties of its design document that concern them:

    - [agg_values]       the window aggregator (LAST / AVG / MAX / MIN / SUM);
    - [match_rows]       the three-tier name resolver;
    - [miss_candidates]  the diagnostic candidate ranker;
    - [_safe_write_cell] the merged-region aware template writer.

    Conventions of the embedding.

    - A [str] is a [string]; its characters are the 8-bit [ascii] codes.  The
      whitespace class, the case mappings and the ordering are Python's on
      the ASCII range; codes above 127 are ordinary characters here.
    - A data frame is the list of its rows, in index order.  A timestamp is
      an integer ([Z], pandas keeps nanoseconds since the epoch) or [None]
      for NaT.
    - A Python [float] is carried as the rational ([Q]) it denotes:
      comparisons and equality are those of the numbers.  Infinities and
      signed zeros are not modelled.
    - What the program delegates to pandas and NumPy and cannot be read off
      its own text -- the regular-expression engine behind
      [Series.str.contains], the text-to-number parser behind
      [pd.to_numeric], the sorting routine behind [sort_values], the
      rounded sum and mean of a float64 column -- is a field of the record
      [Pandas]; theorems quantify over it, concrete examples use the
      instance [ref_pandas], whose arithmetic is that of binary64.
    - A worksheet is openpyxl's: a dictionary of cells keyed by (row, column)
      and the list of merged ranges. *)

From Stdlib Require Import ZArith QArith Qreduction Bool List Lia.
From Stdlib Require Import String Ascii Permutation Sorted.
From stdpp Require Import gmap.
Import ListNotations.

Local Open Scope string_scope.
Local Open Scope list_scope.

(** ** Python's [str] methods used by the program *)

Module PyStr.

(** [c.isspace()] on the ASCII range: TAB, LF, VT, FF, CR, the four
    separators FS, GS, RS, US, and the space. *)
Definition isspace (c : ascii) : bool :=
  let n := nat_of_ascii c in
  ((9 <=? n) && (n <=? 13) || (28 <=? n) && (n <=? 32))%nat.

Definition lower_char (c : ascii) : ascii :=
  let n := nat_of_ascii c in
  if ((65 <=? n) && (n <=? 90))%nat then ascii_of_nat (n + 32) else c.

Definition upper_char (c : ascii) : ascii :=
  let n := nat_of_ascii c in
  if ((97 <=? n) && (n <=? 122))%nat then ascii_of_nat (n - 32) else c.

Fixpoint map_chars (f : ascii -> ascii) (s : string) : string :=
  match s with
  | EmptyString => EmptyString
  | String c s' => String (f c) (map_chars f s')
  end.

(** [s.lower()] and [s.upper()] *)
Definition lower : string -> string := map_chars lower_char.
Definition upper : string -> string := map_chars upper_char.

(** [s.lstrip()] *)
Fixpoint lstrip (s : string) : string :=
  match s with
  | EmptyString => EmptyString
  | String c s' => if isspace c then lstrip s' else s
  end.

(** [s.rstrip()] *)
Fixpoint rstrip (s : string) : string :=
  match s with
  | EmptyString => EmptyString
  | String c s' =>
      match rstrip s' with
      | EmptyString => if isspace c then EmptyString else String c EmptyString
      | r => String c r
      end
  end.

(** [s.strip()] *)
Definition strip (s : string) : string := lstrip (rstrip s).

(** [not s] for a [str]: the empty string is the only falsy one. *)
Definition is_empty (s : string) : bool :=
  match s with EmptyString => true | _ => false end.

(** Every character is whitespace (so is the empty string). *)
Fixpoint all_space (s : string) : bool :=
  match s with
  | EmptyString => true
  | String c s' => isspace c && all_space s'
  end.

(** [s.split()]: the maximal runs of non-whitespace characters, in order.
    [tok] is the run being read, most recent character first. *)
Definition close_token (tok : list ascii) (rest : list string) : list string :=
  match tok with
  | [] => rest
  | _ => string_of_list_ascii (rev tok) :: rest
  end.

Fixpoint split_from (tok : list ascii) (s : string) : list string :=
  match s with
  | EmptyString => close_token tok []
  | String c s' =>
      if isspace c then close_token tok (split_from [] s')
      else split_from (c :: tok) s'
  end.

Definition split (s : string) : list string := split_from [] s.

(** [needle in hay] *)
Fixpoint contains (needle hay : string) : bool :=
  String.prefix needle hay ||
  match hay with
  | EmptyString => false
  | String _ hay' => contains needle hay'
  end.

(** [a < b] and [a <= b] on [str]: lexicographic on the character codes. *)
Definition lt (a b : string) : bool := String.ltb a b.
Definition le (a b : string) : bool := String.leb a b.

End PyStr.

(** ** The long-form table *)

(** A cell of the [Value] column before coercion: a number, a piece of text,
    or a missing value (NaN / None). *)
Inductive raw : Type :=
| RNum (q : Q)
| RStr (s : string)
| RMissing.

(** One record of the long-form table: its cells in the columns [COL_TIME],
    [COL_NAME] and [COL_VALUE]. *)
Record Row : Type := mkRow {
  col_time : option Z;
  col_name : string;
  col_value : raw
}.

Definition DataFrame : Type := list Row.

(** [df.empty] *)
Definition df_empty {A : Type} (df : list A) : bool :=
  match df with [] => true | _ => false end.

(** What pandas and NumPy contribute.

    - [re_compile pat] is [re.compile(pat, re.IGNORECASE)], the first thing
      [Series.str.contains(pat, case=False)] does (its [regex] argument is
      left at its default, [True]): [None] when the pattern is turned down
      and an exception is raised, otherwise the predicate "[pat.search(s)]
      finds a match" on subject strings.  The exception is [re.error] for a
      malformed pattern; Python has others (an [OverflowError] for a
      repetition count beyond the engine's limit), which the embedding does
      not tell apart from it.
    - [str_to_float s] is the conversion [pd.to_numeric] applies to a text
      cell; [None] is the NaN that [errors="coerce"] puts in place of a
      failed conversion.
    - [argsort keys] is the order in which [sort_values] lists the positions
      of a column.
    - [series_sum vs] and [series_mean vs] are [Series.sum()] and
      [Series.mean()] on a float64 column without NaN and with at least one
      value: NumPy adds the values in an order of its own, rounding after
      every addition, and the mean is the rounded quotient of that sum by
      the count. *)
Record Pandas : Type := mkPandas {
  re_compile : string -> option (string -> bool);
  str_to_float : string -> option Q;
  argsort : list Z -> list nat;
  series_sum : list Q -> Q;
  series_mean : list Q -> Q
}.

(** The contract of a sorting routine: the positions, each once, in an order
    that makes the keys ascend. *)
Definition argsort_ok (srt : list Z -> list nat) : Prop :=
  forall keys : list Z,
    Permutation (srt keys) (seq 0 (List.length keys)) /\
    StronglySorted Z.le (map (fun i => nth i keys 0%Z) (srt keys)).

(** Exceptions the modelled code can raise: [re_error] stands for what
    [re.compile] raises, [AttributeError] is the refusal of a read-only
    [MergedCell]. *)
Inductive exn : Type :=
| re_error
| AttributeError.

Inductive outcome (A : Type) : Type :=
| Returned (a : A)
| Raised (e : exn).
Arguments Returned {A} a.
Arguments Raised {A} e.

Global Instance outcome_ret : MRet outcome := fun A a => Returned a.
Global Instance outcome_bind : MBind outcome := fun A B k m =>
  match m with
  | Returned a => k a
  | Raised e => Raised e
  end.

(** [float(x)]: the number, in lowest terms. *)
Definition float (q : Q) : Q := Qred q.

(** ** The window aggregator *)

(** A row of [df2]: the value is a number and the time is present. *)
Record Obs : Type := mkObs {
  obs_time : Z;
  obs_name : string;
  obs_value : Q
}.

(** [pd.to_numeric(v, errors="coerce")] on one cell; [None] is NaN. *)
Definition to_numeric (P : Pandas) (v : raw) : option Q :=
  match v with
  | RNum q => Some q
  | RStr s => str_to_float P s
  | RMissing => None
  end.

(** What lines 63-65 leave of a row: [None] for a row that
    [dropna(subset=[COL_VALUE, COL_TIME])] removes. *)
Definition coerce_row (P : Pandas) (r : Row) : option Obs :=
  match to_numeric P (col_value r), col_time r with
  | Some v, Some t => Some (mkObs t (col_name r) v)
  | _, _ => None
  end.

Fixpoint coerce_dropna (P : Pandas) (df : DataFrame) : list Obs :=
  match df with
  | [] => []
  | r :: df' =>
      match coerce_row P r with
      | Some o => o :: coerce_dropna P df'
      | None => coerce_dropna P df'
      end
  end.

(** [df.take(idx)]; [d] stands for a position outside the frame. *)
Definition df_take {A : Type} (d : A) (df : list A) (idx : list nat) : list A :=
  map (fun i => nth i df d) idx.

(** [df2.sort_values(COL_TIME)] on a frame whose first row is [d]. *)
Definition sort_values (P : Pandas) (d : Obs) (df2 : list Obs) : list Obs :=
  df_take d df2 (argsort P (map obs_time df2)).

(** [(agg or "LAST").upper().strip()] *)
Definition normalize_agg (agg : option string) : string :=
  let a := match agg with
           | None => "LAST"
           | Some s => if PyStr.is_empty s then "LAST" else s
           end in
  PyStr.strip (PyStr.upper a).

Definition qmax (a b : Q) : Q := if Qle_bool a b then b else a.
Definition qmin (a b : Q) : Q := if Qle_bool b a then b else a.

(** [Series.max()] and [Series.min()] compare and never round. *)
Definition series_max (v0 : Q) (vs : list Q) : Q := fold_left qmax vs v0.
Definition series_min (v0 : Q) (vs : list Q) : Q := fold_left qmin vs v0.

(** [df2.sort_values(COL_TIME).iloc[-1][COL_VALUE]].  A sorting routine
    returns as many rows as it is given, so [d] (the first row of [df2]) is
    never the answer to [iloc[-1]] unless it is the last row. *)
Definition last_value (P : Pandas) (d : Obs) (df2 : list Obs) : Q :=
  obs_value (List.last (sort_values P d df2) d).

(** [agg_values(df, agg)], lines 58-82; the result [None] is Python's. *)
Definition agg_values (P : Pandas) (df : DataFrame) (agg : option string)
  : option Q :=
  if df_empty df then None
  else
    let agg := normalize_agg agg in
    match coerce_dropna P df with
    | [] => None
    | d :: rest =>
        let df2 := d :: rest in
        let values := map obs_value df2 in
        if agg =? "LAST" then Some (float (last_value P d df2))
        else if agg =? "AVG" then Some (float (series_mean P values))
        else if agg =? "MAX" then
          Some (float (series_max (obs_value d) (map obs_value rest)))
        else if agg =? "MIN" then
          Some (float (series_min (obs_value d) (map obs_value rest)))
        else if agg =? "SUM" then Some (float (series_sum P values))
        else Some (float (last_value P d df2))
    end.

(** ** The name resolver *)

(** [series.str.contains(pat, case=False, na=False)] on a column of text.
    [Raised re_error] is the exception of [re.compile], whichever it is. *)
Definition str_contains (P : Pandas) (pat : string) (series : list string)
  : outcome (list bool) :=
  match re_compile P pat with
  | None => Raised re_error
  | Some search => Returned (map search series)
  end.

(** [df[mask]] *)
Fixpoint select {A : Type} (df : list A) (mask : list bool) : list A :=
  match df, mask with
  | r :: df', b :: mask' => if b then r :: select df' mask' else select df' mask'
  | _, _ => []
  end.

(** [mask &= other] *)
Fixpoint mask_and (mask other : list bool) : list bool :=
  match mask, other with
  | b :: mask', c :: other' => (b && c) :: mask_and mask' other'
  | _, _ => []
  end.

(** The loop of lines 112-113. *)
Fixpoint keyword_loop (P : Pandas) (keywords : list string)
    (name_series : list string) (mask : list bool) : outcome (list bool) :=
  match keywords with
  | [] => Returned mask
  | kw :: keywords' =>
      m ← str_contains P kw name_series;
      keyword_loop P keywords' name_series (mask_and mask m)
  end.

(** [[k for k in s.split() if k]] *)
Definition keywords_of (s : string) : list string :=
  List.filter (fun k => negb (PyStr.is_empty k)) (PyStr.split s).

(** [df[name_series == name]], line 100. *)
Definition exact_tier (df : DataFrame) (name : string) : DataFrame :=
  select df (map (fun n => n =? name) (map col_name df)).

(** [df[name_series.str.contains(name, case=False, na=False)]], line 105. *)
Definition contains_tier (P : Pandas) (df : DataFrame) (name : string)
  : outcome DataFrame :=
  m ← str_contains P name (map col_name df);
  Returned (select df m).

(** Lines 110-115. *)
Definition keyword_tier (P : Pandas) (df : DataFrame) (name : string)
  : outcome DataFrame :=
  let keywords := keywords_of name in
  mask ← keyword_loop P keywords (map col_name df) (repeat true (List.length df));
  Returned (select df mask).

(** [match_rows(df, source_name)], lines 85-115; [df.iloc[0:0]] is the
    frame without rows. *)
Definition match_rows (P : Pandas) (df : DataFrame) (source_name : string)
  : outcome DataFrame :=
  let name := PyStr.strip source_name in
  if PyStr.is_empty name || df_empty df then Returned []
  else
    let exact := exact_tier df name in
    if negb (df_empty exact) then Returned exact
    else
      contains ← contains_tier P df name;
      if negb (df_empty contains) then Returned contains
      else keyword_tier P df name.

(** [df_long[COL_NAME].astype(str).str.strip()], line 186 of [read_sources]:
    the loader trims every name before the table reaches the resolver. *)
Definition strip_names (df : DataFrame) : DataFrame :=
  map (fun r => mkRow (col_time r) (PyStr.strip (col_name r)) (col_value r)) df.

(** ** The candidate ranker *)

(** [series.unique()]: the distinct values in order of first appearance. *)
Fixpoint unique (l : list string) : list string :=
  match l with
  | [] => []
  | x :: l' => x :: List.filter (fun y => negb (y =? x)) (unique l')
  end.

(** [sum(1 for k in kws if k.lower() in n_low)] *)
Definition score (kws : list string) (n : string) : nat :=
  List.length (List.filter (fun k => PyStr.contains (PyStr.lower k) (PyStr.lower n)) kws).

(** The loop of lines 137-141. *)
Fixpoint collect_hits (kws : list string) (candidates : list string)
  : list (nat * string) :=
  match candidates with
  | [] => []
  | n :: candidates' =>
      let sc := score kws n in
      if (0 <? sc)%nat then (sc, n) :: collect_hits kws candidates'
      else collect_hits kws candidates'
  end.

(** Order of the keys [(-x[0], x[1])]: tuples compare lexicographically. *)
Definition hit_le (a b : nat * string) : bool :=
  (- Z.of_nat (fst a) <? - Z.of_nat (fst b))%Z
  || ((fst a =? fst b)%nat && PyStr.le (snd a) (snd b)).

(** A stable sort: an element is put before the first one it is not
    greater than.  [list.sort] is stable, and so is NumPy on short inputs. *)
Fixpoint insert_by {A : Type} (le : A -> A -> bool) (x : A) (l : list A)
  : list A :=
  match l with
  | [] => [x]
  | y :: l' => if le x y then x :: y :: l' else y :: insert_by le x l'
  end.

Fixpoint sort_by {A : Type} (le : A -> A -> bool) (l : list A) : list A :=
  match l with
  | [] => []
  | x :: l' => insert_by le x (sort_by le l')
  end.

(** [l[:k]] for an [int] k: a negative [k] counts from the end. *)
Definition slice_to {A : Type} (l : list A) (k : Z) : list A :=
  if (0 <=? k)%Z then firstn (Z.to_nat k) l
  else firstn (List.length l - Z.to_nat (- k)) l.

(** [miss_candidates(df_win, src, topk)], lines 118-144.  The names of the
    table are text (the loader makes them so), which [dropna()] and
    [astype(str)] leave as they are. *)
Definition miss_candidates (df_win : DataFrame) (src : string) (topk : Z)
  : list string :=
  if df_empty df_win then []
  else
    let src := PyStr.strip src in
    if PyStr.is_empty src then []
    else
      let candidates := unique (map col_name df_win) in
      let kws := keywords_of src in
      if df_empty kws then []
      else
        let hits := collect_hits kws candidates in
        let hits := sort_by hit_le hits in
        map snd (slice_to hits topk).

(** ** The template writer *)

(** A cell address as openpyxl resolves it: (row, column), both from 1.
    The program hands over the text of the address ("E34"); the embedding
    starts where that text has been resolved to one cell.  A text that names
    a range, a whole column or a whole row ("A1:B2", "A", "7") makes
    [ws[addr]] a tuple of cells, on which the code raises; such texts, and
    those openpyxl refuses, have no counterpart here, so nothing below says
    that a call returns for every text a mapping may hold. *)
Definition Addr : Type := (positive * positive)%type.

Inductive cell_value : Type :=
| VText (s : string)
| VNumber (q : Q).

(** What the worksheet keeps at an address: a [Cell] with its value, or the
    read-only placeholder [MergedCell]. *)
Inductive cell : Type :=
| Cell (value : option cell_value)
| MergedCell.

Record CellRange : Type := mkRange {
  min_row : positive;
  min_col : positive;
  max_row : positive;
  max_col : positive
}.

Record Worksheet : Type := mkWorksheet {
  _cells : gmap (positive * positive) cell;
  merged_cells : list CellRange
}.

(** [addr in r] *)
Definition in_range (r : CellRange) (addr : Addr) : bool :=
  ((min_row r <=? fst addr) && (fst addr <=? max_row r)
   && (min_col r <=? snd addr) && (snd addr <=? max_col r))%positive.

(** The top-left corner of a range. *)
Definition anchor (r : CellRange) : Addr := (min_row r, min_col r).

(** [ws[addr]]: an address never used holds a fresh empty [Cell]. *)
Definition get_cell (ws : Worksheet) (addr : Addr) : cell :=
  default (Cell None) (_cells ws !! addr).

(** [ws.cell(...).value = value]: a [MergedCell] refuses the assignment. *)
Definition set_value (ws : Worksheet) (addr : Addr) (value : cell_value)
  : outcome Worksheet :=
  match get_cell ws addr with
  | MergedCell => Raised AttributeError
  | Cell _ =>
      Returned (mkWorksheet (<[addr := Cell (Some value)]> (_cells ws))
                            (merged_cells ws))
  end.

(** [_safe_write_cell(ws, addr, value)], lines 220-233.  The function
    returns [None] on every path; what a caller can observe of a call is
    the sheet it leaves, or the exception.  The ranges are visited in the
    order the sheet lists them. *)
Definition _safe_write_cell (ws : Worksheet) (addr : Addr) (value : cell_value)
  : outcome Worksheet :=
  match get_cell ws addr with
  | MergedCell =>
      match List.find (fun r => in_range r addr) (merged_cells ws) with
      | Some r => set_value ws (anchor r) value
      | None => Returned ws
      end
  | Cell _ =>
      Returned (mkWorksheet (<[addr := Cell (Some value)]> (_cells ws))
                            (merged_cells ws))
  end.

(** ** A reference instance of the library

    Used where an example has to be run.  Each routine is pandas' own on the
    inputs it accepts; what it does not accept is stated with it. *)

Module Ref.

(** The characters with a meaning of their own in a pattern. *)
Definition is_special (c : ascii) : bool :=
  existsb (Ascii.eqb c)
    (list_ascii_of_string ".^$*+?{}[]\|()").

Definition is_dot (c : ascii) : bool := Ascii.eqb c ".".

(** The patterns handled: ordinary characters and the dot. *)
Fixpoint in_fragment (pat : string) : bool :=
  match pat with
  | EmptyString => true
  | String c pat' => (is_dot c || negb (is_special c)) && in_fragment pat'
  end.

(** The patterns without any special character. *)
Fixpoint is_plain (pat : string) : bool :=
  match pat with
  | EmptyString => true
  | String c pat' => negb (is_special c) && is_plain pat'
  end.

(** One pattern character against one subject character under
    [re.IGNORECASE]: the dot is any character but the line feed, an
    ordinary character is itself up to case. *)
Definition char_matches (p c : ascii) : bool :=
  if is_dot p then negb (Ascii.eqb c "010")
  else Ascii.eqb (PyStr.lower_char p) (PyStr.lower_char c).

(** The pattern matches at the start of the subject. *)
Fixpoint match_here (pat s : string) : bool :=
  match pat, s with
  | EmptyString, _ => true
  | String _ _, EmptyString => false
  | String p pat', String c s' => char_matches p c && match_here pat' s'
  end.

(** [pat.search(s) is not None] *)
Fixpoint search (pat s : string) : bool :=
  match_here pat s ||
  match s with
  | EmptyString => false
  | String _ s' => search pat s'
  end.

(** [re.compile] on the fragment.  Patterns outside it are given no
    meaning: they are turned down, as Python turns down the malformed
    ones among them. *)
Definition re_compile (pat : string) : option (string -> bool) :=
  if in_fragment pat then Some (search pat) else None.

Definition digit_of (c : ascii) : option Z :=
  let n := nat_of_ascii c in
  if ((48 <=? n) && (n <=? 57))%nat then Some (Z.of_nat (n - 48)) else None.

Fixpoint digits_from (acc : Z) (s : string) : option Z :=
  match s with
  | EmptyString => Some acc
  | String c s' =>
      match digit_of c with
      | Some d => digits_from (10 * acc + d) s'
      | None => None
      end
  end.

(** The nearest integer to [n / d], a tie going to the even one; for
    [0 <= n] and [0 < d]. *)
Definition nearest_even (n d : Z) : Z :=
  let q := (n / d)%Z in
  let r := (n mod d)%Z in
  match (2 * r ?= d)%Z with
  | Lt => q
  | Gt => (q + 1)%Z
  | Eq => if Z.even q then q else (q + 1)%Z
  end.

(** The integer part of the binary logarithm of [n / d]; for [0 < n] and
    [0 < d]. *)
Definition log2_ratio (n d : Z) : Z :=
  let k := (Z.log2 n - Z.log2 d)%Z in
  let above := if (0 <=? k)%Z then (d * 2 ^ k <=? n)%Z
               else (d <=? n * 2 ^ (- k))%Z in
  if above then k else (k - 1)%Z.

(** The binary64 number nearest to [x], ties to even: [x] written as
    [m * 2 ^ e] with a significand [m] of 53 bits, rounded.  The exponent is
    not bounded: no overflow to infinity, no subnormal numbers. *)
Definition round64 (x : Q) : Q :=
  let n := Z.abs (Qnum x) in
  let d := Zpos (Qden x) in
  if (n =? 0)%Z then 0%Q
  else
    let e := (log2_ratio n d - 52)%Z in
    let m := if (0 <=? e)%Z then nearest_even n (d * 2 ^ e)
             else nearest_even (n * 2 ^ (- e)) d in
    let v := if (0 <=? e)%Z then inject_Z (m * 2 ^ e)
             else Qmake m (Z.to_pos (2 ^ (- e))) in
    Qred (if (Qnum x <? 0)%Z then Qopp v else v).

(** The number parser on plain digit strings; any other text is taken
    for a failed conversion. *)
Definition str_to_float (s : string) : option Q :=
  match s with
  | EmptyString => None
  | _ => option_map inject_Z (digits_from 0 s)
  end.

(** The sum of a float64 column as NumPy takes it on fewer than eight
    values: one after the other, each partial sum rounded. *)
Definition series_sum (vs : list Q) : Q :=
  fold_left (fun acc v => round64 (acc + v)) vs 0%Q.

(** The mean: that sum divided by the count, rounded. *)
Definition series_mean (vs : list Q) : Q :=
  round64 (series_sum vs / inject_Z (Z.of_nat (List.length vs))).

(** The stable sort of the positions by key. *)
Definition key_le (a b : Z * nat) : bool := (fst a <=? fst b)%Z.

Definition argsort (keys : list Z) : list nat :=
  map snd (sort_by key_le (combine keys (seq 0 (List.length keys)))).

End Ref.

Definition ref_pandas : Pandas :=
  mkPandas Ref.re_compile Ref.str_to_float Ref.argsort
           Ref.series_sum Ref.series_mean.

(** ** The resolver as the design document words it *)

Module Spec.

(** Tier 1: the name equals [sourceName], both sides trimmed. *)
Definition exact_tier (table : DataFrame) (sourceName : string) : DataFrame :=
  List.filter
    (fun r => PyStr.strip (col_name r) =? PyStr.strip sourceName) table.

(** Tier 2: the name contains [sourceName], letter case apart. *)
Definition substring_tier (table : DataFrame) (sourceName : string)
  : DataFrame :=
  List.filter
    (fun r => PyStr.contains (PyStr.lower (PyStr.strip sourceName))
                             (PyStr.lower (col_name r))) table.

(** Tier 3: the name contains every keyword of the trimmed [sourceName];
    nothing when there is no keyword. *)
Definition keyword_tier (table : DataFrame) (sourceName : string)
  : DataFrame :=
  match PyStr.split (PyStr.strip sourceName) with
  | [] => []
  | kws =>
      List.filter
        (fun r => forallb (fun k => PyStr.contains (PyStr.lower k)
                                        (PyStr.lower (col_name r))) kws)
        table
  end.

(** The first tier that is not empty. *)
Fixpoint first_nonempty (tiers : list DataFrame) : DataFrame :=
  match tiers with
  | [] => []
  | t :: tiers' => if df_empty t then first_nonempty tiers' else t
  end.

Definition resolve (table : DataFrame) (sourceName : string) : DataFrame :=
  if PyStr.is_empty (PyStr.strip sourceName) || df_empty table then []
  else first_nonempty [exact_tier table sourceName;
                       substring_tier table sourceName;
                       keyword_tier table sourceName].

End Spec.

(** ** Notions used in the statements *)



(** The library reads the pattern [pat] as plain text: it compiles, and
    searching for it is looking for [pat] as a substring, letter case
    apart.  Python's [re] does so on a pattern without special characters. *)
Definition literal_search (P : Pandas) (pat : string) : Prop :=
  exists search : string -> bool,
    re_compile P pat = Some search /\
    forall s, search s = PyStr.contains (PyStr.lower pat) (PyStr.lower s).

(** The order of the ranker's result: a higher score first, and for one
    score the smaller name first. *)
Definition ranked_before (kws : list string) (a b : string) : Prop :=
  (score kws b < score kws a)%nat \/
  (score kws a = score kws b /\ PyStr.lt a b = true).

(** A worksheet whose merged ranges are what a spreadsheet makes them: the
    top-left cell of a range is an ordinary cell, every other address of
    the range holds a [MergedCell], and no address lies in two ranges. *)
Definition well_merged (ws : Worksheet) : Prop :=
  (forall r, In r (merged_cells ws) -> get_cell ws (anchor r) <> MergedCell) /\
  (forall r a, In r (merged_cells ws) -> in_range r a = true ->
               a <> anchor r -> _cells ws !! a = Some MergedCell) /\
  (forall r1 r2 a, In r1 (merged_cells ws) -> In r2 (merged_cells ws) ->
                   in_range r1 a = true -> in_range r2 a = true -> r1 = r2).

(** An address the writer can do nothing with: a [MergedCell] that no
    merged range of the sheet accounts for. *)
Definition orphan (ws : Worksheet) (addr : Addr) : Prop :=
  get_cell ws addr = MergedCell /\
  forall r, In r (merged_cells ws) -> in_range r addr = false.

(** ** Tables of the examples *)

(** Scenario A and B of the design document: two readings of one pump. *)
Definition pump_a_flow : DataFrame :=
  [ mkRow (Some 1000%Z) "Pump A Flow" (RNum (25 # 2));
    mkRow (Some 1010%Z) "Pump A Flow" (RNum 13) ].

(** Two readings taken at the same instant, in the two possible orders. *)
Definition tie_rows : DataFrame :=
  [ mkRow (Some 5%Z) "x" (RNum 1); mkRow (Some 5%Z) "x" (RNum 2) ].

Definition tie_rows_swapped : DataFrame :=
  [ mkRow (Some 5%Z) "x" (RNum 2); mkRow (Some 5%Z) "x" (RNum 1) ].



(** A window with one measurement, and a mapping name that differs from
    its name in one character. *)
Definition pump_125 : DataFrame :=
  [ mkRow (Some 1000%Z) "Pump 125" (RNum 7) ].

(** A window with several names, one of them twice. *)
Definition window : DataFrame :=
  [ mkRow (Some 1000%Z) "Pump A Flow" (RNum 1);
    mkRow (Some 1000%Z) "Pump B Flow" (RNum 2);
    mkRow (Some 1010%Z) "Pump A Flow" (RNum 3);
    mkRow (Some 1010%Z) "Tank" (RNum 4);
    mkRow (Some 1020%Z) "A pump x" (RNum 5) ].

(** A table that did not go through the loader: a name with a trailing
    blank, next to a longer name. *)
Definition untrimmed : DataFrame :=
  [ mkRow (Some 1000%Z) "Pump " (RNum 1);
    mkRow (Some 1000%Z) "Pump Station" (RNum 2) ].

(** ** Sheets of the examples *)

(** Scenario E: the block A1:B2 is merged. *)
Definition block : CellRange := mkRange 1 1 2 2.

Definition merged_sheet : Worksheet :=
  mkWorksheet
    (<[(1, 1)%positive := Cell None]>
       (<[(1, 2)%positive := MergedCell]>
          (<[(2, 1)%positive := MergedCell]>
             (<[(2, 2)%positive := MergedCell]> ∅))))
    [block].

(** A damaged template: A1 is a [MergedCell] though no range is recorded;
    A2 already shows the fill marker. *)
Definition damaged_sheet : Worksheet :=
  mkWorksheet
    (<[(1, 1)%positive := MergedCell]>
       (<[(2, 1)%positive := Cell (Some (VText "NA"))]> ∅))
    [].

(** * The rest of [fill_report.py]

    The functions around the four above: the parser of the report time, the
    loader, the choice of the worksheet, the time window, the writer of the
    report time and the loop of [main] that fills the template. *)

(** A result or an error of type [E], for the functions whose exceptions
    are their own. *)
Inductive result (E A : Type) : Type :=
| Ok (a : A)
| Err (e : E).
Arguments Ok {E A} a.
Arguments Err {E A} e.

(** ** [parse_center_time] *)

(** The two [ValueError]s of [parse_center_time], told apart by their
    message: the time is blank, the time has the wrong format. *)
Inductive time_error : Type :=
| time_blank
| time_format.

(** [parse_center_time(t_str)], lines 39-55.  [strptime s fmt] is
    [datetime.strptime(s, fmt)], [None] when it raises [ValueError]; a
    [datetime] is carried as the integer of its instant. *)
Definition parse_center_time (strptime : string -> string -> option Z)
    (t_str : option string) : result time_error Z :=
  let s := PyStr.strip (match t_str with Some t => t | None => "" end) in
  if PyStr.is_empty s then Err time_blank
  else
    match strptime s "%Y-%m-%d %H:%M" with
    | Some t => Ok t
    | None =>
        match strptime s "%Y/%m/%d %H:%M" with
        | Some t => Ok t
        | None => Err time_format
        end
    end.

(** ** [read_sources] *)

(** A CSV file as [pd.read_csv] hands it over: its columns in order, each
    with its name and its cells.  The names of a frame are distinct. *)
Definition Frame : Type := list (string * list raw).

(** [df[name]] *)
Fixpoint column (name : string) (df : Frame) : option (list raw) :=
  match df with
  | [] => None
  | (c, cells) :: df' => if c =? name then Some cells else column name df'
  end.

(** [[c for c in df.columns if c not in ("no.", SRC_TIME_COL)]], with the
    cells of each column. *)
Definition value_columns (df : Frame) : Frame :=
  List.filter (fun c => negb ((fst c =? "no.") || (fst c =? "time"))) df.

(** [name in df.columns] *)
Definition has_column (name : string) (df : Frame) : Prop :=
  In name (map fst df).

(** [df.melt(id_vars=[time], value_vars=..., ...)]: the value columns one
    after the other, each cell with the time of its row. *)
Definition melt (times : list (option Z)) (columns : Frame) : DataFrame :=
  flat_map
    (fun c => map (fun tv => mkRow (fst tv) (fst c) (snd tv))
                  (combine times (snd c)))
    columns.

(** [df_long.dropna(subset=[COL_TIME])] *)
Definition dropna_time (df : DataFrame) : DataFrame :=
  List.filter (fun r => match col_time r with Some _ => true | None => false end)
              df.

(** What [read_sources] raises: no file, a frame [melt] refuses, no data. *)
Inductive load_error : Type :=
| FileNotFoundError
| ValueError_value_name
| ValueError_no_data.

(** The body of the loop of lines 154-192 for one file; [Ok None] when the
    file is skipped.  [to_datetime] is [pd.to_datetime(column,
    errors="coerce")], [None] being NaT.  [melt] raises [ValueError] on a
    frame that already has a column named as its [value_name], "Value". *)
Definition melt_source (to_datetime : list raw -> list (option Z)) (df : Frame)
  : result load_error (option DataFrame) :=
  match column "time" df with
  | None => Ok None
  | Some time_cells =>
      let columns := value_columns df in
      if df_empty columns then Ok None
      else
        let times := to_datetime time_cells in
        if existsb (fun c => fst c =? "Value") df
        then Err ValueError_value_name
        else Ok (Some (dropna_time (strip_names (melt times columns))))
  end.

(** The frames the loop appends to [dfs]. *)
Fixpoint collect_sources (to_datetime : list raw -> list (option Z))
    (files : list Frame) : result load_error (list DataFrame) :=
  match files with
  | [] => Ok []
  | df :: files' =>
      match melt_source to_datetime df with
      | Err e => Err e
      | Ok None => collect_sources to_datetime files'
      | Ok (Some df_long) =>
          match collect_sources to_datetime files' with
          | Err e => Err e
          | Ok dfs => Ok (if df_empty df_long then dfs else df_long :: dfs)
          end
      end
  end.

(** [read_sources()], lines 147-197, on the files of [sorted(glob(...))]
    once read. *)
Definition read_sources (to_datetime : list raw -> list (option Z))
    (files : list Frame) : result load_error DataFrame :=
  if df_empty files then Err FileNotFoundError
  else
    match collect_sources to_datetime files with
    | Err e => Err e
    | Ok dfs => if df_empty dfs then Err ValueError_no_data
                else Ok (List.concat dfs)
    end.

(** ** [pick_sheet] *)

(** ["".join(parts)] *)
Fixpoint join (parts : list string) : string :=
  match parts with
  | [] => ""
  | p :: parts' => p ++ join parts'
  end.

(** [norm(s)], line 203: lower case, whitespace removed. *)
Definition norm (s : string) : string := join (PyStr.split (PyStr.lower s)).

(** [{norm(n): n for n in wb.sheetnames}]: a later name takes the place of
    an earlier one with the same key. *)
Definition sheet_map (sheetnames : list string) : gmap string string :=
  fold_left (fun m n => <[norm n := n]> m) sheetnames ∅.

(** [[n for n in wb.sheetnames if "CN" in n.upper()]] *)
Definition cn_candidates (sheetnames : list string) : list string :=
  List.filter (fun n => PyStr.contains "CN" (PyStr.upper n)) sheetnames.

(** [pick_sheet(wb, preferred)], lines 200-217: the title of the sheet
    picked, or [None] for the [ValueError] of line 217. *)
Definition pick_sheet (sheetnames : list string) (preferred : string)
  : option string :=
  let preferred_norm := norm preferred in
  match sheet_map sheetnames !! preferred_norm with
  | Some n => Some n
  | None =>
      match cn_candidates sheetnames with
      | n :: _ => Some n
      | [] => None
      end
  end.

(** The characters of a string that are not whitespace. *)
Fixpoint without_space (s : string) : string :=
  match s with
  | EmptyString => EmptyString
  | String c s' =>
      if PyStr.isspace c then without_space s' else String c (without_space s')
  end.

(** ** The time window of [main] *)

(** [data[(data[COL_TIME] >= start_time) & (data[COL_TIME] <= end_time)]],
    line 315; a comparison with NaT is false. *)
Definition in_window (start_time end_time : Z) (r : Row) : bool :=
  match col_time r with
  | Some t => (start_time <=? t)%Z && (t <=? end_time)%Z
  | None => false
  end.

(** [timedelta(minutes=m)], in the unit of the timestamps (nanoseconds). *)
Definition minutes_delta (m : Z) : Z := (m * 60000000000)%Z.

(** Lines 287-288 and 315. *)
Definition window_of (data : DataFrame) (center_time minutes : Z) : DataFrame :=
  let start_time := (center_time - minutes_delta minutes)%Z in
  let end_time := (center_time + minutes_delta minutes)%Z in
  List.filter (in_window start_time end_time) data.

(** ** [write_datetime] *)

(** The settings of lines 24-27.  A cell setting is [None] when the
    constant is [None] or the empty string. *)
Record Config : Type := mkConfig {
  WRITE_DATETIME_TO_TEMPLATE : bool;
  DATETIME_CELL : option Addr;
  DATE_CELL : option Addr;
  TIME_CELL : option Addr
}.

(** The settings as the program ships them: E34 and E35. *)
Definition shipped_config : Config :=
  mkConfig true None (Some (34, 5)%positive) (Some (35, 5)%positive).

(** The texts [strftime] produces, lines 245-248 and 265. *)
Record Stamps : Type := mkStamps {
  date_str : string;
  time_str : string;
  dt_str : string;
  win_str : string;
  now_str : string
}.

(** [if CELL: _safe_write_cell(ws, CELL, text)] *)
Definition write_if_set (ws : Worksheet) (cell_setting : option Addr)
    (text : string) : outcome Worksheet :=
  match cell_setting with
  | Some addr => _safe_write_cell ws addr (VText text)
  | None => Returned ws
  end.

(** [if ws[a].value in (None, ""): ws[a].value = text], lines 260-265.  A
    [MergedCell] reads as [None] and refuses the assignment. *)
Definition write_if_blank (ws : Worksheet) (addr : Addr) (text : string)
  : outcome Worksheet :=
  match get_cell ws addr with
  | Cell (Some (VNumber _)) => Returned ws
  | Cell (Some (VText s)) =>
      if PyStr.is_empty s then set_value ws addr (VText text) else Returned ws
  | Cell None => set_value ws addr (VText text)
  | MergedCell => set_value ws addr (VText text)
  end.

Definition is_set (cell_setting : option Addr) : bool :=
  match cell_setting with Some _ => true | None => false end.

(** [write_datetime(ws, center_time, start_time, end_time)], lines 236-265. *)
Definition write_datetime (cfg : Config) (ws : Worksheet) (st : Stamps)
  : outcome Worksheet :=
  if negb (WRITE_DATETIME_TO_TEMPLATE cfg) then Returned ws
  else
    ws1 ← write_if_set ws (DATETIME_CELL cfg) (dt_str st);
    ws2 ← write_if_set ws1 (DATE_CELL cfg) (date_str st);
    ws3 ← write_if_set ws2 (TIME_CELL cfg) (time_str st);
    if is_set (DATETIME_CELL cfg) || is_set (DATE_CELL cfg)
       || is_set (TIME_CELL cfg)
    then Returned ws3
    else
      ws4 ← write_if_blank ws3 (1, 1)%positive ("Report Time: " ++ dt_str st);
      ws5 ← write_if_blank ws4 (2, 1)%positive ("Window: " ++ win_str st);
      write_if_blank ws5 (3, 1)%positive ("Generated: " ++ now_str st).

(** ** The loop of [main] *)

(** A row of the mapping after lines 299-301; the target cell as openpyxl
    resolves it. *)
Record MapRow : Type := mkMapRow {
  SourceName : string;
  TargetCell : Addr;
  Agg : string
}.

Definition FILL_IF_MISSING : cell_value := VText "NA".
Definition MISS_CANDIDATE_TOPK : Z := 5.

(** What the loop carries: the sheet, the tally [filled], the list
    [missing_items], and the lines of the [MISS] diagnosis printed so far. *)
Record FillState : Type := mkFillState {
  sheet : Worksheet;
  filled : nat;
  missing_items : list string;
  miss_report : list (string * list string)
}.

(** The value the row puts in its cell: the aggregate, or the fill marker. *)
Definition cell_of (v : option Q) : cell_value :=
  match v with
  | Some x => VNumber x
  | None => FILL_IF_MISSING
  end.

(** One turn of the loop, lines 331-353. *)
Definition fill_row (P : Pandas) (df_win : DataFrame) (st : FillState)
    (row : MapRow) : outcome FillState :=
  let src := SourceName row in
  let addr := TargetCell row in
  sub ← match_rows P df_win src;
  match agg_values P sub (Some (Agg row)) with
  | None =>
      ws ← _safe_write_cell (sheet st) addr FILL_IF_MISSING;
      let cands := miss_candidates df_win src MISS_CANDIDATE_TOPK in
      Returned (mkFillState ws (filled st) (missing_items st ++ [src])
                            (miss_report st ++ [(src, cands)]))
  | Some v =>
      ws ← _safe_write_cell (sheet st) addr (VNumber v);
      Returned (mkFillState ws (filled st + 1) (missing_items st)
                            (miss_report st))
  end.

(** The loop [for _, row in map_df.iterrows()]. *)
Fixpoint fill_rows (P : Pandas) (df_win : DataFrame) (st : FillState)
    (rows : list MapRow) : outcome FillState :=
  match rows with
  | [] => Returned st
  | row :: rows' =>
      st' ← fill_row P df_win st row;
      fill_rows P df_win st' rows'
  end.

(** Lines 328-329 and the loop. *)
Definition fill_report (P : Pandas) (df_win : DataFrame) (ws : Worksheet)
    (map_df : list MapRow) : outcome FillState :=
  fill_rows P df_win (mkFillState ws 0 [] []) map_df.

(** ** Notions used in the statements about the rest *)

(** The cell a write to [addr] lands on: the address itself, the top-left
    cell of the first range that holds it when it is a [MergedCell], none
    when no range does. *)
Definition write_target (ws : Worksheet) (addr : Addr) : option Addr :=
  match get_cell ws addr with
  | MergedCell =>
      option_map anchor (List.find (fun r => in_range r addr) (merged_cells ws))
  | Cell _ => Some addr
  end.

(** What a mapping row resolves to in the window: its aggregate, when the
    resolver returns. *)
Definition row_value (P : Pandas) (df_win : DataFrame) (row : MapRow)
  : outcome (option Q) :=
  sub ← match_rows P df_win (SourceName row);
  Returned (agg_values P sub (Some (Agg row))).

(** The row ends in the miss list: the resolver returns and the aggregate
    is absent. *)
Definition is_missing (P : Pandas) (df_win : DataFrame) (row : MapRow) : bool :=
  match row_value P df_win row with
  | Returned None => true
  | _ => false
  end.

(** The cell a configured write lands on, if the cell is configured. *)
Definition setting_target (ws : Worksheet) (cell_setting : option Addr)
  : option Addr :=
  match cell_setting with
  | Some addr => write_target ws addr
  | None => None
  end.

(** A cell that reads as [None] or [""]. *)
Definition is_blank (c : cell) : bool :=
  match c with
  | Cell None => true
  | Cell (Some (VText s)) => PyStr.is_empty s
  | Cell (Some (VNumber _)) => false
  | MergedCell => true
  end.

(** The line the fallback of [write_datetime] has for an address. *)
Definition fallback_label (st : Stamps) (b : Addr) : option string :=
  if decide (b = (1, 1)%positive)
  then Some ("Report Time: " ++ dt_str st)%string
  else if decide (b = (2, 1)%positive)
  then Some ("Window: " ++ win_str st)%string
  else if decide (b = (3, 1)%positive)
  then Some ("Generated: " ++ now_str st)%string
  else None.

(** Settings without any cell: the report time goes to A1, A2, A3. *)
Definition fallback_config : Config := mkConfig true None None None.

(** The texts of a report for 2025-12-25 01:35, thirty minutes around. *)
Definition example_stamps : Stamps :=
  mkStamps "2025-12-25" "01:35" "2025-12-25 01:35"
           "2025-12-25 01:05:00 ~ 2025-12-25 02:05:00" "2025-12-26 09:00:00".

(** Two small source files.  The first has a row counter, a column of
    times and two measurements, one of them with blanks around its name;
    the second has no column of times. *)
Definition example_file : Frame :=
  [ ("no.", [RNum 1; RNum 2]);
    ("time", [RStr "10"; RStr "20"]);
    ("Pump A Flow ", [RNum (25 # 2); RNum 13]);
    ("Tank", [RStr "x"; RNum 4]) ].

Definition example_file_without_time : Frame :=
  [ ("no.", [RNum 1]); ("Tank", [RNum 4]) ].

(** The long-form table of [example_file]. *)
Definition example_table : DataFrame :=
  [ mkRow (Some 10%Z) "Pump A Flow" (RNum (25 # 2));
    mkRow (Some 20%Z) "Pump A Flow" (RNum 13);
    mkRow (Some 10%Z) "Tank" (RStr "x");
    mkRow (Some 20%Z) "Tank" (RNum 4) ].

(** A converter of times for the examples: digit strings are instants. *)
Definition example_to_datetime (cells : list raw) : list (option Z) :=
  map (fun c => match c with
                | RStr s => match s with
                            | EmptyString => None
                            | _ => Ref.digits_from 0 s
                            end
                | _ => None
                end) cells.

(** A mapping of three rows on the merged sheet: two rows into the merged
    block, the second for a name the window does not hold, and one row
    into a cell of its own. *)
Definition example_mapping : list MapRow :=
  [ mkMapRow "Pump A Flow" (2, 2)%positive "avg";
    mkMapRow "Turbine X" (1, 2)%positive "LAST";
    mkMapRow "Tank" (5, 1)%positive "max" ].

(** * Properties *)

(** ** Strings *)

Module PyStrFacts.
Import PyStr.



Lemma upper_upper_char (c : ascii) : upper_char (upper_char c) = upper_char c.
Proof. destruct c as [[] [] [] [] [] [] [] []]; reflexivity. Qed.

Lemma upper_upper (s : string) : upper (upper s) = upper s.
Proof.
  induction s as [|c s IH]; simpl; [reflexivity|].
  unfold upper in *; simpl. now rewrite upper_upper_char, IH.
Qed.

Lemma is_empty_true (s : string) : is_empty s = true <-> s = "".
Proof. destruct s; simpl; split; congruence. Qed.




(** *** Trimming *)

Lemma lstrip_head (s : string) :
  lstrip s = "" \/ exists c t, lstrip s = String c t /\ isspace c = false.
Proof.
  induction s as [|c s IH]; simpl; [now left|].
  destruct (isspace c) eqn:E; [exact IH|]. right. now exists c, s.
Qed.

Lemma lstrip_fixed (c : ascii) (t : string) :
  isspace c = false -> lstrip (String c t) = String c t.
Proof. intros E. simpl. now rewrite E. Qed.

Lemma lstrip_idem (s : string) : lstrip (lstrip s) = lstrip s.
Proof.
  destruct (lstrip_head s) as [->|(c & t & -> & E)]; [reflexivity|].
  now apply lstrip_fixed.
Qed.

Lemma rstrip_idem (s : string) : rstrip (rstrip s) = rstrip s.
Proof.
  induction s as [|c s IH]; [reflexivity|]. simpl.
  destruct (rstrip s) as [|c' r] eqn:E.
  - destruct (isspace c) eqn:Ec; [reflexivity|]. simpl. now rewrite Ec.
  - change (rstrip (String c (String c' r)))
      with (match rstrip (String c' r) with
            | "" => if isspace c then "" else String c ""
            | String a b => String c (String a b)
            end).
    now rewrite IH.
Qed.

Lemma rstrip_lstrip (s : string) : rstrip (lstrip s) = lstrip (rstrip s).
Proof.
  induction s as [|c s IH]; [reflexivity|].
  cbn [lstrip]. destruct (isspace c) eqn:Ec.
  - rewrite IH. cbn [rstrip]. destruct (rstrip s) as [|c' r].
    + now rewrite Ec.
    + cbn [lstrip]. now rewrite Ec.
  - cbn [rstrip]. destruct (rstrip s) as [|c' r].
    + rewrite Ec. now rewrite lstrip_fixed.
    + now rewrite lstrip_fixed.
Qed.

(** A trimmed string is left as it is. *)
Lemma strip_idem (s : string) : strip (strip s) = strip s.
Proof.
  unfold strip.
  rewrite (rstrip_lstrip (rstrip s)), rstrip_idem, lstrip_idem.
  reflexivity.
Qed.

Lemma lstrip_empty (s : string) : lstrip s = "" <-> all_space s = true.
Proof.
  induction s as [|c s IH]; simpl; [tauto|].
  destruct (isspace c); simpl; [exact IH|]. split; discriminate.
Qed.

Lemma rstrip_empty (s : string) : rstrip s = "" <-> all_space s = true.
Proof.
  induction s as [|c s IH]; simpl; [tauto|].
  destruct (rstrip s) as [|c' r].
  - destruct (isspace c); simpl.
    + rewrite <- IH. tauto.
    + split; discriminate.
  - split; [discriminate|]. intros H. apply andb_true_iff in H.
    destruct H as [_ H]. apply IH in H. discriminate.
Qed.

Lemma all_space_lstrip (s : string) : all_space (lstrip s) = all_space s.
Proof.
  induction s as [|c s IH]; simpl; [reflexivity|].
  destruct (isspace c) eqn:E; simpl; [exact IH|]. now rewrite E.
Qed.

(** Trimming leaves nothing exactly of the strings made of whitespace. *)
Lemma strip_empty (s : string) : strip s = "" <-> all_space s = true.
Proof.
  unfold strip. rewrite <- rstrip_lstrip, rstrip_empty, all_space_lstrip.
  reflexivity.
Qed.

Lemma strip_is_empty (s : string) : is_empty (strip s) = all_space s.
Proof.
  destruct (all_space s) eqn:E.
  - apply strip_empty in E. now rewrite E.
  - destruct (strip s) eqn:E'; [|reflexivity].
    apply strip_empty in E'. congruence.
Qed.

(** *** Splitting *)

Lemma string_of_rev_nonempty (c : ascii) (tok : list ascii) :
  is_empty (string_of_list_ascii (rev (c :: tok))) = false.
Proof.
  simpl. destruct (rev tok); reflexivity.
Qed.

Lemma split_from_tokens (s : string) (tok : list ascii) :
  Forall (fun k => is_empty k = false) (split_from tok s).
Proof.
  revert tok. induction s as [|c s IH]; intros tok; simpl.
  - destruct tok; simpl; [constructor|].
    constructor; [apply string_of_rev_nonempty|constructor].
  - destruct (isspace c); [|apply IH].
    destruct tok; simpl; [apply IH|].
    constructor; [apply string_of_rev_nonempty|apply IH].
Qed.

Lemma split_from_nil (s : string) (tok : list ascii) :
  split_from tok s = [] <-> tok = [] /\ all_space s = true.
Proof.
  revert tok. induction s as [|c s IH]; intros tok; simpl.
  - destruct tok; simpl; split; try tauto; try discriminate.
    intros [H _]; discriminate.
  - destruct (isspace c); simpl.
    + destruct tok; simpl.
      * rewrite IH. tauto.
      * split; [discriminate|]. intros [H _]; discriminate.
    + rewrite IH. split; [intros [H _]; discriminate|intros [_ H]; discriminate].
Qed.

(** [split] yields no keyword exactly on the strings made of whitespace. *)
Lemma split_nil (s : string) : split s = [] <-> all_space s = true.
Proof. unfold split. rewrite split_from_nil. tauto. Qed.

End PyStrFacts.

(** ** The aggregator: which rows survive *)

Section Survivors.
Variable P : Pandas.

Lemma coerce_row_None (r : Row) :
  coerce_row P r = None <->
  to_numeric P (col_value r) = None \/ col_time r = None.
Proof.
  unfold coerce_row.
  destruct (to_numeric P (col_value r)), (col_time r); split;
    intros H; try discriminate; auto; destruct H; discriminate.
Qed.

Lemma coerce_dropna_nil (df : DataFrame) :
  coerce_dropna P df = [] <-> Forall (fun r => coerce_row P r = None) df.
Proof.
  induction df as [|r df IH]; simpl.
  - split; auto.
  - destruct (coerce_row P r) eqn:E.
    + split; [discriminate|]. intros H. inversion H; congruence.
    + rewrite IH. split; intros H; [constructor; auto|now inversion H].
Qed.

Lemma coerce_dropna_In (df : DataFrame) (o : Obs) :
  In o (coerce_dropna P df) <-> exists r, In r df /\ coerce_row P r = Some o.
Proof.
  induction df as [|r df IH]; simpl.
  - split; [tauto|]. intros (r & [] & _).
  - destruct (coerce_row P r) eqn:E; simpl; rewrite IH; split.
    + intros [->|(r' & Hr & Hc)]; [exists r; auto|exists r'; auto].
    + intros (r' & [->|Hr] & Hc); [left; congruence|right; eauto].
    + intros (r' & Hr & Hc); exists r'; auto.
    + intros (r' & [->|Hr] & Hc); [congruence|eauto].
Qed.


(** The result is absent exactly when no row survives. *)
Lemma agg_values_None (df : DataFrame) (agg : option string) :
  agg_values P df agg = None <-> coerce_dropna P df = [].
Proof.
  unfold agg_values. destruct df as [|r df]; [simpl; tauto|].
  cbn [df_empty]. destruct (coerce_dropna P (r :: df)) as [|d rest].
  - tauto.
  - split; [|discriminate].
    repeat match goal with |- context [if ?b then _ else _] => destruct b end;
      discriminate.
Qed.

Lemma agg_values_None_dropped (df : DataFrame) (agg : option string) :
  agg_values P df agg = None <->
  Forall (fun r => to_numeric P (col_value r) = None \/ col_time r = None) df.
Proof.
  rewrite agg_values_None, coerce_dropna_nil.
  split; intros H; eapply Forall_impl; try exact H;
    intros r; apply coerce_row_None.
Qed.

End Survivors.

(** C5. For every aggregation mode the aggregator returns the absent value
    (Python's [None], which no number equals) exactly when every row of the
    subset is dropped -- its value does not coerce to a number or its
    timestamp is missing -- which covers the empty subset; in every other
    case it returns a number. *)
Theorem agg_values_absent_iff (P : Pandas) (df : DataFrame) (agg : option string) :
  agg_values P [] agg = None /\
  (agg_values P df agg = None <->
   Forall (fun r => to_numeric P (col_value r) = None \/ col_time r = None) df) /\
  (Exists (fun r => to_numeric P (col_value r) <> None /\ col_time r <> None) df ->
   exists v : Q, agg_values P df agg = Some v).
Proof.
  split; [|split].
  - reflexivity.
  - apply agg_values_None_dropped.
  - intros Hex. destruct (agg_values P df agg) as [v|] eqn:E; [eauto|].
    exfalso. apply agg_values_None_dropped in E. apply Exists_exists in Hex.
    destruct Hex as (r & Hr & Hv & Ht).
    rewrite Forall_forall in E. destruct (E r Hr); contradiction.
Qed.

(** ** The aggregator: sorting by time *)

Section Sorting.
Variable P : Pandas.
Hypothesis sorting : argsort_ok (argsort P).

Lemma df_take_seq {A : Type} (d : A) (l : list A) :
  df_take d l (seq 0 (List.length l)) = l.
Proof.
  unfold df_take. induction l as [|x l IH]; [reflexivity|].
  cbn [List.length seq map nth]. f_equal.
  rewrite <- seq_shift, map_map. exact IH.
Qed.

Lemma df_take_perm {A : Type} (d : A) (l : list A) (idx : list nat) :
  Permutation idx (seq 0 (List.length l)) -> Permutation (df_take d l idx) l.
Proof.
  intros H. rewrite <- (df_take_seq d l) at 2.
  unfold df_take. now apply Permutation_map.
Qed.

Lemma sort_values_perm (d : Obs) (df2 : list Obs) :
  Permutation (sort_values P d df2) df2.
Proof.
  unfold sort_values. apply df_take_perm.
  destruct (sorting (map obs_time df2)) as [Hp _].
  now rewrite length_map in Hp.
Qed.

Lemma sort_values_times (d : Obs) (df2 : list Obs) :
  map obs_time (sort_values P d df2) =
  map (fun i => nth i (map obs_time df2) 0%Z) (argsort P (map obs_time df2)).
Proof.
  unfold sort_values, df_take. rewrite map_map.
  apply map_ext_in. intros i Hi.
  destruct (sorting (map obs_time df2)) as [Hp _].
  apply (Permutation_in _ Hp) in Hi. apply in_seq in Hi.
  rewrite (nth_indep _ 0%Z (obs_time d)) by lia.
  symmetry. apply map_nth.
Qed.

Lemma sort_values_sorted (d : Obs) (df2 : list Obs) :
  StronglySorted Z.le (map obs_time (sort_values P d df2)).
Proof.
  rewrite sort_values_times. apply sorting.
Qed.

Lemma sorted_last_max (l : list Z) (d : Z) :
  StronglySorted Z.le l -> forall x, In x l -> (x <= List.last l d)%Z.
Proof.
  induction 1 as [|y l Hs IH Hall]; intros x Hx; [destruct Hx|].
  destruct l as [|z l].
  - destruct Hx as [->|[]]. simpl. lia.
  - change (List.last (y :: z :: l) d) with (List.last (z :: l) d).
    destruct Hx as [->|Hx]; [|now apply IH].
    rewrite Forall_forall in Hall.
    transitivity z; [apply Hall; now left|apply IH; now left].
Qed.

Lemma last_In {A : Type} (l : list A) (d : A) : l <> [] -> In (List.last l d) l.
Proof.
  induction l as [|x l IH]; [congruence|]. intros _.
  destruct l as [|y l]; [now left|].
  right. apply IH. discriminate.
Qed.

Lemma last_of_map {A B : Type} (f : A -> B) (l : list A) (d : A) :
  List.last (map f l) (f d) = f (List.last l d).
Proof.
  induction l as [|x l IH]; [reflexivity|].
  destruct l as [|y l]; [reflexivity|]. exact IH.
Qed.

(** The row [iloc[-1]] picks after the sort is a row of the frame, and no
    row of the frame is later. *)
Lemma sorted_last_latest (d : Obs) (rest : list Obs) :
  let o := List.last (sort_values P d (d :: rest)) d in
  In o (d :: rest) /\
  forall o', In o' (d :: rest) -> (obs_time o' <= obs_time o)%Z.
Proof.
  set (df2 := d :: rest). set (sorted := sort_values P d df2). intros o.
  assert (Hperm : Permutation sorted df2) by apply sort_values_perm.
  assert (Hne : sorted <> []).
  { intros E. rewrite E in Hperm. apply Permutation_nil in Hperm.
    discriminate. }
  split.
  - apply (Permutation_in _ Hperm). now apply last_In.
  - intros o' Ho'.
    assert (Hl : obs_time o = List.last (map obs_time sorted) (obs_time d)).
    { subst o. symmetry. apply last_of_map. }
    rewrite Hl. apply sorted_last_max; [apply sort_values_sorted|].
    apply in_map. apply (Permutation_in _ (Permutation_sym Hperm)), Ho'.
Qed.

End Sorting.

(** ** The stable insertion sort *)

Section InsertionSort.
Context {A : Type} (le : A -> A -> bool).
Hypothesis le_total : forall a b, le a b = true \/ le b a = true.
Hypothesis le_trans : forall a b c, le a b = true -> le b c = true -> le a c = true.

Let R (a b : A) : Prop := le a b = true.

Lemma insert_by_perm (x : A) (l : list A) :
  Permutation (insert_by le x l) (x :: l).
Proof.
  induction l as [|y l IH]; simpl; [apply Permutation_refl|].
  destruct (le x y); [apply Permutation_refl|].
  transitivity (y :: x :: l); [now constructor|apply perm_swap].
Qed.

Lemma sort_by_perm (l : list A) : Permutation (sort_by le l) l.
Proof.
  induction l as [|x l IH]; simpl; [constructor|].
  transitivity (x :: sort_by le l); [apply insert_by_perm|now constructor].
Qed.

Lemma insert_by_sorted (x : A) (l : list A) :
  StronglySorted R l -> StronglySorted R (insert_by le x l).
Proof.
  induction 1 as [|y l Hs IH Hall]; simpl.
  - constructor; constructor.
  - destruct (le x y) eqn:E.
    + constructor; [now constructor|].
      constructor; [exact E|].
      eapply List.Forall_impl; [|exact Hall]. intros z Hz. now apply (le_trans x y z).
    + constructor; [exact IH|].
      rewrite List.Forall_forall. intros z Hz.
      apply (Permutation_in _ (insert_by_perm x l)) in Hz.
      destruct Hz as [<-|Hz].
      * destruct (le_total x y) as [H|H]; [congruence|exact H].
      * rewrite List.Forall_forall in Hall. now apply Hall.
Qed.

Lemma sort_by_sorted (l : list A) : StronglySorted R (sort_by le l).
Proof.
  induction l as [|x l IH]; simpl; [constructor|now apply insert_by_sorted].
Qed.

End InsertionSort.

(** ** The reference sort meets the contract *)

Module RefFacts.
Import Ref.

Lemma key_le_total (a b : Z * nat) : key_le a b = true \/ key_le b a = true.
Proof. unfold key_le. destruct (Z.leb_spec (fst a) (fst b)); [now left|right]. apply Z.leb_le. lia. Qed.

Lemma key_le_trans (a b c : Z * nat) :
  key_le a b = true -> key_le b c = true -> key_le a c = true.
Proof. unfold key_le. rewrite !Z.leb_le. lia. Qed.

Lemma combine_seq_nth (keys : list Z) (n : nat) (p : Z * nat) :
  In p (combine keys (seq n (List.length keys))) ->
  (n <= snd p)%nat /\ nth (snd p - n) keys 0%Z = fst p.
Proof.
  revert n. induction keys as [|k keys IH]; intros n; simpl; [tauto|].
  intros [<-|Hp]; simpl.
  - split; [lia|]. now rewrite Nat.sub_diag.
  - destruct (IH (S n) Hp) as [Hle Hnth]. split; [lia|].
    destruct (snd p - n)%nat as [|m] eqn:E; [lia|].
    replace m with (snd p - S n)%nat by lia. exact Hnth.
Qed.

Lemma map_snd_combine_seq (keys : list Z) (n : nat) :
  map snd (combine keys (seq n (List.length keys))) = seq n (List.length keys).
Proof.
  revert n. induction keys as [|k keys IH]; intros n; simpl; [reflexivity|].
  now rewrite IH.
Qed.

Lemma ref_argsort_ok : argsort_ok Ref.argsort.
Proof.
  intros keys. unfold argsort.
  set (pairs := combine keys (seq 0 (List.length keys))).
  assert (Hperm : Permutation (sort_by key_le pairs) pairs)
    by apply sort_by_perm.
  split.
  - rewrite <- (map_snd_combine_seq keys 0). now apply Permutation_map.
  - rewrite map_map.
    assert (Hkeys : map (fun p : Z * nat => nth (snd p) keys 0%Z)
                        (sort_by key_le pairs)
                    = map fst (sort_by key_le pairs)).
    { apply map_ext_in. intros p Hp.
      apply (Permutation_in _ Hperm) in Hp.
      destruct (combine_seq_nth keys 0 p Hp) as [_ H].
      now rewrite Nat.sub_0_r in H. }
    rewrite Hkeys.
    pose proof (sort_by_sorted key_le key_le_total key_le_trans pairs) as Hs.
    clear Hperm Hkeys.
    induction Hs as [|p l Hs IH Hall]; simpl; constructor; [exact IH|].
    rewrite List.Forall_map. eapply List.Forall_impl; [|exact Hall].
    intros q Hq. unfold key_le in Hq. now apply Z.leb_le.
Qed.

End RefFacts.

(** ** The aggregator: the mode selector *)




Lemma agg_values_last (P : Pandas) (df : DataFrame) (d : Obs) (rest : list Obs) :
  coerce_dropna P df = d :: rest ->
  agg_values P df (Some "LAST")
  = Some (float (obs_value (List.last (sort_values P d (d :: rest)) d))).
Proof.
  intros E. unfold agg_values.
  destruct df as [|r df]; [discriminate|]. cbn [df_empty]. rewrite E.
  reflexivity.
Qed.



(** ** The aggregator: the order of the rows *)

Section Series.
Local Open Scope Q_scope.

Lemma qmax_cases (a b : Q) :
  (qmax a b = a \/ qmax a b = b) /\ a <= qmax a b /\ b <= qmax a b.
Proof.
  unfold qmax. destruct (Qle_bool a b) eqn:E.
  - apply Qle_bool_iff in E. repeat split; auto. apply Qle_refl.
  - assert (~ a <= b) by (rewrite <- Qle_bool_iff; congruence).
    repeat split; auto; [apply Qle_refl|].
    apply Qlt_le_weak. now apply Qnot_le_lt.
Qed.

Lemma qmin_cases (a b : Q) :
  (qmin a b = a \/ qmin a b = b) /\ qmin a b <= a /\ qmin a b <= b.
Proof.
  unfold qmin. destruct (Qle_bool b a) eqn:E.
  - apply Qle_bool_iff in E. repeat split; auto. apply Qle_refl.
  - assert (~ b <= a) by (rewrite <- Qle_bool_iff; congruence).
    repeat split; auto; [apply Qle_refl|].
    apply Qlt_le_weak. now apply Qnot_le_lt.
Qed.

(** [max()] is one of the values and none exceeds it. *)
Lemma series_max_spec (vs : list Q) (v0 : Q) :
  In (series_max v0 vs) (v0 :: vs) /\
  forall x, In x (v0 :: vs) -> x <= series_max v0 vs.
Proof.
  revert v0. induction vs as [|v vs IH]; intros v0; simpl.
  - split; [now left|]. intros x [->|[]]. apply Qle_refl.
  - destruct (IH (qmax v0 v)) as [Hin Hle].
    destruct (qmax_cases v0 v) as (Hc & H0 & H1).
    split.
    + destruct Hin as [Hin|Hin]; [|now right; right].
      change (series_max v0 (v :: vs)) with (series_max (qmax v0 v) vs).
      rewrite <- Hin. destruct Hc as [->| ->]; [now left|right; now left].
    + change (fold_left qmax vs (qmax v0 v)) with (series_max (qmax v0 v) vs).
      intros x [->|[->|Hx]].
      * apply Qle_trans with (qmax x v); [exact H0|]. apply Hle. now left.
      * apply Qle_trans with (qmax v0 x); [exact H1|]. apply Hle. now left.
      * apply Hle. now right.
Qed.

Lemma series_min_spec (vs : list Q) (v0 : Q) :
  In (series_min v0 vs) (v0 :: vs) /\
  forall x, In x (v0 :: vs) -> series_min v0 vs <= x.
Proof.
  revert v0. induction vs as [|v vs IH]; intros v0; simpl.
  - split; [now left|]. intros x [->|[]]. apply Qle_refl.
  - destruct (IH (qmin v0 v)) as [Hin Hle].
    destruct (qmin_cases v0 v) as (Hc & H0 & H1).
    split.
    + destruct Hin as [Hin|Hin]; [|now right; right].
      change (series_min v0 (v :: vs)) with (series_min (qmin v0 v) vs).
      rewrite <- Hin. destruct Hc as [->| ->]; [now left|right; now left].
    + change (fold_left qmin vs (qmin v0 v)) with (series_min (qmin v0 v) vs).
      intros x [->|[->|Hx]].
      * apply Qle_trans with (qmin x v); [|exact H0]. apply Hle. now left.
      * apply Qle_trans with (qmin v0 x); [|exact H1]. apply Hle. now left.
      * apply Hle. now right.
Qed.




End Series.





(** The rounding of the reference arithmetic on known numbers: 0.1 is the
    binary64 number Python shows with [(0.1).as_integer_ratio()], a number
    that binary64 has is left as it is, and a tie goes to the even
    significand ([2 ^ 53 + 1] down, [2 ^ 53 + 3] up). *)
Lemma round64_examples :
  Ref.round64 (1 # 10) = (3602879701896397 # 36028797018963968)%Q /\
  Ref.round64 (51 # 4) = (51 # 4)%Q /\
  Ref.round64 (- (1 # 10)) = (- (3602879701896397 # 36028797018963968))%Q /\
  Ref.round64 (inject_Z (2 ^ 53 + 1)) = inject_Z (2 ^ 53) /\
  Ref.round64 (inject_Z (2 ^ 53 + 3)) = inject_Z (2 ^ 53 + 4) /\
  Ref.series_sum [Ref.round64 (1 # 10); Ref.round64 (2 # 10)]
  = Ref.round64 (30000000000000004 # 100000000000000000).
Proof. repeat split; vm_compute; reflexivity. Qed.




(** The same with any sorting routine: it sees the two equal timestamps
    only, and lists the two positions in one order for both tables. *)
Lemma agg_last_tie_any_sort (P : Pandas) :
  argsort_ok (argsort P) ->
  agg_values P tie_rows (Some "LAST")
  <> agg_values P tie_rows_swapped (Some "LAST").
Proof.
  intros Hs. destruct (Hs [5; 5]%Z) as [Hperm _].
  apply Permutation_sym, Permutation_length_2_inv in Hperm.
  unfold agg_values, tie_rows, tie_rows_swapped; simpl.
  unfold last_value, sort_values; simpl.
  destruct Hperm as [-> | ->]; vm_compute; discriminate.
Qed.

(** ** The resolver *)

Section Resolver.
Variable P : Pandas.

Lemma select_map {A : Type} (f : A -> bool) (df : list A) :
  select df (map f df) = List.filter f df.
Proof.
  induction df as [|r df IH]; simpl; [reflexivity|].
  now rewrite IH.
Qed.

Lemma select_map_names (f : string -> bool) (df : DataFrame) :
  select df (map f (map col_name df)) = List.filter (fun r => f (col_name r)) df.
Proof. rewrite map_map. apply (select_map (fun r => f (col_name r))). Qed.

Lemma exact_tier_filter (df : DataFrame) (name : string) :
  exact_tier df name = List.filter (fun r => col_name r =? name) df.
Proof. apply (select_map_names (fun n => n =? name)). Qed.

Lemma exact_tier_In (df : DataFrame) (name : string) (r : Row) :
  In r (exact_tier df name) <-> In r df /\ col_name r = name.
Proof.
  rewrite exact_tier_filter, filter_In, String.eqb_eq. reflexivity.
Qed.

Lemma df_empty_false {A : Type} (l : list A) : df_empty l = false <-> l <> [].
Proof. destruct l; simpl; split; congruence. Qed.

Lemma match_rows_blank (df : DataFrame) (src : string) :
  PyStr.all_space src = true -> match_rows P df src = Returned [].
Proof.
  intros H. unfold match_rows.
  now rewrite PyStrFacts.strip_is_empty, H.
Qed.

Lemma match_rows_no_rows (src : string) : match_rows P [] src = Returned [].
Proof.
  unfold match_rows. cbn [df_empty]. now rewrite orb_true_r.
Qed.

(** Tier 1 decides as soon as it finds a row. *)
Lemma match_rows_exact (df : DataFrame) (src : string) :
  PyStr.all_space src = false ->
  exact_tier df (PyStr.strip src) <> [] ->
  match_rows P df src = Returned (exact_tier df (PyStr.strip src)).
Proof.
  intros Hs Hne. unfold match_rows.
  rewrite PyStrFacts.strip_is_empty, Hs.
  destruct df as [|r df]; [now destruct Hne|]. cbn [df_empty orb].
  apply df_empty_false in Hne. now rewrite Hne.
Qed.

(** The tiers are tried in order, and the first that finds a row is the
    result; the pattern tiers are reached, and their patterns compiled,
    only when the tiers before them found nothing. *)
Lemma match_rows_first_tier (df c k : DataFrame) (src : string) :
  PyStr.all_space src = false ->
  contains_tier P df (PyStr.strip src) = Returned c ->
  keyword_tier P df (PyStr.strip src) = Returned k ->
  match_rows P df src
  = Returned (Spec.first_nonempty [exact_tier df (PyStr.strip src); c; k]).
Proof.
  intros Hs Hc Hk. unfold match_rows.
  rewrite PyStrFacts.strip_is_empty, Hs.
  destruct df as [|r df].
  - cbn [df_empty orb]. unfold contains_tier, str_contains in Hc.
    unfold keyword_tier in Hk. simpl in *.
    destruct (re_compile P (PyStr.strip src)); [|discriminate].
    injection Hc as <-. simpl.
    destruct (keyword_loop P _ [] []) as [m|]; [|discriminate].
    injection Hk as <-. simpl. now destruct m.
  - cbn [df_empty orb]. simpl Spec.first_nonempty.
    destruct (df_empty (exact_tier (r :: df) (PyStr.strip src)));
      [|reflexivity].
    cbn [negb]. rewrite Hc. cbn [mbind outcome_bind].
    destruct (df_empty c); [|reflexivity]. cbn [negb].
    rewrite Hk. now destruct k.
Qed.

Lemma strip_names_trimmed (df : DataFrame) (r : Row) :
  In r (strip_names df) -> PyStr.strip (col_name r) = col_name r.
Proof.
  unfold strip_names. rewrite in_map_iff. intros (r0 & <- & _). simpl.
  apply PyStrFacts.strip_idem.
Qed.

End Resolver.

(** C9. A source name that is empty or made of whitespace only resolves to
    the empty subset whatever the table holds, and so does any source name
    on an empty table; the call returns, it does not raise.  In particular a
    blank source name never yields the whole table. *)
Theorem match_rows_nothing_to_match (P : Pandas) (df : DataFrame) (src : string) :
  PyStr.all_space src = true \/ df = [] ->
  match_rows P df src = Returned [].
Proof.
  intros [H| ->]; [now apply match_rows_blank|apply match_rows_no_rows].
Qed.

Lemma match_rows_nothing_to_match_witness :
  (PyStr.all_space "   " = true \/ untrimmed = []) /\
  match_rows ref_pandas untrimmed "   " = Returned [].
Proof.
  split; [left; reflexivity|].
  apply (match_rows_nothing_to_match ref_pandas untrimmed "   ").
  left; reflexivity.
Defined.

(** C2, as the code has it.  Tier 1 holds the rows whose name, as the table
    stores it, equals the trimmed source name, letter case included; the row
    names are not trimmed by the resolver.  They are trimmed by the loader:
    on a table that went through [strip_names], tier 1 holds the rows whose
    name equals the source name after both are trimmed.  When tier 1 holds a
    row, it is the answer of the resolver. *)
Theorem exact_tier_compares_stored_names
    (P : Pandas) (df : DataFrame) (source_name : string) (r : Row) :
  (In r (exact_tier df (PyStr.strip source_name)) <->
   In r df /\ col_name r = PyStr.strip source_name) /\
  (In r (exact_tier (strip_names df) (PyStr.strip source_name)) <->
   In r (strip_names df) /\
   PyStr.strip (col_name r) = PyStr.strip source_name) /\
  (PyStr.all_space source_name = false ->
   exact_tier df (PyStr.strip source_name) <> [] ->
   match_rows P df source_name
   = Returned (exact_tier df (PyStr.strip source_name))).
Proof.
  split; [apply exact_tier_In|]. split; [|apply match_rows_exact].
  rewrite exact_tier_In. split; intros [Hin He]; split; try exact Hin.
  - now rewrite (strip_names_trimmed df r Hin).
  - now rewrite <- (strip_names_trimmed df r Hin).
Qed.

(** C2, as the design document has it, fails on a table whose names were
    not trimmed: the row named "Pump " equals the source name "Pump" once
    both are trimmed, yet tier 1 does not hold it; the resolver goes on to
    the pattern tier and answers with both rows. *)
Lemma exact_tier_misses_untrimmed_name :
  let r := mkRow (Some 1000%Z) "Pump " (RNum 1) in
  In r untrimmed /\
  PyStr.strip (col_name r) = PyStr.strip "Pump" /\
  exact_tier untrimmed (PyStr.strip "Pump") = [] /\
  match_rows ref_pandas untrimmed "Pump" = Returned untrimmed /\
  Spec.resolve untrimmed "Pump" = [r].
Proof.
  cbv zeta. split; [now left|]. repeat split; reflexivity.
Qed.

(** ** The resolver on patterns read as plain text *)

Section Literal.
Variable P : Pandas.

Lemma str_contains_literal (pat : string) (names : list string) :
  literal_search P pat ->
  str_contains P pat names
  = Returned (map (fun s => PyStr.contains (PyStr.lower pat) (PyStr.lower s))
                  names).
Proof.
  intros (search & Hc & Hs). unfold str_contains. rewrite Hc. f_equal.
  apply map_ext. exact Hs.
Qed.

Lemma contains_tier_literal (df : DataFrame) (src : string) :
  literal_search P (PyStr.strip src) ->
  contains_tier P df (PyStr.strip src) = Returned (Spec.substring_tier df src).
Proof.
  intros H. unfold contains_tier. rewrite (str_contains_literal _ _ H).
  cbn [mbind outcome_bind]. f_equal.
  apply (select_map_names
           (fun n => PyStr.contains (PyStr.lower (PyStr.strip src)) (PyStr.lower n))).
Qed.

Lemma mask_and_map {A : Type} (f g : A -> bool) (l : list A) :
  mask_and (map f l) (map g l) = map (fun x => f x && g x) l.
Proof. induction l as [|x l IH]; simpl; [reflexivity|now rewrite IH]. Qed.

Lemma keyword_loop_literal (kws : list string) (names : list string)
    (f : string -> bool) :
  Forall (literal_search P) kws ->
  keyword_loop P kws names (map f names)
  = Returned
      (map (fun n => f n &&
                     forallb (fun k => PyStr.contains (PyStr.lower k)
                                                      (PyStr.lower n)) kws)
           names).
Proof.
  intros H. revert f. induction H as [|k kws Hk _ IH]; intros f; simpl.
  - f_equal. apply map_ext. intros n. now rewrite andb_true_r.
  - rewrite (str_contains_literal _ _ Hk). cbn [mbind outcome_bind].
    rewrite mask_and_map, IH. f_equal. apply map_ext. intros n.
    now rewrite andb_assoc.
Qed.

Lemma repeat_true_names (df : DataFrame) :
  repeat true (List.length df)
  = map (fun _ : string => true) (map col_name df).
Proof. induction df as [|x l IH]; simpl; [reflexivity|now rewrite IH]. Qed.

Lemma keywords_of_split (s : string) : keywords_of s = PyStr.split s.
Proof.
  unfold keywords_of.
  pose proof (PyStrFacts.split_from_tokens s []) as H.
  fold (PyStr.split s) in H.
  induction H as [|k l Hk _ IH]; simpl; [reflexivity|].
  now rewrite Hk, IH.
Qed.

(** A source name that is not blank has a keyword: the ranker's third
    guard and an empty keyword loop are never met. *)
Lemma keywords_of_nonblank (src : string) :
  PyStr.all_space src = false -> keywords_of (PyStr.strip src) <> [].
Proof.
  intros Hs E. rewrite keywords_of_split in E.
  apply PyStrFacts.split_nil in E.
  rewrite <- PyStrFacts.strip_empty, PyStrFacts.strip_idem in E.
  apply PyStrFacts.strip_empty in E. congruence.
Qed.

Lemma keyword_tier_literal (df : DataFrame) (src : string) :
  PyStr.all_space src = false ->
  Forall (literal_search P) (keywords_of (PyStr.strip src)) ->
  keyword_tier P df (PyStr.strip src) = Returned (Spec.keyword_tier df src).
Proof.
  intros Hs H. unfold keyword_tier.
  rewrite (repeat_true_names df).
  rewrite (keyword_loop_literal _ _ (fun _ => true) H).
  cbn [mbind outcome_bind]. f_equal.
  rewrite (select_map_names
    (fun n => true && forallb (fun k => PyStr.contains (PyStr.lower k)
                                          (PyStr.lower n))
                        (keywords_of (PyStr.strip src)))).
  unfold Spec.keyword_tier. pose proof (keywords_of_nonblank src Hs) as Hne.
  rewrite keywords_of_split in *.
  destruct (PyStr.split (PyStr.strip src)); [now destruct Hne|reflexivity].
Qed.

(** On a table whose names are trimmed, and with a source name and
    keywords the library reads as plain text, the code resolves as the
    design document says. *)
Lemma match_rows_refines_spec (df : DataFrame) (src : string) :
  (forall r, In r df -> PyStr.strip (col_name r) = col_name r) ->
  literal_search P (PyStr.strip src) ->
  Forall (literal_search P) (keywords_of (PyStr.strip src)) ->
  match_rows P df src = Returned (Spec.resolve df src).
Proof.
  intros Htrim Hname Hkws. unfold Spec.resolve.
  rewrite PyStrFacts.strip_is_empty.
  destruct (PyStr.all_space src) eqn:Hs;
    [now apply match_rows_blank|].
  destruct df as [|r0 df]; [apply match_rows_no_rows|].
  cbn [orb df_empty].
  rewrite (match_rows_first_tier P (r0 :: df) _ _ src Hs
             (contains_tier_literal _ _ Hname)
             (keyword_tier_literal _ _ Hs Hkws)).
  do 2 f_equal. rewrite exact_tier_filter. unfold Spec.exact_tier.
  f_equal. apply filter_ext_in. intros r Hr. now rewrite (Htrim r Hr).
Qed.

End Literal.

(** C1, where the code departs from it.  The window holds "Pump 125" and
    the mapping asks for "Pump 1.5".  No name equals it, none contains it,
    and none contains the keyword "1.5": every tier of the design document
    is empty and so is its answer.  The code hands the source name to
    [str.contains] as a regular expression, in which the dot stands for any
    character, and answers with the row of "Pump 125". *)
Theorem match_rows_reads_name_as_pattern :
  match_rows ref_pandas pump_125 "Pump 1.5" = Returned pump_125 /\
  exact_tier pump_125 (PyStr.strip "Pump 1.5") = [] /\
  Spec.exact_tier pump_125 "Pump 1.5" = [] /\
  Spec.substring_tier pump_125 "Pump 1.5" = [] /\
  Spec.keyword_tier pump_125 "Pump 1.5" = [] /\
  Spec.resolve pump_125 "Pump 1.5" = [].
Proof. repeat split; reflexivity. Qed.

(** The same with any library in which, as in Python's [re], the pattern
    "Pump 1.5" is found in "Pump 125". *)
Lemma match_rows_pattern_hit (P : Pandas) :
  (exists search, re_compile P "Pump 1.5" = Some search /\
                  search "Pump 125" = true) ->
  match_rows P pump_125 "Pump 1.5" = Returned pump_125.
Proof.
  intros (search & Hc & Hs).
  unfold match_rows, contains_tier, str_contains.
  change (PyStr.strip "Pump 1.5") with "Pump 1.5". simpl.
  rewrite Hc. simpl. now rewrite Hs.
Qed.

(** A source name that is not a well-formed pattern -- here an opening
    parenthesis left open, as in a unit cut short -- makes tier 2 raise. *)
Lemma match_rows_raises_on_open_parenthesis :
  match_rows ref_pandas pump_125 "Flow (m3" = Raised re_error.
Proof. reflexivity. Qed.

(** ** Strings: substrings and the ordering *)

Module PyStrOrder.
Import PyStr.

Lemma prefix_app (k n : string) :
  String.prefix k n = true <-> exists post, n = (k ++ post)%string.
Proof.
  revert n. induction k as [|a k IH]; intros n.
  - split; [intros _; now exists n|]. intros _. now destruct n.
  - destruct n as [|b n]; simpl;
      [split; [discriminate|intros (post & H); discriminate]|].
    destruct (ascii_dec a b) as [->|Hne].
    + rewrite IH. split; intros (post & H); exists post.
      * subst n. reflexivity.
      * change (String b n = String b (k ++ post)%string) in H. congruence.
    + split; [discriminate|]. intros (post & H).
      change (String b n = String a (k ++ post)%string) in H. congruence.
Qed.

(** [k in n] says that [n] is [k] with something before and after. *)
Lemma contains_app (k n : string) :
  contains k n = true <-> exists pre post, n = (pre ++ k ++ post)%string.
Proof.
  induction n as [|b n IH]; cbn [contains]; rewrite orb_true_iff, prefix_app.
  - split.
    + intros [(post & H)|H]; [|discriminate]. now exists "", post.
    + intros (pre & post & H). left.
      destruct pre; [now exists post|discriminate].
  - rewrite IH. split.
    + intros [(post & H)|(pre & post & H)].
      * now exists "", post.
      * exists (String b pre), post. subst n. reflexivity.
    + intros (pre & post & H). destruct pre as [|c pre].
      * left. now exists post.
      * right. exists pre, post.
        change (String b n = String c (pre ++ k ++ post)%string) in H.
        congruence.
Qed.

Lemma compare_trans_le (a b c : string) :
  String.compare a b <> Gt -> String.compare b c <> Gt ->
  String.compare a c <> Gt.
Proof.
  revert b c. induction a as [|x a IH]; intros [|y b] [|z c]; simpl;
    try congruence.
  unfold Ascii.compare.
  destruct (N.compare_spec (N_of_ascii x) (N_of_ascii y)) as [E1|E1|E1],
           (N.compare_spec (N_of_ascii y) (N_of_ascii z)) as [E2|E2|E2],
           (N.compare_spec (N_of_ascii x) (N_of_ascii z)) as [E3|E3|E3];
    try congruence; try lia.
  apply IH.
Qed.

Lemma le_trans (a b c : string) :
  le a b = true -> le b c = true -> le a c = true.
Proof.
  unfold le, String.leb. intros H1 H2.
  pose proof (compare_trans_le a b c) as H.
  destruct (String.compare a b), (String.compare b c), (String.compare a c);
    try discriminate; try reflexivity; exfalso; apply H; congruence.
Qed.

Lemma le_total (a b : string) : le a b = true \/ le b a = true.
Proof. apply String.leb_total. Qed.

Lemma le_neq_lt (a b : string) : le a b = true -> a <> b -> lt a b = true.
Proof.
  unfold le, lt, String.leb, String.ltb. intros H Hne.
  destruct (String.compare a b) eqn:E; try discriminate; [|reflexivity].
  apply String.compare_eq_iff in E. contradiction.
Qed.

End PyStrOrder.

(** ** The ranker *)

Section Ranker.

Lemma hit_le_total (a b : nat * string) : hit_le a b = true \/ hit_le b a = true.
Proof.
  unfold hit_le.
  destruct (Nat.lt_trichotomy (fst a) (fst b)) as [H|[H|H]].
  - right. apply orb_true_iff. left. apply Z.ltb_lt. lia.
  - destruct (PyStrOrder.le_total (snd a) (snd b)) as [L|L]; [left|right];
      apply orb_true_iff; right; rewrite L, andb_true_r; apply Nat.eqb_eq; lia.
  - left. apply orb_true_iff. left. apply Z.ltb_lt. lia.
Qed.

Lemma hit_le_cases (a b : nat * string) :
  hit_le a b = true <->
  (fst b < fst a)%nat \/ (fst a = fst b /\ PyStr.le (snd a) (snd b) = true).
Proof.
  unfold hit_le. rewrite orb_true_iff, andb_true_iff, Z.ltb_lt, Nat.eqb_eq.
  split; (intros [H|H]; [left; lia|now right]).
Qed.

Lemma hit_le_trans (a b c : nat * string) :
  hit_le a b = true -> hit_le b c = true -> hit_le a c = true.
Proof.
  rewrite !hit_le_cases. intros [H1|[H1 L1]] [H2|[H2 L2]].
  - left; lia.
  - left; lia.
  - left; lia.
  - right. split; [lia|]. now apply (PyStrOrder.le_trans _ (snd b)).
Qed.

Lemma unique_In (l : list string) (x : string) : In x (unique l) <-> In x l.
Proof.
  induction l as [|y l IH]; simpl; [tauto|].
  rewrite filter_In, IH, negb_true_iff, String.eqb_neq.
  destruct (string_dec y x) as [->|Hne]; [tauto|].
  split; [tauto|]. intros [H|H]; [contradiction|]. right. split; [exact H|congruence].
Qed.

Lemma unique_NoDup (l : list string) : List.NoDup (unique l).
Proof.
  induction l as [|y l IH]; simpl; constructor.
  - rewrite filter_In, negb_true_iff, String.eqb_neq. tauto.
  - now apply List.NoDup_filter.
Qed.

Lemma collect_hits_In (kws candidates : list string) (p : nat * string) :
  In p (collect_hits kws candidates) <->
  In (snd p) candidates /\ fst p = score kws (snd p) /\ (0 < fst p)%nat.
Proof.
  induction candidates as [|n c IH]; simpl; [tauto|].
  destruct (Nat.ltb_spec 0 (score kws n)) as [H|H]; simpl; rewrite IH.
  - split.
    + intros [<-|(Hin & Hs & Hp)]; simpl; auto.
    + intros ([->|Hin] & Hs & Hp); [left; destruct p; simpl in *; congruence|auto].
  - split; [tauto|]. intros ([->|Hin] & Hs & Hp); [lia|auto].
Qed.

Lemma collect_hits_NoDup (kws candidates : list string) :
  List.NoDup candidates -> List.NoDup (map snd (collect_hits kws candidates)).
Proof.
  induction 1 as [|n c Hn Hc IH]; simpl; [constructor|].
  destruct (0 <? score kws n)%nat; [|exact IH]. simpl. constructor; [|exact IH].
  rewrite in_map_iff. intros (p & <- & Hp). apply collect_hits_In in Hp. tauto.
Qed.

Lemma score_positive (kws : list string) (n : string) :
  (0 < score kws n)%nat ->
  exists k, In k kws /\ PyStr.contains (PyStr.lower k) (PyStr.lower n) = true.
Proof.
  unfold score. intros H.
  destruct (List.filter _ kws) as [|k l] eqn:E; [simpl in H; lia|].
  exists k.
  apply (filter_In (fun k => PyStr.contains (PyStr.lower k) (PyStr.lower n))).
  rewrite E. now left.
Qed.

Lemma firstn_incl {A : Type} (n : nat) (l : list A) (x : A) :
  In x (firstn n l) -> In x l.
Proof.
  revert n. induction l as [|y l IH]; intros [|n]; simpl; try tauto.
  intros [H|H]; [now left|right; now apply (IH n)].
Qed.

Lemma firstn_sorted {A : Type} (R : A -> A -> Prop) (n : nat) (l : list A) :
  StronglySorted R l -> StronglySorted R (firstn n l).
Proof.
  intros H. revert n. induction H as [|y l Hs IH Hall]; intros [|n]; simpl;
    try constructor; [apply IH|].
  rewrite List.Forall_forall in *. intros x Hx. apply Hall.
  now apply (firstn_incl n).
Qed.

Lemma firstn_NoDup {A : Type} (n : nat) (l : list A) :
  List.NoDup l -> List.NoDup (firstn n l).
Proof.
  intros H. revert n. induction H as [|y l Hn Hs IH]; intros [|n]; simpl;
    try constructor; [|apply IH].
  intros Hx. apply Hn. now apply (firstn_incl n).
Qed.

Lemma slice_to_firstn {A : Type} (l : list A) (k : Z) :
  (0 <= k)%Z -> slice_to l k = firstn (Z.to_nat k) l.
Proof. intros H. unfold slice_to. destruct (Z.leb_spec 0 k); [reflexivity|lia]. Qed.

Lemma ranked_names (kws : list string) (hits : list (nat * string)) :
  StronglySorted (fun a b => hit_le a b = true) hits ->
  List.NoDup (map snd hits) ->
  (forall p, In p hits -> fst p = score kws (snd p)) ->
  StronglySorted (ranked_before kws) (map snd hits).
Proof.
  induction 1 as [|p l Hs IH Hall]; intros Hnd Hsc; simpl; constructor.
  - apply IH; [now inversion Hnd|]. intros q Hq. apply Hsc. now right.
  - inversion Hnd as [|? ? Hnotin _]; subst.
    rewrite List.Forall_map, List.Forall_forall. intros q Hq.
    rewrite List.Forall_forall in Hall. specialize (Hall q Hq).
    apply hit_le_cases in Hall. unfold ranked_before.
    rewrite <- (Hsc p (or_introl eq_refl)), <- (Hsc q (or_intror Hq)).
    destruct Hall as [H|[H L]]; [now left|right]. split; [exact H|].
    apply PyStrOrder.le_neq_lt; [exact L|].
    intros E. apply Hnotin. rewrite E. now apply in_map.
Qed.

End Ranker.

(** What the ranker returns: the names of a list of hits, cut to [topk];
    the hits are in order, name no candidate twice, and pair each name of
    the window that scores with its score. *)
Lemma miss_candidates_shape (df_win : DataFrame) (src : string) (topk : Z) :
  let kws := keywords_of (PyStr.strip src) in
  exists hits : list (nat * string),
    miss_candidates df_win src topk = map snd (slice_to hits topk) /\
    StronglySorted (fun a b => hit_le a b = true) hits /\
    List.NoDup (map snd hits) /\
    forall p, In p hits ->
      In (snd p) (map col_name df_win) /\
      fst p = score kws (snd p) /\ (0 < fst p)%nat.
Proof.
  intros kws.
  assert (Hnil : exists hits : list (nat * string),
    @nil string = map snd (slice_to hits topk) /\
    StronglySorted (fun a b => hit_le a b = true) hits /\
    List.NoDup (map snd hits) /\
    forall p, In p hits ->
      In (snd p) (map col_name df_win) /\
      fst p = score kws (snd p) /\ (0 < fst p)%nat).
  { exists []. split; [|split; [constructor|split; [constructor|intros p []]]].
    unfold slice_to. destruct (0 <=? topk)%Z; now rewrite firstn_nil. }
  unfold miss_candidates.
  destruct (df_empty df_win); [exact Hnil|].
  destruct (PyStr.is_empty (PyStr.strip src)); [exact Hnil|].
  fold kws. destruct (df_empty kws); [exact Hnil|].
  set (hits := collect_hits kws (unique (map col_name df_win))).
  pose proof (sort_by_perm hit_le hits) as Hperm.
  exists (sort_by hit_le hits). split; [reflexivity|]. split; [|split].
  - apply sort_by_sorted; [apply hit_le_total|apply hit_le_trans].
  - apply (Permutation_NoDup (l := map snd hits)).
    + apply Permutation_map, Permutation_sym, Hperm.
    + apply collect_hits_NoDup, unique_NoDup.
  - intros p Hp. apply (Permutation_in _ Hperm) in Hp.
    apply collect_hits_In in Hp. rewrite unique_In in Hp. exact Hp.
Qed.

(** C7, as the code has it.  For a [topk] that is not negative the ranker
    returns at most [topk] names; each is a name of the window that
    contains, letter case apart, at least one keyword of the source name, so
    none scores 0; and the names come in the order of the key: a name before
    another has a higher score, or the same score and is the smaller of the
    two -- an order in which no two names rank equal. *)
Theorem miss_candidates_ranking (df_win : DataFrame) (src : string) (topk : Z) :
  (0 <= topk)%Z ->
  let out := miss_candidates df_win src topk in
  let kws := keywords_of (PyStr.strip src) in
  (Z.of_nat (List.length out) <= topk)%Z /\
  (forall n, In n out ->
     In n (map col_name df_win) /\
     (0 < score kws n)%nat /\
     exists k pre post,
       In k kws /\
       PyStr.lower n = (pre ++ PyStr.lower k ++ post)%string) /\
  StronglySorted (ranked_before kws) out.
Proof.
  intros Hk out kws.
  destruct (miss_candidates_shape df_win src topk)
    as (hits & Hout & Hsorted & Hnodup & Hhits).
  fold kws in Hhits. fold out in Hout.
  rewrite (slice_to_firstn hits topk Hk) in Hout.
  split; [|split].
  - rewrite Hout, length_map, length_firstn. lia.
  - intros n Hn. rewrite Hout in Hn. apply in_map_iff in Hn.
    destruct Hn as (p & <- & Hp). apply firstn_incl in Hp.
    destruct (Hhits p Hp) as (Hin & Hs & Hpos).
    split; [exact Hin|]. rewrite Hs in Hpos. split; [exact Hpos|].
    destruct (score_positive kws (snd p) Hpos) as (k & Hkin & Hc).
    apply PyStrOrder.contains_app in Hc. destruct Hc as (pre & post & Hc).
    now exists k, pre, post.
  - rewrite Hout. apply ranked_names.
    + now apply firstn_sorted.
    + rewrite <- firstn_map. now apply firstn_NoDup.
    + intros p Hp. apply firstn_incl in Hp. now apply Hhits.
Qed.

Lemma miss_candidates_ranking_witness :
  (0 <= 2)%Z /\
  (Z.of_nat (List.length (miss_candidates window "pump a" 2)) <= 2)%Z /\
  StronglySorted (ranked_before (keywords_of (PyStr.strip "pump a")))
                 (miss_candidates window "pump a" 2).
Proof.
  assert (H : (0 <= 2)%Z) by lia.
  split; [exact H|].
  destruct (miss_candidates_ranking window "pump a" 2 H) as (Hlen & _ & Hs).
  split; [exact Hlen|exact Hs].
Defined.

(** C7, as the design document has it, fails for a negative [topk]: the
    slice [hits[:-1]] drops the last name of the ranking and keeps the
    others, three names where at most -1 are promised. *)
Lemma miss_candidates_negative_topk :
  miss_candidates window "pump a" (-1)
  = ["A pump x"; "Pump A Flow"; "Pump B Flow"] /\
  ~ (Z.of_nat (List.length (miss_candidates window "pump a" (-1))) <= -1)%Z.
Proof. split; [reflexivity|]. vm_compute. intros H. now apply H. Qed.

(** C10. The ranker has nothing to rank, and returns the empty list, when
    the window is empty, when the source name is blank after trimming, and
    when it yields no keyword; which names the window holds plays no part. *)
Theorem miss_candidates_nothing_to_rank
    (df_win : DataFrame) (src : string) (topk : Z) :
  df_win = [] \/ PyStr.strip src = "" \/ keywords_of (PyStr.strip src) = [] ->
  miss_candidates df_win src topk = [].
Proof.
  intros H. unfold miss_candidates.
  destruct df_win as [|r df]; [reflexivity|]. cbn [df_empty].
  destruct H as [H|[H|H]]; [discriminate| |].
  - now rewrite H.
  - destruct (PyStr.is_empty (PyStr.strip src)); [reflexivity|].
    now rewrite H.
Qed.

Lemma miss_candidates_nothing_to_rank_witness :
  (window = [] \/ PyStr.strip "  " = "" \/ keywords_of (PyStr.strip "  ") = []) /\
  miss_candidates window "  " 5 = [].
Proof.
  assert (H : window = [] \/ PyStr.strip "  " = ""
              \/ keywords_of (PyStr.strip "  ") = [])
    by (right; left; reflexivity).
  split; [exact H|]. exact (miss_candidates_nothing_to_rank window "  " 5 H).
Defined.

(** ** The template writer *)

Section Writer.

Lemma get_cell_insert_eq (cells : gmap (positive * positive) cell)
    (ranges : list CellRange) (a : Addr) (c : cell) :
  get_cell (mkWorksheet (<[a := c]> cells) ranges) a = c.
Proof. unfold get_cell. simpl. now rewrite lookup_insert_eq. Qed.

Lemma get_cell_insert_ne (cells : gmap (positive * positive) cell)
    (ranges : list CellRange) (a b : Addr) (c : cell) :
  a <> b ->
  get_cell (mkWorksheet (<[a := c]> cells) ranges) b
  = get_cell (mkWorksheet cells ranges) b.
Proof. intros H. unfold get_cell. simpl. now rewrite lookup_insert_ne. Qed.

Lemma in_range_anchor (r : CellRange) (a : Addr) :
  in_range r a = true -> in_range r (anchor r) = true.
Proof.
  unfold in_range, anchor. simpl.
  rewrite !andb_true_iff, !Pos.leb_le. lia.
Qed.

(** A write to an address that cannot be written and belongs to no range
    leaves the sheet as it was and returns. *)
Lemma write_orphan (ws : Worksheet) (addr : Addr) (value : cell_value) :
  orphan ws addr -> _safe_write_cell ws addr value = Returned ws.
Proof.
  intros [Hm Hnone]. unfold _safe_write_cell. rewrite Hm.
  destruct (List.find _ (merged_cells ws)) as [r|] eqn:E; [|reflexivity].
  apply find_some in E. destruct E as [Hin Hr].
  rewrite (Hnone r Hin) in Hr. discriminate.
Qed.

(** A write to an ordinary cell that already holds the value. *)
Lemma write_same_value (ws : Worksheet) (addr : Addr) (value : cell_value) :
  _cells ws !! addr = Some (Cell (Some value)) ->
  _safe_write_cell ws addr value = Returned ws.
Proof.
  intros Hc. unfold _safe_write_cell, get_cell. rewrite Hc. simpl.
  rewrite (insert_id _ _ _ Hc). now destruct ws.
Qed.

(** A write to any address of a merged range lands on its top-left cell. *)
Lemma write_member (ws : Worksheet) (r : CellRange) (a : Addr)
    (value : cell_value) :
  well_merged ws -> In r (merged_cells ws) -> in_range r a = true ->
  _safe_write_cell ws a value
  = Returned (mkWorksheet (<[anchor r := Cell (Some value)]> (_cells ws))
                          (merged_cells ws)).
Proof.
  intros (Hanchor & Hmember & Hdisjoint) Hin Ha. unfold _safe_write_cell.
  destruct (get_cell ws a) as [old|] eqn:Hc.
  - destruct (decide (a = anchor r)) as [->|Hne]; [reflexivity|].
    pose proof (Hmember r a Hin Ha Hne) as Hm.
    unfold get_cell in Hc. rewrite Hm in Hc. discriminate.
  - destruct (List.find _ (merged_cells ws)) as [r'|] eqn:E.
    + apply find_some in E. destruct E as [Hin' Hr'].
      rewrite (Hdisjoint r' r a Hin' Hin Hr' Ha).
      unfold set_value.
      destruct (get_cell ws (anchor r)) eqn:Hanc; [reflexivity|].
      now destruct (Hanchor r Hin).
    + pose proof (find_none _ _ E r Hin) as Hn. simpl in Hn. congruence.
Qed.

(** The sheet stays well merged under such a write. *)
Lemma write_member_well_merged (ws : Worksheet) (r : CellRange) (a : Addr)
    (value : cell_value) :
  well_merged ws -> In r (merged_cells ws) -> in_range r a = true ->
  well_merged (mkWorksheet (<[anchor r := Cell (Some value)]> (_cells ws))
                           (merged_cells ws)).
Proof.
  intros (Hanchor & Hmember & Hdisjoint) Hin Ha.
  split; [|split]; simpl.
  - intros r' Hin'. destruct (decide (anchor r = anchor r')) as [E|Hne].
    + rewrite <- E, get_cell_insert_eq. discriminate.
    + rewrite (get_cell_insert_ne _ _ _ _ _ Hne).
      destruct ws; now apply Hanchor.
  - intros r' b Hin' Hb Hne.
    destruct (decide (anchor r = b)) as [E|Hne'].
    + exfalso. apply Hne. subst b.
      now rewrite (Hdisjoint r' r (anchor r) Hin' Hin Hb (in_range_anchor r a Ha)).
    + rewrite lookup_insert_ne by exact Hne'. exact (Hmember r' b Hin' Hb Hne).
  - exact Hdisjoint.
Qed.

End Writer.

(** C8. On a well-merged sheet, a write to any address of a merged range
    returns, stores the value in the top-left cell of the range -- where a
    read then finds it -- and changes nothing else: every other address
    keeps what it held and the list of ranges is the same.  A second write,
    to any address of the same range, lands on the same cell and its value
    replaces the first. *)
Theorem write_to_merged_range
    (ws : Worksheet) (r : CellRange) (a1 a2 : Addr) (v1 v2 : cell_value) :
  well_merged ws ->
  In r (merged_cells ws) ->
  in_range r a1 = true ->
  in_range r a2 = true ->
  exists ws1 ws2 : Worksheet,
    _safe_write_cell ws a1 v1 = Returned ws1 /\
    get_cell ws1 (anchor r) = Cell (Some v1) /\
    (forall a, a <> anchor r -> _cells ws1 !! a = _cells ws !! a) /\
    merged_cells ws1 = merged_cells ws /\
    _safe_write_cell ws1 a2 v2 = Returned ws2 /\
    get_cell ws2 (anchor r) = Cell (Some v2) /\
    (forall a, a <> anchor r -> _cells ws2 !! a = _cells ws !! a) /\
    merged_cells ws2 = merged_cells ws.
Proof.
  intros Hwf Hin H1 H2.
  pose proof (write_member ws r a1 v1 Hwf Hin H1) as W1.
  pose proof (write_member_well_merged ws r a1 v1 Hwf Hin H1) as Hwf1.
  set (ws1 := mkWorksheet (<[anchor r := Cell (Some v1)]> (_cells ws))
                          (merged_cells ws)) in *.
  pose proof (write_member ws1 r a2 v2 Hwf1 Hin H2) as W2.
  exists ws1, (mkWorksheet (<[anchor r := Cell (Some v2)]> (_cells ws1))
                           (merged_cells ws1)).
  split; [exact W1|]. split; [apply get_cell_insert_eq|].
  split; [intros a Ha; simpl; now rewrite lookup_insert_ne|].
  split; [reflexivity|]. split; [exact W2|].
  split; [apply get_cell_insert_eq|].
  split; [|reflexivity].
  intros a Ha. simpl. now rewrite !lookup_insert_ne.
Qed.

Lemma merged_sheet_well_merged : well_merged merged_sheet.
Proof.
  split; [|split]; simpl.
  - intros r [<-|[]]. vm_compute. discriminate.
  - intros r [row col] [<-|[]] Hin Hne.
    unfold in_range in Hin. simpl in Hin.
    rewrite !andb_true_iff, !Pos.leb_le in Hin.
    assert (Hrow : row = 1%positive \/ row = 2%positive) by lia.
    assert (Hcol : col = 1%positive \/ col = 2%positive) by lia.
    destruct Hrow as [-> | ->], Hcol as [-> | ->];
      try reflexivity. now destruct Hne.
  - intros r1 r2 a [<-|[]] [<-|[]] _ _. reflexivity.
Qed.

Lemma write_to_merged_range_witness :
  well_merged merged_sheet /\
  In block (merged_cells merged_sheet) /\
  in_range block (2, 2)%positive = true /\
  in_range block (1, 2)%positive = true /\
  exists ws1 ws2 : Worksheet,
    _safe_write_cell merged_sheet (2, 2)%positive (VNumber 13) = Returned ws1 /\
    get_cell ws1 (anchor block) = Cell (Some (VNumber 13)) /\
    (forall a, a <> anchor block ->
               _cells ws1 !! a = _cells merged_sheet !! a) /\
    merged_cells ws1 = merged_cells merged_sheet /\
    _safe_write_cell ws1 (1, 2)%positive (VText "NA") = Returned ws2 /\
    get_cell ws2 (anchor block) = Cell (Some (VText "NA")) /\
    (forall a, a <> anchor block ->
               _cells ws2 !! a = _cells merged_sheet !! a) /\
    merged_cells ws2 = merged_cells merged_sheet.
Proof.
  assert (Hin : In block (merged_cells merged_sheet)) by (now left).
  assert (H1 : in_range block (2, 2)%positive = true) by reflexivity.
  assert (H2 : in_range block (1, 2)%positive = true) by reflexivity.
  split; [exact merged_sheet_well_merged|].
  split; [exact Hin|]. split; [exact H1|]. split; [exact H2|].
  exact (write_to_merged_range merged_sheet block (2, 2)%positive (1, 2)%positive
           (VNumber 13) (VText "NA") merged_sheet_well_merged Hin H1 H2).
Defined.

(** C4, as the code has it.  A write to an address that cannot be written
    and lies in no merged range is skipped: the call returns, and the sheet
    it leaves is the sheet it was given.  Nothing reports the skip: a write
    that succeeds in storing a value its cell already holds ends in the
    very same outcome. *)
Theorem void_write_is_silent (ws : Worksheet) (addr : Addr) (value : cell_value) :
  orphan ws addr ->
  _safe_write_cell ws addr value = Returned ws /\
  forall addr' : Addr,
    _cells ws !! addr' = Some (Cell (Some value)) ->
    _safe_write_cell ws addr' value = _safe_write_cell ws addr value.
Proof.
  intros Ho. pose proof (write_orphan ws addr value Ho) as Hv.
  split; [exact Hv|]. intros addr' Hc. rewrite Hv.
  now apply write_same_value.
Qed.

Lemma damaged_sheet_orphan : orphan damaged_sheet (1, 1)%positive.
Proof. split; [reflexivity|]. intros r []. Qed.

Lemma void_write_is_silent_witness :
  orphan damaged_sheet (1, 1)%positive /\
  _safe_write_cell damaged_sheet (1, 1)%positive (VText "NA")
  = Returned damaged_sheet.
Proof.
  split; [exact damaged_sheet_orphan|].
  exact (proj1 (void_write_is_silent damaged_sheet (1, 1)%positive (VText "NA")
                  damaged_sheet_orphan)).
Defined.

(** C4, as the design document has it, fails: on the damaged sheet the
    skipped write to A1 and the successful write to A2 cannot be told
    apart, neither by what the call returns nor by the sheet it leaves. *)
Lemma void_write_not_surfaced :
  orphan damaged_sheet (1, 1)%positive /\
  get_cell damaged_sheet (2, 1)%positive = Cell (Some (VText "NA")) /\
  _safe_write_cell damaged_sheet (1, 1)%positive (VText "NA")
  = Returned damaged_sheet /\
  _safe_write_cell damaged_sheet (2, 1)%positive (VText "NA")
  = Returned damaged_sheet.
Proof.
  split; [exact damaged_sheet_orphan|]. split; [reflexivity|]. split.
  - apply write_orphan, damaged_sheet_orphan.
  - apply write_same_value. reflexivity.
Qed.

(** ** The reference library on plain patterns *)

Module RefLiteral.
Import Ref.

Lemma special_dot (c : ascii) : is_special c = false -> is_dot c = false.
Proof.
  unfold is_special, is_dot. simpl. intros H.
  apply orb_false_iff in H. tauto.
Qed.

Lemma plain_in_fragment (pat : string) :
  is_plain pat = true -> in_fragment pat = true.
Proof.
  induction pat as [|c pat IH]; simpl; [reflexivity|].
  rewrite andb_true_iff. intros [Hc Hp]. rewrite Hc, (IH Hp).
  now rewrite orb_true_r.
Qed.

Lemma match_here_prefix (pat s : string) :
  is_plain pat = true ->
  match_here pat s = String.prefix (PyStr.lower pat) (PyStr.lower s).
Proof.
  revert s. induction pat as [|p pat IH]; intros s.
  - intros _. now destruct s.
  - simpl. rewrite andb_true_iff, negb_true_iff. intros [Hc Hp].
    destruct s as [|c s]; [reflexivity|]. simpl.
    unfold char_matches. rewrite (special_dot p Hc).
    destruct (ascii_dec (PyStr.lower_char p) (PyStr.lower_char c)) as [E|E].
    + rewrite E, Ascii.eqb_refl. simpl. now apply IH.
    + apply Ascii.eqb_neq in E. now rewrite E.
Qed.

Lemma search_contains (pat s : string) :
  is_plain pat = true ->
  search pat s = PyStr.contains (PyStr.lower pat) (PyStr.lower s).
Proof.
  intros Hp. induction s as [|c s IH].
  - cbn [search PyStr.contains PyStr.lower PyStr.map_chars].
    now rewrite (match_here_prefix pat "" Hp).
  - cbn [search]. rewrite IH, (match_here_prefix pat (String c s) Hp).
    reflexivity.
Qed.

(** A pattern without special characters is read as plain text. *)
Lemma plain_literal (pat : string) :
  is_plain pat = true -> literal_search ref_pandas pat.
Proof.
  intros Hp. exists (search pat). split.
  - simpl. unfold re_compile. now rewrite (plain_in_fragment pat Hp).
  - intros s. now apply search_contains.
Qed.

End RefLiteral.

(** Scenario C of the design document: the keywords of "pump flow a" are all
    found in "Pump A Flow (m3/h)", and the code answers as the document
    says. *)
Lemma match_rows_scenario_c :
  let table := [mkRow (Some 1000%Z) "Pump A Flow (m3/h)" (RNum 7)] in
  match_rows ref_pandas table "pump flow a" = Returned (Spec.resolve table "pump flow a")
  /\ Spec.resolve table "pump flow a" = table.
Proof.
  cbv zeta. split; [|reflexivity].
  apply match_rows_refines_spec.
  - intros r [<-|[]]. reflexivity.
  - now apply RefLiteral.plain_literal.
  - repeat constructor; now apply RefLiteral.plain_literal.
Qed.

(** * Properties of the rest of the program *)


(** ** The writer on any sheet *)

Section WriterFrame.

Lemma safe_write_target (ws : Worksheet) (addr : Addr) (value : cell_value) :
  _safe_write_cell ws addr value
  = match write_target ws addr with
    | Some t => set_value ws t value
    | None => Returned ws
    end.
Proof.
  unfold _safe_write_cell, write_target.
  destruct (get_cell ws addr) as [old|] eqn:E.
  - unfold set_value. now rewrite E.
  - now destruct (List.find _ (merged_cells ws)).
Qed.

Lemma set_value_returned (ws ws' : Worksheet) (t : Addr) (value : cell_value) :
  set_value ws t value = Returned ws' ->
  get_cell ws t <> MergedCell /\
  ws' = mkWorksheet (<[t := Cell (Some value)]> (_cells ws)) (merged_cells ws).
Proof.
  unfold set_value. destruct (get_cell ws t); [|discriminate].
  intros H. injection H as <-. split; [discriminate|reflexivity].
Qed.

Lemma safe_write_returned (ws ws' : Worksheet) (addr : Addr) (value : cell_value) :
  _safe_write_cell ws addr value = Returned ws' ->
  match write_target ws addr with
  | Some t =>
      get_cell ws t <> MergedCell /\
      ws' = mkWorksheet (<[t := Cell (Some value)]> (_cells ws)) (merged_cells ws)
  | None => ws' = ws
  end.
Proof.
  rewrite safe_write_target. destruct (write_target ws addr) as [t|].
  - apply set_value_returned.
  - congruence.
Qed.

Lemma get_cell_merged (ws : Worksheet) (b : Addr) :
  get_cell ws b = MergedCell <-> _cells ws !! b = Some MergedCell.
Proof.
  unfold get_cell. destruct (_cells ws !! b) as [[v|]|]; simpl;
    split; congruence.
Qed.

(** A write keeps the ranges and the placeholders where they are. *)
Lemma safe_write_keeps_merged (ws ws' : Worksheet) (addr : Addr)
    (value : cell_value) :
  _safe_write_cell ws addr value = Returned ws' ->
  merged_cells ws' = merged_cells ws /\
  forall b, get_cell ws' b = MergedCell <-> get_cell ws b = MergedCell.
Proof.
  intros H. apply safe_write_returned in H.
  destruct (write_target ws addr) as [t|]; [|subst; tauto].
  destruct H as [Ht ->]. split; [reflexivity|]. intros b.
  destruct (decide (t = b)) as [<-|Hne].
  - rewrite get_cell_insert_eq. split; [discriminate|]. intros E. contradiction.
  - rewrite (get_cell_insert_ne _ _ _ _ _ Hne). now destruct ws.
Qed.

Lemma safe_write_keeps_target (ws ws' : Worksheet) (addr b : Addr)
    (value : cell_value) :
  _safe_write_cell ws addr value = Returned ws' ->
  write_target ws' b = write_target ws b.
Proof.
  intros H. destruct (safe_write_keeps_merged ws ws' addr value H) as [Hr Hm].
  unfold write_target. rewrite Hr.
  destruct (get_cell ws' b) as [v'|] eqn:E', (get_cell ws b) as [v|] eqn:E;
    try reflexivity.
  - apply Hm in E. congruence.
  - apply Hm in E'. congruence.
Qed.

End WriterFrame.

(** X1. A write that returns changes at most one cell, the one it lands on
    ([write_target]), and that cell then holds the value; every other
    address keeps what it held, the list of merged ranges is the same, and
    an address holds a [MergedCell] after the write exactly if it did
    before. *)
Theorem safe_write_frame
    (ws ws' : Worksheet) (addr : Addr) (value : cell_value) :
  _safe_write_cell ws addr value = Returned ws' ->
  merged_cells ws' = merged_cells ws /\
  (forall b, get_cell ws' b = MergedCell <-> get_cell ws b = MergedCell) /\
  (forall b, write_target ws addr <> Some b -> _cells ws' !! b = _cells ws !! b) /\
  (forall t, write_target ws addr = Some t -> get_cell ws' t = Cell (Some value)).
Proof.
  intros H. destruct (safe_write_keeps_merged ws ws' addr value H) as [Hr Hm].
  split; [exact Hr|]. split; [exact Hm|].
  apply safe_write_returned in H.
  destruct (write_target ws addr) as [t|].
  - destruct H as [_ ->]. split.
    + intros b Hb. simpl. apply lookup_insert_ne. congruence.
    + intros t' E. injection E as <-. apply get_cell_insert_eq.
  - subst ws'. split; [reflexivity|discriminate].
Qed.

Lemma safe_write_frame_witness :
  _safe_write_cell merged_sheet (2, 2)%positive (VNumber 13)
  = Returned (mkWorksheet (<[(1, 1)%positive := Cell (Some (VNumber 13))]>
                             (_cells merged_sheet)) [block]) /\
  get_cell (mkWorksheet (<[(1, 1)%positive := Cell (Some (VNumber 13))]>
                           (_cells merged_sheet)) [block]) (1, 1)%positive
  = Cell (Some (VNumber 13)).
Proof.
  assert (H : _safe_write_cell merged_sheet (2, 2)%positive (VNumber 13)
              = Returned (mkWorksheet
                            (<[(1, 1)%positive := Cell (Some (VNumber 13))]>
                               (_cells merged_sheet)) [block]))
    by reflexivity.
  split; [exact H|].
  apply (proj2 (proj2 (proj2 (safe_write_frame _ _ _ _ H)))). reflexivity.
Defined.

(** A write that returns keeps a well-merged sheet well merged. *)
Lemma safe_write_keeps_well_merged
    (ws ws' : Worksheet) (addr : Addr) (value : cell_value) :
  well_merged ws ->
  _safe_write_cell ws addr value = Returned ws' ->
  well_merged ws'.
Proof.
  intros Hwf. pose proof Hwf as (Hanchor & Hmember & Hdisjoint).
  unfold _safe_write_cell. destruct (get_cell ws addr) as [old|] eqn:Hc.
  - intros H. injection H as <-. split; [|split]; simpl.
    + intros r Hin. destruct (decide (addr = anchor r)) as [E|Hne].
      * rewrite <- E, get_cell_insert_eq. discriminate.
      * rewrite (get_cell_insert_ne _ _ _ _ _ Hne). destruct ws. now apply Hanchor.
    + intros r b Hin Hb Hne. destruct (decide (addr = b)) as [E|Hne'].
      * subst b. pose proof (Hmember r addr Hin Hb Hne) as Hm.
        apply get_cell_merged in Hm. congruence.
      * rewrite lookup_insert_ne by exact Hne'. exact (Hmember r b Hin Hb Hne).
    + exact Hdisjoint.
  - destruct (List.find _ (merged_cells ws)) as [r|] eqn:E.
    + apply find_some in E. destruct E as [Hin Hr].
      unfold set_value. destruct (get_cell ws (anchor r)); [|discriminate].
      intros H. injection H as <-.
      now apply (write_member_well_merged ws r addr).
    + intros H. now injection H as <-.
Qed.

(** X2. The writer keeps a sheet well merged.  When a write to a cell of a
    well-merged sheet returns, the sheet it leaves is well merged again: the
    top-left cell of every range is still an ordinary cell, every other
    address of a range still holds a [MergedCell], and the ranges are the
    same.  If the address lies in a merged range, the top-left cell of that
    range holds the value. *)
Theorem safe_write_well_merged
    (ws ws' : Worksheet) (addr : Addr) (value : cell_value) :
  well_merged ws ->
  _safe_write_cell ws addr value = Returned ws' ->
  well_merged ws' /\
  merged_cells ws' = merged_cells ws /\
  (forall r, In r (merged_cells ws) -> in_range r addr = true ->
             get_cell ws' (anchor r) = Cell (Some value)).
Proof.
  intros Hwf H.
  split; [exact (safe_write_keeps_well_merged ws ws' addr value Hwf H)|].
  split; [exact (proj1 (safe_write_keeps_merged ws ws' addr value H))|].
  intros r Hin Hr. rewrite (write_member ws r addr value Hwf Hin Hr) in H.
  injection H as <-. apply get_cell_insert_eq.
Qed.

Lemma safe_write_well_merged_witness :
  well_merged merged_sheet /\
  _safe_write_cell merged_sheet (2, 2)%positive (VNumber 13)
  = Returned (mkWorksheet (<[(1, 1)%positive := Cell (Some (VNumber 13))]>
                             (_cells merged_sheet)) [block]) /\
  well_merged (mkWorksheet (<[(1, 1)%positive := Cell (Some (VNumber 13))]>
                              (_cells merged_sheet)) [block]).
Proof.
  assert (H : _safe_write_cell merged_sheet (2, 2)%positive (VNumber 13)
              = Returned (mkWorksheet
                            (<[(1, 1)%positive := Cell (Some (VNumber 13))]>
                               (_cells merged_sheet)) [block]))
    by reflexivity.
  split; [exact merged_sheet_well_merged|]. split; [exact H|].
  exact (proj1 (safe_write_well_merged _ _ _ _ merged_sheet_well_merged H)).
Defined.

(** X3. A write makes an earlier write to the same target cell invisible:
    after a write that returned, a write to any address with the same
    target ends as it would have on the sheet before.  In particular a
    write repeated leaves the sheet of the first. *)
Theorem safe_write_overwrites
    (ws ws1 : Worksheet) (a a' : Addr) (v v' : cell_value) :
  _safe_write_cell ws a v = Returned ws1 ->
  write_target ws a' = write_target ws a ->
  _safe_write_cell ws1 a' v' = _safe_write_cell ws a' v' /\
  _safe_write_cell ws1 a v = Returned ws1.
Proof.
  intros H Ht.
  assert (Hgen : forall b w, write_target ws b = write_target ws a ->
                             _safe_write_cell ws1 b w = _safe_write_cell ws b w).
  { intros b w Hb. rewrite !safe_write_target.
    rewrite (safe_write_keeps_target ws ws1 a b v H), Hb.
    pose proof (safe_write_returned ws ws1 a v H) as Hr.
    destruct (write_target ws a) as [t|]; [|now subst].
    destruct Hr as [Hc ->]. unfold set_value.
    rewrite get_cell_insert_eq. simpl. rewrite insert_insert_eq.
    destruct (get_cell ws t); [reflexivity|contradiction]. }
  split; [now apply Hgen|]. rewrite Hgen by reflexivity. exact H.
Qed.

Lemma safe_write_overwrites_witness :
  _safe_write_cell merged_sheet (2, 2)%positive (VNumber 13)
  = Returned (mkWorksheet (<[(1, 1)%positive := Cell (Some (VNumber 13))]>
                             (_cells merged_sheet)) [block]) /\
  write_target merged_sheet (1, 2)%positive
  = write_target merged_sheet (2, 2)%positive /\
  _safe_write_cell
    (mkWorksheet (<[(1, 1)%positive := Cell (Some (VNumber 13))]>
                    (_cells merged_sheet)) [block])
    (1, 2)%positive (VText "NA")
  = _safe_write_cell merged_sheet (1, 2)%positive (VText "NA").
Proof.
  assert (H : _safe_write_cell merged_sheet (2, 2)%positive (VNumber 13)
              = Returned (mkWorksheet
                            (<[(1, 1)%positive := Cell (Some (VNumber 13))]>
                               (_cells merged_sheet)) [block]))
    by reflexivity.
  assert (Ht : write_target merged_sheet (1, 2)%positive
               = write_target merged_sheet (2, 2)%positive) by reflexivity.
  split; [exact H|]. split; [exact Ht|].
  exact (proj1 (safe_write_overwrites _ _ _ _ _ (VText "NA") H Ht)).
Defined.

(** X4. Writes that land on different cells do not interfere: done in
    either order they leave the same sheet. *)
Theorem safe_write_commute
    (ws wa wb wab : Worksheet) (a b : Addr) (va vb : cell_value) :
  write_target ws a <> write_target ws b ->
  _safe_write_cell ws a va = Returned wa ->
  _safe_write_cell wa b vb = Returned wab ->
  _safe_write_cell ws b vb = Returned wb ->
  _safe_write_cell wb a va = Returned wab.
Proof.
  intros Hne Ha Hab Hb.
  rewrite safe_write_target in Hab |- *.
  rewrite (safe_write_keeps_target ws wa a b va Ha) in Hab.
  rewrite (safe_write_keeps_target ws wb b a vb Hb).
  apply safe_write_returned in Ha, Hb.
  destruct (write_target ws a) as [ta|], (write_target ws b) as [tb|].
  - destruct Ha as [Hca ->], Hb as [Hcb ->].
    assert (Hab' : ta <> tb) by congruence.
    unfold set_value in *.
    rewrite (get_cell_insert_ne _ _ _ _ _ Hab') in Hab.
    rewrite (get_cell_insert_ne _ _ _ _ _ (not_eq_sym Hab')).
    destruct ws as [cells ranges]; simpl in *.
    destruct (get_cell (mkWorksheet cells ranges) ta); [|contradiction].
    destruct (get_cell (mkWorksheet cells ranges) tb); [|contradiction].
    injection Hab as <-. f_equal. f_equal.
    now apply insert_insert_ne.
  - destruct Ha as [Hca ->]. subst wb. injection Hab as <-.
    unfold set_value. destruct (get_cell ws ta); [reflexivity|contradiction].
  - subst wa. destruct Hb as [Hcb ->].
    apply set_value_returned in Hab. destruct Hab as [_ ->]. reflexivity.
  - congruence.
Qed.

Lemma safe_write_commute_witness :
  exists wa wb wab : Worksheet,
    write_target damaged_sheet (2, 1)%positive
    <> write_target damaged_sheet (3, 1)%positive /\
    _safe_write_cell damaged_sheet (2, 1)%positive (VNumber 1) = Returned wa /\
    _safe_write_cell wa (3, 1)%positive (VNumber 2) = Returned wab /\
    _safe_write_cell damaged_sheet (3, 1)%positive (VNumber 2) = Returned wb /\
    _safe_write_cell wb (2, 1)%positive (VNumber 1) = Returned wab.
Proof.
  eexists _, _, _.
  assert (Hne : write_target damaged_sheet (2, 1)%positive
                <> write_target damaged_sheet (3, 1)%positive)
    by (vm_compute; discriminate).
  split; [exact Hne|].
  split; [reflexivity|]. split; [reflexivity|]. split; [reflexivity|].
  eapply (safe_write_commute damaged_sheet _ _ _ _ _ _ _ Hne);
    reflexivity.
Defined.

(** ** The loop of [main] *)

Section FillLoop.
Variable P : Pandas.
Variable df_win : DataFrame.

Lemma fill_row_returned (st st' : FillState) (row : MapRow) :
  fill_row P df_win st row = Returned st' ->
  exists v : option Q,
    row_value P df_win row = Returned v /\
    _safe_write_cell (sheet st) (TargetCell row) (cell_of v)
    = Returned (sheet st') /\
    match v with
    | Some _ =>
        filled st' = filled st + 1 /\
        missing_items st' = missing_items st /\
        miss_report st' = miss_report st
    | None =>
        filled st' = filled st /\
        missing_items st' = missing_items st ++ [SourceName row] /\
        miss_report st'
        = miss_report st
          ++ [(SourceName row,
               miss_candidates df_win (SourceName row) MISS_CANDIDATE_TOPK)]
    end.
Proof.
  unfold fill_row, row_value.
  destruct (match_rows P df_win (SourceName row)) as [sub|e]; simpl;
    [|discriminate].
  destruct (agg_values P sub (Some (Agg row))) as [x|]; simpl.
  - destruct (_safe_write_cell (sheet st) (TargetCell row) (VNumber x))
      as [ws|e] eqn:Ew; simpl; [|discriminate].
    intros H. injection H as <-. exists (Some x). simpl.
    repeat split; assumption.
  - destruct (_safe_write_cell (sheet st) (TargetCell row) FILL_IF_MISSING)
      as [ws|e] eqn:Ew; simpl; [|discriminate].
    intros H. injection H as <-. exists None. simpl.
    repeat split; assumption.
Qed.

Lemma fill_row_missing (st st' : FillState) (row : MapRow) :
  fill_row P df_win st row = Returned st' ->
  filled st' = filled st + (if is_missing P df_win row then 0 else 1) /\
  missing_items st'
  = missing_items st ++ (if is_missing P df_win row then [SourceName row] else []) /\
  miss_report st'
  = miss_report st
    ++ (if is_missing P df_win row
        then [(SourceName row,
               miss_candidates df_win (SourceName row) MISS_CANDIDATE_TOPK)]
        else []).
Proof.
  intros H. destruct (fill_row_returned st st' row H) as (v & Hv & _ & Hst).
  unfold is_missing. rewrite Hv. destruct v as [x|].
  - destruct Hst as (-> & -> & ->). now rewrite !app_nil_r.
  - destruct Hst as (-> & -> & ->). split; [lia|]. tauto.
Qed.

Lemma fill_rows_tally (rows : list MapRow) (st st' : FillState) :
  fill_rows P df_win st rows = Returned st' ->
  filled st'
  = filled st + List.length (List.filter (fun r => negb (is_missing P df_win r)) rows) /\
  missing_items st'
  = missing_items st ++ map SourceName (List.filter (is_missing P df_win) rows) /\
  miss_report st'
  = miss_report st
    ++ map (fun r => (SourceName r,
                      miss_candidates df_win (SourceName r) MISS_CANDIDATE_TOPK))
           (List.filter (is_missing P df_win) rows).
Proof.
  revert st. induction rows as [|row rows IH]; intros st; simpl.
  - intros H. injection H as <-. now rewrite Nat.add_0_r, !app_nil_r.
  - destruct (fill_row P df_win st row) as [st1|e] eqn:E; simpl; [|discriminate].
    intros H. destruct (IH st1 H) as (Hf & Hm & Hr).
    destruct (fill_row_missing st st1 row E) as (Hf1 & Hm1 & Hr1).
    rewrite Hf, Hm, Hr, Hf1, Hm1, Hr1.
    destruct (is_missing P df_win row); simpl;
      rewrite <- ?app_assoc; simpl; repeat split; try reflexivity; lia.
Qed.

Lemma fill_rows_app (l1 l2 : list MapRow) (st : FillState) :
  fill_rows P df_win st (l1 ++ l2)
  = (st1 ← fill_rows P df_win st l1; fill_rows P df_win st1 l2).
Proof.
  revert st. induction l1 as [|row l1 IH]; intros st; simpl; [reflexivity|].
  destruct (fill_row P df_win st row) as [st1|e]; simpl; [apply IH|reflexivity].
Qed.

Lemma fill_rows_targets (rows : list MapRow) (st st' : FillState) :
  fill_rows P df_win st rows = Returned st' ->
  (forall b, write_target (sheet st') b = write_target (sheet st) b) /\
  merged_cells (sheet st') = merged_cells (sheet st) /\
  (forall b,
      (forall row, In row rows ->
                   write_target (sheet st) (TargetCell row) <> Some b) ->
      _cells (sheet st') !! b = _cells (sheet st) !! b).
Proof.
  revert st. induction rows as [|row rows IH]; intros st; simpl.
  - intros H. injection H as <-. auto.
  - destruct (fill_row P df_win st row) as [st1|e] eqn:E; simpl; [|discriminate].
    intros H. destruct (IH st1 H) as (Ht & Hr & Hu).
    destruct (fill_row_returned st st1 row E) as (v & _ & Hw & _).
    assert (Ht1 : forall b, write_target (sheet st1) b = write_target (sheet st) b)
      by (intros b; exact (safe_write_keeps_target _ _ _ b _ Hw)).
    destruct (safe_write_frame _ _ _ _ Hw) as (Hr1 & _ & Hu1 & _).
    split; [|split].
    + intros b. now rewrite Ht, Ht1.
    + congruence.
    + intros b Hb. rewrite Hu.
      * apply Hu1. apply Hb. now left.
      * intros row' Hin. rewrite Ht1. apply Hb. now right.
Qed.

End FillLoop.

(** X5. When the loop of [main] completes, every mapping row is counted
    once: [filled] is the number of rows whose aggregate is a number,
    [missing_items] lists, in mapping order, the source names of the rows
    whose aggregate is absent, and the diagnosis pairs each of those names
    with its ranked candidates; so [filled] and the length of
    [missing_items] add up to the number of mapping rows. *)
Theorem fill_report_tally
    (P : Pandas) (df_win : DataFrame) (ws : Worksheet) (map_df : list MapRow)
    (st : FillState) :
  fill_report P df_win ws map_df = Returned st ->
  filled st
  = List.length (List.filter (fun r => negb (is_missing P df_win r)) map_df) /\
  missing_items st
  = map SourceName (List.filter (is_missing P df_win) map_df) /\
  miss_report st
  = map (fun r => (SourceName r,
                   miss_candidates df_win (SourceName r) MISS_CANDIDATE_TOPK))
        (List.filter (is_missing P df_win) map_df) /\
  filled st + List.length (missing_items st) = List.length map_df.
Proof.
  intros H. destruct (fill_rows_tally P df_win map_df _ st H) as (Hf & Hm & Hr).
  simpl in Hf, Hm, Hr. repeat split; try assumption.
  rewrite Hf, Hm, length_map. clear.
  induction map_df as [|r l IH]; simpl; [reflexivity|].
  destruct (is_missing P df_win r); simpl; lia.
Qed.

Lemma example_fill_returns :
  exists st, fill_report ref_pandas window merged_sheet example_mapping
             = Returned st.
Proof. eexists. vm_compute. reflexivity. Qed.

Lemma fill_report_tally_witness :
  exists st,
    fill_report ref_pandas window merged_sheet example_mapping = Returned st /\
    filled st + List.length (missing_items st) = 3.
Proof.
  destruct example_fill_returns as [st Hst]. exists st. split; [exact Hst|].
  exact (proj2 (proj2 (proj2 (fill_report_tally _ _ _ _ _ Hst)))).
Defined.

(** X6. Last write wins.  When the loop completes, the cell a mapping row
    lands on holds the value of that row -- its aggregate, or the fill
    marker when the aggregate is absent -- provided no later row lands on
    the same cell; and an address no row lands on holds what it held in the
    template.  The merged ranges are those of the template. *)
Theorem fill_report_last_write
    (P : Pandas) (df_win : DataFrame) (ws : Worksheet)
    (pre post : list MapRow) (row : MapRow) (st : FillState) :
  fill_report P df_win ws (pre ++ row :: post) = Returned st ->
  merged_cells (sheet st) = merged_cells ws /\
  (forall b,
      (forall r, In r (pre ++ row :: post) ->
                 write_target ws (TargetCell r) <> Some b) ->
      _cells (sheet st) !! b = _cells ws !! b) /\
  (forall t,
      write_target ws (TargetCell row) = Some t ->
      (forall r, In r post -> write_target ws (TargetCell r) <> Some t) ->
      exists v, row_value P df_win row = Returned v /\
                get_cell (sheet st) t = Cell (Some (cell_of v))).
Proof.
  intros H. unfold fill_report in H.
  destruct (fill_rows_targets P df_win _ _ st H) as (_ & Hr & Hu).
  split; [exact Hr|]. split; [exact Hu|].
  intros t Ht Hpost. rewrite fill_rows_app in H.
  destruct (fill_rows P df_win _ pre) as [st1|e] eqn:E1; simpl in H;
    [|discriminate].
  destruct (fill_row P df_win st1 row) as [st2|e] eqn:E2; simpl in H;
    [|discriminate].
  destruct (fill_rows_targets P df_win _ _ st1 E1) as (Ht1 & _ & _).
  simpl in Ht1.
  destruct (fill_row_returned P df_win st1 st2 row E2) as (v & Hv & Hw & _).
  exists v. split; [exact Hv|].
  destruct (safe_write_frame _ _ _ _ Hw) as (_ & _ & _ & Hset).
  assert (Ht2 : forall b, write_target (sheet st2) b = write_target ws b).
  { intros b. rewrite (safe_write_keeps_target _ _ _ b _ Hw). apply Ht1. }
  destruct (fill_rows_targets P df_win _ _ st H) as (_ & _ & Hu2).
  specialize (Hset t). rewrite Ht1 in Hset. specialize (Hset Ht).
  unfold get_cell in *. rewrite (Hu2 t); [exact Hset|].
  intros r Hin. rewrite Ht2. now apply Hpost.
Qed.

Lemma fill_report_last_write_witness :
  exists st,
    fill_report ref_pandas window merged_sheet
                ([mkMapRow "Pump A Flow" (2, 2)%positive "avg"]
                 ++ mkMapRow "Turbine X" (1, 2)%positive "LAST"
                 :: [mkMapRow "Tank" (5, 1)%positive "max"])
    = Returned st /\
    get_cell (sheet st) (1, 1)%positive = Cell (Some (VText "NA")).
Proof.
  destruct example_fill_returns as [st Hst]. exists st. split; [exact Hst|].
  destruct (fill_report_last_write ref_pandas window merged_sheet
              [mkMapRow "Pump A Flow" (2, 2)%positive "avg"]
              [mkMapRow "Tank" (5, 1)%positive "max"]
              (mkMapRow "Turbine X" (1, 2)%positive "LAST") st Hst)
    as (_ & _ & Hlast).
  destruct (Hlast (1, 1)%positive) as (v & Hv & Hc).
  - reflexivity.
  - intros r [<-|[]]. vm_compute. discriminate.
  - vm_compute in Hv. injection Hv as <-. exact Hc.
Defined.

(** The loop keeps a well-merged sheet well merged. *)
Lemma fill_rows_well_merged
    (P : Pandas) (df_win : DataFrame) (rows : list MapRow) (st st' : FillState) :
  well_merged (sheet st) ->
  fill_rows P df_win st rows = Returned st' ->
  well_merged (sheet st').
Proof.
  revert st. induction rows as [|row rows IH]; intros st Hwf; simpl.
  - intros H. now injection H as <-.
  - destruct (fill_row P df_win st row) as [st1|e] eqn:E; simpl; [|discriminate].
    apply IH. destruct (fill_row_returned P df_win st st1 row E) as (v & _ & Hw & _).
    exact (safe_write_keeps_well_merged _ _ _ _ Hwf Hw).
Qed.

(** On an empty window a turn of the loop asks nothing of the library: the
    resolver and the aggregator return at their first test. *)
Lemma fill_row_empty_window (P : Pandas) (st : FillState) (row : MapRow) :
  fill_row P [] st row
  = (ws ← _safe_write_cell (sheet st) (TargetCell row) FILL_IF_MISSING;
     Returned (mkFillState ws (filled st) (missing_items st ++ [SourceName row])
                           (miss_report st ++ [(SourceName row, [])]))).
Proof.
  unfold fill_row. rewrite match_rows_no_rows. reflexivity.
Qed.

Lemma fill_rows_empty_window (P P' : Pandas) (rows : list MapRow) (st : FillState) :
  fill_rows P' [] st rows = fill_rows P [] st rows.
Proof.
  revert st. induction rows as [|row rows IH]; intros st; simpl; [reflexivity|].
  rewrite !fill_row_empty_window.
  destruct (_safe_write_cell (sheet st) (TargetCell row) FILL_IF_MISSING);
    simpl; [apply IH|reflexivity].
Qed.

Lemma fill_rows_empty_tally
    (P : Pandas) (rows : list MapRow) (st st' : FillState) :
  fill_rows P [] st rows = Returned st' ->
  filled st' = filled st /\
  missing_items st' = missing_items st ++ map SourceName rows /\
  miss_report st' = miss_report st ++ map (fun r => (SourceName r, [])) rows.
Proof.
  revert st. induction rows as [|row rows IH]; intros st; simpl.
  - intros H. injection H as <-. now rewrite !app_nil_r.
  - rewrite fill_row_empty_window.
    destruct (_safe_write_cell (sheet st) (TargetCell row) FILL_IF_MISSING)
      as [ws'|e]; simpl; [|discriminate].
    intros H. destruct (IH _ H) as (Hf & Hm & Hr). simpl in Hf, Hm, Hr.
    rewrite Hf, Hm, Hr, <- !app_assoc. auto.
Qed.

(** X7. What a completed loop leaves.  When the loop of [main] completes on
    a well-merged template, the sheet it leaves is well merged.  When it
    completes on an empty window, nothing is [filled], every mapping row is
    in [missing_items], in mapping order, and has no candidate.  On an empty
    window the library plays no part: no pattern is compiled, no text is
    parsed and nothing is sorted, so the loop ends the same way whatever
    these routines do. *)
Theorem fill_report_completed
    (P : Pandas) (df_win : DataFrame) (ws : Worksheet) (map_df : list MapRow)
    (st : FillState) :
  fill_report P df_win ws map_df = Returned st ->
  (well_merged ws -> well_merged (sheet st)) /\
  (df_win = [] ->
   filled st = 0 /\
   missing_items st = map SourceName map_df /\
   miss_report st = map (fun r => (SourceName r, [])) map_df) /\
  (forall P' : Pandas,
      fill_report P' [] ws map_df = fill_report P [] ws map_df).
Proof.
  intros H. unfold fill_report in *. split; [|split].
  - intros Hwf.
    exact (fill_rows_well_merged P df_win map_df (mkFillState ws 0 [] []) st Hwf H).
  - intros ->. exact (fill_rows_empty_tally P map_df _ st H).
  - intros P'. apply fill_rows_empty_window.
Qed.

Lemma fill_report_completed_witness :
  (exists st,
      fill_report ref_pandas window merged_sheet example_mapping = Returned st /\
      well_merged (sheet st)) /\
  (exists st,
      fill_report ref_pandas [] merged_sheet example_mapping = Returned st /\
      filled st = 0 /\
      missing_items st = ["Pump A Flow"; "Turbine X"; "Tank"]).
Proof.
  split.
  - destruct example_fill_returns as [st Hst]. exists st. split; [exact Hst|].
    exact (proj1 (fill_report_completed _ _ _ _ _ Hst) merged_sheet_well_merged).
  - assert (H : exists st, fill_report ref_pandas [] merged_sheet example_mapping
                           = Returned st)
      by (eexists; vm_compute; reflexivity).
    destruct H as [st Hst]. exists st. split; [exact Hst|].
    destruct (proj1 (proj2 (fill_report_completed _ _ _ _ _ Hst)) eq_refl)
      as (Hf & Hm & _).
    split; [exact Hf|exact Hm].
Defined.

(** ** [write_datetime] *)

Section WriteDatetime.

Lemma write_if_set_frame (ws ws' : Worksheet) (c : option Addr) (text : string) :
  write_if_set ws c text = Returned ws' ->
  merged_cells ws' = merged_cells ws /\
  (forall b, write_target ws' b = write_target ws b) /\
  (forall b, setting_target ws c <> Some b -> _cells ws' !! b = _cells ws !! b) /\
  (forall t, setting_target ws c = Some t ->
             get_cell ws' t = Cell (Some (VText text))).
Proof.
  destruct c as [a|]; simpl.
  - intros H. destruct (safe_write_frame _ _ _ _ H) as (Hr & _ & Hu & Hs).
    repeat split; try assumption.
    intros b. exact (safe_write_keeps_target _ _ _ b _ H).
  - intros H. injection H as <-. repeat split; try reflexivity. discriminate.
Qed.

Lemma write_if_blank_returned (ws ws' : Worksheet) (a : Addr) (text : string) :
  write_if_blank ws a text = Returned ws' ->
  get_cell ws a <> MergedCell /\
  merged_cells ws' = merged_cells ws /\
  (forall b, b <> a -> get_cell ws' b = get_cell ws b) /\
  get_cell ws' a
  = if is_blank (get_cell ws a) then Cell (Some (VText text)) else get_cell ws a.
Proof.
  unfold write_if_blank, set_value.
  destruct (get_cell ws a) as [[[s|q]|]|] eqn:E; simpl; try discriminate.
  - destruct (PyStr.is_empty s); intros H; injection H as <-.
    + split; [discriminate|]. split; [reflexivity|]. split.
      * intros b Hb. apply get_cell_insert_ne. congruence.
      * apply get_cell_insert_eq.
    + repeat split; try assumption; discriminate.
  - intros H; injection H as <-. repeat split; try assumption; discriminate.
  - intros H; injection H as <-.
    split; [discriminate|]. split; [reflexivity|]. split.
    + intros b Hb. apply get_cell_insert_ne. congruence.
    + apply get_cell_insert_eq.
Qed.

Lemma write_if_blank_raised (ws : Worksheet) (a : Addr) (text : string) (e : exn) :
  write_if_blank ws a text = Raised e ->
  e = AttributeError /\ get_cell ws a = MergedCell.
Proof.
  unfold write_if_blank, set_value.
  destruct (get_cell ws a) as [[[s|q]|]|] eqn:E; simpl; try discriminate.
  - destruct (PyStr.is_empty s); discriminate.
  - intros H. injection H as <-. now split.
Qed.

Lemma write_if_blank_total (ws : Worksheet) (a : Addr) (text : string) :
  get_cell ws a <> MergedCell -> exists ws', write_if_blank ws a text = Returned ws'.
Proof.
  intros Hc. destruct (write_if_blank ws a text) as [ws'|e] eqn:E; [eauto|].
  apply write_if_blank_raised in E. destruct E as [_ E]. contradiction.
Qed.

End WriteDatetime.

(** X8. With the report time switched on and at least one cell configured,
    [write_datetime] writes the configured cells only, in the order date-time,
    date, time: the cell the time lands on shows the time; the cell the date
    lands on shows the date unless the time landed there too; likewise the
    date-time; every address none of them lands on, A1 to A3 included, and
    the merged ranges are as before. *)
Theorem write_datetime_configured
    (cfg : Config) (ws ws' : Worksheet) (st : Stamps) :
  WRITE_DATETIME_TO_TEMPLATE cfg = true ->
  is_set (DATETIME_CELL cfg) || is_set (DATE_CELL cfg) || is_set (TIME_CELL cfg)
  = true ->
  write_datetime cfg ws st = Returned ws' ->
  let on_dt := setting_target ws (DATETIME_CELL cfg) in
  let on_date := setting_target ws (DATE_CELL cfg) in
  let on_time := setting_target ws (TIME_CELL cfg) in
  merged_cells ws' = merged_cells ws /\
  (forall b, on_dt <> Some b -> on_date <> Some b -> on_time <> Some b ->
             _cells ws' !! b = _cells ws !! b) /\
  (forall t, on_time = Some t -> get_cell ws' t = Cell (Some (VText (time_str st)))) /\
  (forall t, on_date = Some t -> on_time <> Some t ->
             get_cell ws' t = Cell (Some (VText (date_str st)))) /\
  (forall t, on_dt = Some t -> on_date <> Some t -> on_time <> Some t ->
             get_cell ws' t = Cell (Some (VText (dt_str st)))).
Proof.
  intros Hflag Hset. unfold write_datetime. rewrite Hflag, Hset. simpl.
  destruct (write_if_set ws (DATETIME_CELL cfg) (dt_str st)) as [ws1|e] eqn:E1;
    simpl; [|discriminate].
  destruct (write_if_set ws1 (DATE_CELL cfg) (date_str st)) as [ws2|e] eqn:E2;
    simpl; [|discriminate].
  destruct (write_if_set ws2 (TIME_CELL cfg) (time_str st)) as [ws3|e] eqn:E3;
    simpl; [|discriminate].
  intros H. injection H as <-.
  destruct (write_if_set_frame _ _ _ _ E1) as (Hr1 & Ht1 & Hu1 & Hs1).
  destruct (write_if_set_frame _ _ _ _ E2) as (Hr2 & Ht2 & Hu2 & Hs2).
  destruct (write_if_set_frame _ _ _ _ E3) as (Hr3 & Ht3 & Hu3 & Hs3).
  assert (T2 : setting_target ws1 (DATE_CELL cfg) = setting_target ws (DATE_CELL cfg))
    by (destruct (DATE_CELL cfg); simpl; [apply Ht1|reflexivity]).
  assert (T3 : setting_target ws2 (TIME_CELL cfg) = setting_target ws (TIME_CELL cfg)).
  { destruct (TIME_CELL cfg); simpl; [|reflexivity]. now rewrite Ht2, Ht1. }
  rewrite T2 in Hu2, Hs2. rewrite T3 in Hu3, Hs3.
  split; [congruence|]. split; [|split; [|split]].
  - intros b H1 H2 H3. now rewrite (Hu3 b H3), (Hu2 b H2), (Hu1 b H1).
  - exact Hs3.
  - intros t Hd Ht. unfold get_cell. rewrite (Hu3 t Ht). now apply Hs2.
  - intros t Hdt Hd Ht. unfold get_cell. rewrite (Hu3 t Ht), (Hu2 t Hd).
    now apply Hs1.
Qed.

Lemma write_datetime_configured_witness :
  exists ws',
    write_datetime shipped_config merged_sheet example_stamps = Returned ws' /\
    get_cell ws' (35, 5)%positive = Cell (Some (VText "01:35")) /\
    get_cell ws' (34, 5)%positive = Cell (Some (VText "2025-12-25")).
Proof.
  assert (H : exists ws', write_datetime shipped_config merged_sheet example_stamps
                          = Returned ws')
    by (eexists; vm_compute; reflexivity).
  destruct H as [ws' H]. exists ws'. split; [exact H|].
  destruct (write_datetime_configured shipped_config merged_sheet ws'
              example_stamps eq_refl eq_refl H) as (_ & _ & Ht & Hd & _).
  split.
  - apply Ht. reflexivity.
  - apply Hd; [reflexivity|]. vm_compute. discriminate.
Defined.

(** X9. With no cell configured the report time goes to A1, A2 and A3 by
    plain assignment.  A line is written only where the cell reads blank
    ([None] or the empty text); a cell with content keeps it, and every
    other address is as before.  The call fails, with [AttributeError],
    exactly when one of the three addresses holds a [MergedCell]: if it
    fails one of them does, and if one of them does it fails. *)
Theorem write_datetime_fallback (ws : Worksheet) (st : Stamps) :
  (forall e, write_datetime fallback_config ws st = Raised e ->
             e = AttributeError /\
             (get_cell ws (1, 1)%positive = MergedCell \/
              get_cell ws (2, 1)%positive = MergedCell \/
              get_cell ws (3, 1)%positive = MergedCell)) /\
  (get_cell ws (1, 1)%positive = MergedCell \/
   get_cell ws (2, 1)%positive = MergedCell \/
   get_cell ws (3, 1)%positive = MergedCell ->
   write_datetime fallback_config ws st = Raised AttributeError) /\
  (get_cell ws (1, 1)%positive <> MergedCell ->
   get_cell ws (2, 1)%positive <> MergedCell ->
   get_cell ws (3, 1)%positive <> MergedCell ->
   exists ws',
     write_datetime fallback_config ws st = Returned ws' /\
     merged_cells ws' = merged_cells ws /\
     forall b,
       get_cell ws' b
       = match fallback_label st b with
         | Some text =>
             if is_blank (get_cell ws b) then Cell (Some (VText text))
             else get_cell ws b
         | None => get_cell ws b
         end).
Proof.
  unfold write_datetime. simpl.
  set (l1 := ("Report Time: " ++ dt_str st)%string).
  set (l2 := ("Window: " ++ win_str st)%string).
  set (l3 := ("Generated: " ++ now_str st)%string).
  assert (N12 : (2, 1)%positive <> ((1, 1)%positive : Addr)) by discriminate.
  assert (N13 : (3, 1)%positive <> ((1, 1)%positive : Addr)) by discriminate.
  assert (N23 : (3, 1)%positive <> ((2, 1)%positive : Addr)) by discriminate.
  split; [|split].
  - intros e.
    destruct (write_if_blank ws (1, 1)%positive l1) as [ws1|e1] eqn:E1; simpl.
    + destruct (write_if_blank_returned _ _ _ _ E1) as (_ & _ & Hu1 & _).
      destruct (write_if_blank ws1 (2, 1)%positive l2) as [ws2|e2] eqn:E2; simpl.
      * destruct (write_if_blank_returned _ _ _ _ E2) as (_ & _ & Hu2 & _).
        intros E3. apply write_if_blank_raised in E3. destruct E3 as [-> E3].
        split; [reflexivity|]. right; right.
        now rewrite <- (Hu1 _ N13), <- (Hu2 _ N23).
      * intros H. injection H as <-.
        apply write_if_blank_raised in E2. destruct E2 as [-> E2].
        split; [reflexivity|]. right; left. now rewrite <- (Hu1 _ N12).
    + intros H. injection H as <-.
      apply write_if_blank_raised in E1. destruct E1 as [-> E1]. auto.
  - intros Hm.
    destruct (write_if_blank ws (1, 1)%positive l1) as [ws1|e1] eqn:E1; simpl.
    + destruct (write_if_blank_returned _ _ _ _ E1) as (Hn1 & _ & Hu1 & _).
      destruct (write_if_blank ws1 (2, 1)%positive l2) as [ws2|e2] eqn:E2; simpl.
      * destruct (write_if_blank_returned _ _ _ _ E2) as (Hn2 & _ & Hu2 & _).
        destruct (write_if_blank ws2 (3, 1)%positive l3) as [ws3|e3] eqn:E3.
        -- destruct (write_if_blank_returned _ _ _ _ E3) as (Hn3 & _).
           rewrite (Hu1 _ N12) in Hn2. rewrite (Hu2 _ N23), (Hu1 _ N13) in Hn3.
           tauto.
        -- apply write_if_blank_raised in E3. now destruct E3 as [-> _].
      * apply write_if_blank_raised in E2. now destruct E2 as [-> _].
    + apply write_if_blank_raised in E1. now destruct E1 as [-> _].
  - intros H1 H2 H3.
    destruct (write_if_blank_total ws (1, 1)%positive l1 H1) as [ws1 E1].
    destruct (write_if_blank_returned _ _ _ _ E1) as (_ & Hr1 & Hu1 & Hs1).
    assert (H2' : get_cell ws1 (2, 1)%positive <> MergedCell)
      by now rewrite (Hu1 _ N12).
    destruct (write_if_blank_total ws1 (2, 1)%positive l2 H2') as [ws2 E2].
    destruct (write_if_blank_returned _ _ _ _ E2) as (_ & Hr2 & Hu2 & Hs2).
    assert (H3' : get_cell ws2 (3, 1)%positive <> MergedCell)
      by now rewrite (Hu2 _ N23), (Hu1 _ N13).
    destruct (write_if_blank_total ws2 (3, 1)%positive l3 H3') as [ws3 E3].
    destruct (write_if_blank_returned _ _ _ _ E3) as (_ & Hr3 & Hu3 & Hs3).
    exists ws3. rewrite E1. simpl. rewrite E2. simpl. rewrite E3.
    split; [reflexivity|]. split; [congruence|].
    intros b. unfold fallback_label. fold l1 l2 l3.
    destruct (decide (b = (1, 1)%positive)) as [->|B1].
    + rewrite (Hu3 _ (not_eq_sym N13)), (Hu2 _ (not_eq_sym N12)). exact Hs1.
    + destruct (decide (b = (2, 1)%positive)) as [->|B2].
      * rewrite (Hu3 _ (not_eq_sym N23)), Hs2. now rewrite (Hu1 _ N12).
      * destruct (decide (b = (3, 1)%positive)) as [->|B3].
        -- rewrite Hs3. now rewrite (Hu2 _ N23), (Hu1 _ N13).
        -- now rewrite (Hu3 _ B3), (Hu2 _ B2), (Hu1 _ B1).
Qed.

(** ** The loader *)

Section Loader.
Variable to_datetime : list raw -> list (option Z).

Lemma column_In (name : string) (df : Frame) (cells : list raw) :
  column name df = Some cells -> In (name, cells) df.
Proof.
  induction df as [|[c cs] df IH]; simpl; [discriminate|].
  destruct (String.eqb_spec c name) as [->|Hne].
  - intros H. injection H as <-. now left.
  - intros H. right. now apply IH.
Qed.

Lemma value_columns_In (df : Frame) (c : string) (cells : list raw) :
  In (c, cells) (value_columns df) <->
  In (c, cells) df /\ c <> "no." /\ c <> "time".
Proof.
  unfold value_columns. rewrite filter_In. simpl.
  rewrite negb_true_iff, orb_false_iff, !String.eqb_neq. tauto.
Qed.

Lemma melt_In (times : list (option Z)) (columns : Frame) (r : Row) :
  In r (melt times columns) <->
  exists c cells, In (c, cells) columns /\ col_name r = c /\
                  In (col_time r, col_value r) (combine times cells).
Proof.
  unfold melt. rewrite in_flat_map. split.
  - intros ([c cells] & Hc & Hr). simpl in Hr. apply in_map_iff in Hr.
    destruct Hr as ([t v] & <- & Htv). exists c, cells. simpl. auto.
  - intros (c & cells & Hc & Hn & Htv). exists (c, cells). split; [exact Hc|].
    simpl. apply in_map_iff. exists (col_time r, col_value r). split; [|exact Htv].
    destruct r; simpl in *. now subst.
Qed.

Lemma strip_names_In (df : DataFrame) (r : Row) :
  In r (strip_names df) <->
  exists r0, In r0 df /\ col_time r = col_time r0 /\
             col_name r = PyStr.strip (col_name r0) /\
             col_value r = col_value r0.
Proof.
  unfold strip_names. rewrite in_map_iff. split.
  - intros (r0 & <- & H). exists r0. simpl. auto.
  - intros (r0 & H & Ht & Hn & Hv). exists r0. split; [|exact H].
    destruct r; simpl in *. now subst.
Qed.

(** The rows one file contributes. *)
Lemma melt_source_In (df : Frame) (df_long : DataFrame) (r : Row) :
  melt_source to_datetime df = Ok (Some df_long) ->
  (In r df_long <->
   exists time_cells c cells t,
     column "time" df = Some time_cells /\
     In (c, cells) df /\ c <> "no." /\ c <> "time" /\
     col_time r = Some t /\
     col_name r = PyStr.strip c /\
     In (Some t, col_value r) (combine (to_datetime time_cells) cells)).
Proof.
  unfold melt_source. destruct (column "time" df) as [time_cells|]; [|discriminate].
  destruct (df_empty (value_columns df)); [discriminate|].
  destruct (existsb _ df); [discriminate|].
  intros H. injection H as <-. unfold dropna_time.
  rewrite filter_In, strip_names_In. split.
  - intros ((r0 & Hr0 & Ht & Hn & Hv) & Hsome).
    apply melt_In in Hr0. destruct Hr0 as (c & cells & Hc & Hn0 & Htv).
    apply value_columns_In in Hc. destruct Hc as (Hc & N1 & N2).
    destruct (col_time r) as [t|] eqn:Et; [|discriminate].
    exists time_cells, c, cells, t. repeat split; try assumption.
    + now rewrite Hn, Hn0.
    + now rewrite Hv, Ht.
  - intros (tc & c & cells & t & Htc & Hc & N1 & N2 & Ht & Hn & Htv).
    injection Htc as <-. split; [|now rewrite Ht].
    exists (mkRow (Some t) c (col_value r)). simpl. repeat split; try assumption.
    apply melt_In. exists c, cells. simpl. split; [|auto].
    apply value_columns_In. auto.
Qed.

Lemma collect_sources_In (files : list Frame) (dfs : list DataFrame)
    (df_long : DataFrame) :
  collect_sources to_datetime files = Ok dfs ->
  (In df_long dfs <->
   df_long <> [] /\
   exists df, In df files /\ melt_source to_datetime df = Ok (Some df_long)).
Proof.
  revert dfs. induction files as [|df files IH]; intros dfs; simpl.
  - intros H. injection H as <-. split; [intros []|]. intros (_ & df & [] & _).
  - destruct (melt_source to_datetime df) as [[d|]|e] eqn:E; [| |discriminate].
    + destruct (collect_sources to_datetime files) as [ds|e]; [|discriminate].
      intros H. injection H as <-. specialize (IH ds eq_refl).
      destruct d as [|r d]; simpl.
      * rewrite IH. split.
        -- intros (Hne & f & Hf & Hm). split; [exact Hne|]. exists f. auto.
        -- intros (Hne & f & [<-|Hf] & Hm); [congruence|].
           split; [exact Hne|]. exists f. auto.
      * rewrite IH. split.
        -- intros [<-|(Hne & f & Hf & Hm)].
           ++ split; [discriminate|]. exists df. auto.
           ++ split; [exact Hne|]. exists f. auto.
        -- intros (Hne & f & [<-|Hf] & Hm).
           ++ left. congruence.
           ++ right. split; [exact Hne|]. exists f. auto.
    + intros H. rewrite (IH dfs H). split.
      * intros (Hne & f & Hf & Hm). split; [exact Hne|]. exists f. auto.
      * intros (Hne & f & [<-|Hf] & Hm); [congruence|].
        split; [exact Hne|]. exists f. auto.
Qed.

Lemma read_sources_Ok (files : list Frame) (data : DataFrame) :
  read_sources to_datetime files = Ok data ->
  exists dfs, collect_sources to_datetime files = Ok dfs /\
              dfs <> [] /\ data = List.concat dfs.
Proof.
  unfold read_sources. destruct (df_empty files); [discriminate|].
  destruct (collect_sources to_datetime files) as [dfs|e]; [|discriminate].
  destruct dfs as [|d ds]; [discriminate|]. cbn [df_empty].
  intros H. injection H as <-. exists (d :: ds). repeat split. discriminate.
Qed.

Lemma read_sources_In (files : list Frame) (data : DataFrame) (r : Row) :
  read_sources to_datetime files = Ok data ->
  (In r data <->
   exists df df_long, In df files /\
                      melt_source to_datetime df = Ok (Some df_long) /\
                      In r df_long).
Proof.
  intros H. destruct (read_sources_Ok files data H) as (dfs & Hc & _ & ->).
  rewrite in_concat. split.
  - intros (d & Hd & Hr). apply (collect_sources_In files dfs d Hc) in Hd.
    destruct Hd as (_ & df & Hf & Hm). now exists df, d.
  - intros (df & d & Hf & Hm & Hr). exists d. split; [|exact Hr].
    apply (collect_sources_In files dfs d Hc). split; [|now exists df].
    intros ->. destruct Hr.
Qed.

(** The loop gets through the files exactly when [melt] refuses none. *)
Lemma collect_sources_Err (files : list Frame) (e : load_error) :
  collect_sources to_datetime files = Err e <->
  e = ValueError_value_name /\
  exists df, In df files /\ melt_source to_datetime df = Err ValueError_value_name.
Proof.
  assert (Hm : forall df e', melt_source to_datetime df = Err e' ->
                             e' = ValueError_value_name).
  { intros df e'. unfold melt_source.
    destruct (column "time" df); [|discriminate].
    destruct (df_empty (value_columns df)); [discriminate|].
    destruct (existsb _ df); congruence. }
  revert e. induction files as [|df files IH]; intros e; simpl.
  - split; [discriminate|]. intros (_ & df & [] & _).
  - destruct (melt_source to_datetime df) as [[d|]|e'] eqn:E.
    + destruct (collect_sources to_datetime files) as [ds|e''] eqn:Ec.
      * split; [discriminate|]. intros (-> & f & [<-|Hf] & Hf'); [congruence|].
        assert (Hc : collect_sources to_datetime files = Err ValueError_value_name).
        { rewrite Ec. apply IH. split; [reflexivity|]. now exists f. }
        congruence.
      * destruct (proj1 (IH e'') eq_refl) as (-> & f & Hf & Hf'). split.
        -- intros H. injection H as <-. split; [reflexivity|]. exists f. auto.
        -- now intros (-> & _).
    + rewrite IH. split.
      * intros (-> & f & Hf & Hf'). split; [reflexivity|]. exists f. auto.
      * intros (-> & f & [<-|Hf] & Hf'); [congruence|].
        split; [reflexivity|]. now exists f.
    + pose proof (Hm df e' E) as ->. split.
      * intros H. injection H as <-. split; [reflexivity|]. exists df. auto.
      * now intros (-> & _).
Qed.

End Loader.

(** X10. What the loader returns is never empty, and every record of it has
    a timestamp and a name without whitespace around it. *)
Theorem read_sources_invariant
    (to_datetime : list raw -> list (option Z)) (files : list Frame)
    (data : DataFrame) :
  read_sources to_datetime files = Ok data ->
  data <> [] /\
  forall r, In r data ->
            col_time r <> None /\ PyStr.strip (col_name r) = col_name r.
Proof.
  intros H. split.
  - destruct (read_sources_Ok to_datetime files data H) as (dfs & Hc & Hne & ->).
    destruct dfs as [|d ds]; [congruence|].
    assert (Hd : In d (d :: ds)) by now left.
    apply (collect_sources_In to_datetime files _ d Hc) in Hd.
    destruct Hd as [Hd _]. simpl. destruct d; [congruence|discriminate].
  - intros r Hr. apply (read_sources_In to_datetime files data r H) in Hr.
    destruct Hr as (df & d & _ & Hm & Hr).
    apply (melt_source_In to_datetime df d r Hm) in Hr.
    destruct Hr as (_ & c & _ & t & _ & _ & _ & _ & Ht & Hn & _).
    split; [congruence|]. rewrite Hn. apply PyStrFacts.strip_idem.
Qed.

Lemma read_sources_invariant_witness :
  exists data,
    read_sources example_to_datetime [example_file_without_time; example_file]
    = Ok data /\
    data <> [].
Proof.
  assert (H : exists data,
             read_sources example_to_datetime
                          [example_file_without_time; example_file] = Ok data)
    by (eexists; vm_compute; reflexivity).
  destruct H as [data H]. exists data. split; [exact H|].
  exact (proj1 (read_sources_invariant _ _ _ H)).
Defined.

(** The errors of the loader, file by file. *)
Lemma read_sources_errors_by_file
    (to_datetime : list raw -> list (option Z)) (files : list Frame) :
  (read_sources to_datetime files = Err FileNotFoundError <-> files = []) /\
  (read_sources to_datetime files = Err ValueError_value_name <->
   exists df, In df files /\
              melt_source to_datetime df = Err ValueError_value_name) /\
  (read_sources to_datetime files = Err ValueError_no_data <->
   files <> [] /\
   forall df, In df files ->
              melt_source to_datetime df = Ok None \/
              melt_source to_datetime df = Ok (Some [])).
Proof.
  pose proof (collect_sources_Err to_datetime files) as Herr.
  assert (Hnone : collect_sources to_datetime files = Ok [] <->
                  forall df, In df files ->
                             melt_source to_datetime df = Ok None \/
                             melt_source to_datetime df = Ok (Some [])).
  { clear Herr. induction files as [|df fs IH]; simpl.
    - split; [intros _ df []|reflexivity].
    - destruct (melt_source to_datetime df) as [[[|r d]|]|e] eqn:E.
      + destruct (collect_sources to_datetime fs) as [ds|e]; cbn [df_empty].
        * split.
          -- intros H. injection H as ->. intros f [<-|Hf]; [now right|].
             now apply IH.
          -- intros H. f_equal.
             assert (Hds : @Ok load_error _ ds = Ok []); [|congruence].
             apply IH. intros f Hf. apply H. now right.
        * split; [discriminate|]. intros H.
          assert (Hds : @Err load_error (list DataFrame) e = Ok []);
            [|discriminate].
          apply IH. intros f Hf. apply H. now right.
      + destruct (collect_sources to_datetime fs) as [ds|e]; cbn [df_empty].
        * split; [discriminate|]. intros H.
          destruct (H df (or_introl eq_refl)) as [H'|H']; congruence.
        * split; [discriminate|]. intros H.
          destruct (H df (or_introl eq_refl)) as [H'|H']; congruence.
      + rewrite IH. split.
        * intros H f [<-|Hf]; [now left|now apply H].
        * intros H f Hf. apply H. now right.
      + split; [discriminate|]. intros H.
        destruct (H df (or_introl eq_refl)) as [H'|H']; congruence. }
  unfold read_sources. destruct files as [|df fs].
  - cbn. split; [tauto|]. split.
    + split; [discriminate|]. intros (f & [] & _).
    + split; [discriminate|]. intros [H _]. congruence.
  - cbn [df_empty].
    destruct (collect_sources to_datetime (df :: fs)) as [[|d ds]|e] eqn:E;
      cbn [df_empty].
    + split; [split; discriminate|]. split.
      * split; [discriminate|]. intros Hex.
        assert (H : @Ok load_error (list DataFrame) [] = Err ValueError_value_name);
          [|discriminate].
        apply Herr. now split.
      * split; [|reflexivity]. intros _. split; [discriminate|].
        now apply Hnone.
    + split; [split; discriminate|]. split.
      * split; [discriminate|]. intros Hex.
        assert (H : @Ok load_error (list DataFrame) (d :: ds)
                    = Err ValueError_value_name); [|discriminate].
        apply Herr. now split.
      * split; [discriminate|]. intros [_ H]. apply Hnone in H. discriminate.
    + destruct (proj1 (Herr e) eq_refl) as (-> & Hex).
      split; [split; discriminate|]. split.
      * split; [intros _; exact Hex|reflexivity].
      * split; [discriminate|]. intros [_ H]. apply Hnone in H. discriminate.
Qed.

Section LoaderColumns.
Variable to_datetime : list raw -> list (option Z).

Lemma column_None (name : string) (df : Frame) :
  column name df = None <-> ~ has_column name df.
Proof.
  unfold has_column. induction df as [|[c cs] df IH]; simpl; [tauto|].
  destruct (String.eqb_spec c name) as [->|Hne].
  - split; [discriminate|]. intros H. exfalso. apply H. now left.
  - rewrite IH. tauto.
Qed.

Lemma existsb_has_column (name : string) (df : Frame) :
  existsb (fun c => fst c =? name) df = true <-> has_column name df.
Proof.
  unfold has_column. rewrite existsb_exists, in_map_iff. split.
  - intros (x & Hx & E). apply String.eqb_eq in E. now exists x.
  - intros (x & E & Hx). exists x. split; [exact Hx|]. now apply String.eqb_eq.
Qed.

Lemma value_columns_nil (df : Frame) :
  value_columns df = [] <->
  forall c, has_column c df -> c = "no." \/ c = "time".
Proof.
  unfold has_column. split.
  - intros E c Hc. apply in_map_iff in Hc. destruct Hc as ([c' cells] & <- & Hin).
    simpl. destruct (String.eqb_spec c' "no.") as [|N1]; [now left|].
    destruct (String.eqb_spec c' "time") as [|N2]; [now right|].
    assert (H : In (c', cells) (value_columns df))
      by (apply (value_columns_In to_datetime); auto).
    rewrite E in H. destruct H.
  - intros H. destruct (value_columns df) as [|[c cells] l] eqn:E; [reflexivity|].
    assert (Hin : In (c, cells) (value_columns df)) by (rewrite E; now left).
    apply (value_columns_In to_datetime) in Hin. destruct Hin as (Hin & N1 & N2).
    assert (Hc : In c (map fst df))
      by (apply in_map_iff; now exists (c, cells)).
    destruct (H c Hc); contradiction.
Qed.

(** [melt] refuses a file exactly when the file is not skipped for want of
    a "time" column and has a column named "Value" (which is then one of
    its value columns). *)
Lemma melt_source_Err (df : Frame) (e : load_error) :
  melt_source to_datetime df = Err e <->
  e = ValueError_value_name /\ has_column "time" df /\ has_column "Value" df.
Proof.
  unfold melt_source.
  destruct (column "time" df) as [tc|] eqn:Et.
  - assert (Ht : has_column "time" df).
    { apply column_In in Et. unfold has_column. apply in_map_iff.
      now exists ("time", tc). }
    destruct (existsb (fun c => fst c =? "Value") df) eqn:Ev.
    + apply existsb_has_column in Ev.
      destruct (value_columns df) as [|x l] eqn:Ec; cbn [df_empty].
      * exfalso. destruct (proj1 (value_columns_nil df) Ec "Value" Ev);
          discriminate.
      * split; [intros H; injection H as <-; auto|].
        now intros (-> & _).
    + assert (Hv : ~ has_column "Value" df).
      { intros H. apply existsb_has_column in H. congruence. }
      destruct (df_empty (value_columns df));
        (split; [discriminate|]); intros (_ & _ & H); contradiction.
  - apply column_None in Et. split; [discriminate|]. intros (_ & H & _).
    contradiction.
Qed.

(** A file contributes no record exactly when it is skipped -- no "time"
    column, or no column besides "no." and "time" -- or is melted and has
    no cell in a row with a valid time. *)
Lemma melt_source_no_record (df : Frame) :
  melt_source to_datetime df = Ok None \/
  melt_source to_datetime df = Ok (Some []) <->
  ~ has_column "time" df \/
  (forall c, has_column c df -> c = "no." \/ c = "time") \/
  (~ has_column "Value" df /\
   forall time_cells c cells t v,
     column "time" df = Some time_cells ->
     In (c, cells) df -> c <> "no." -> c <> "time" ->
     ~ In (Some t, v) (combine (to_datetime time_cells) cells)).
Proof.
  destruct (melt_source to_datetime df) as [[d|]|e] eqn:E.
  - pose proof (melt_source_In to_datetime df d) as Hin.
    specialize (fun r => Hin r E).
    assert (Hskip : has_column "time" df /\
                    ~ (forall c, has_column c df -> c = "no." \/ c = "time") /\
                    ~ has_column "Value" df).
    { unfold melt_source in E.
      destruct (column "time" df) as [tc|] eqn:Et; [|discriminate].
      destruct (value_columns df) as [|x l] eqn:Ec; [discriminate|].
      cbn [df_empty] in E.
      destruct (existsb (fun c => fst c =? "Value") df) eqn:Ev; [discriminate|].
      split; [|split].
      - apply column_In in Et. unfold has_column. apply in_map_iff.
        now exists ("time", tc).
      - intros H. apply value_columns_nil in H. congruence.
      - intros H. apply existsb_has_column in H. congruence. }
    destruct Hskip as (Ht & Hc & Hv).
    split.
    + intros [H|H]; [discriminate|]. injection H as ->.
      right; right. split; [exact Hv|].
      intros tc c cells t v Htc Hcin N1 N2 Htv.
      apply (proj2 (Hin (mkRow (Some t) (PyStr.strip c) v))).
      exists tc, c, cells, t. simpl. auto 10.
    + intros [H|[H|[_ H]]]; [contradiction|contradiction|].
      right. f_equal. f_equal. destruct d as [|r d]; [reflexivity|].
      exfalso. destruct (proj1 (Hin r) (or_introl eq_refl))
        as (tc & c & cells & t & Htc & Hcin & N1 & N2 & _ & _ & Htv).
      exact (H tc c cells t (col_value r) Htc Hcin N1 N2 Htv).
  - split; [|auto]. intros _. unfold melt_source in E.
    destruct (column "time" df) as [tc|] eqn:Et.
    + destruct (value_columns df) as [|x l] eqn:Ec.
      * right; left. now apply value_columns_nil.
      * cbn [df_empty] in E. destruct (existsb _ df); discriminate.
    + left. now apply column_None.
  - destruct (proj1 (melt_source_Err df e) E) as (_ & Ht & Hv).
    split; [intros [H|H]; discriminate|].
    intros [H|[H|[H _]]]; [contradiction| |contradiction].
    destruct (H "Value" Hv); discriminate.
Qed.

End LoaderColumns.

(** X11. Which error the loader ends in, read off the columns of the files
    that [read_csv] handed over.  [FileNotFoundError]: exactly when there is
    no file.  The [ValueError] of [melt]: exactly when some file has a
    column "time" and a column "Value".  The [ValueError] of line 195:
    exactly when there are files and each of them lacks a "time" column, or
    has no column besides "no." and "time", or has no column "Value" and no
    cell of a value column in a row whose time is valid. *)
Theorem read_sources_errors
    (to_datetime : list raw -> list (option Z)) (files : list Frame) :
  (read_sources to_datetime files = Err FileNotFoundError <-> files = []) /\
  (read_sources to_datetime files = Err ValueError_value_name <->
   exists df, In df files /\ has_column "time" df /\ has_column "Value" df) /\
  (read_sources to_datetime files = Err ValueError_no_data <->
   files <> [] /\
   forall df, In df files ->
     ~ has_column "time" df \/
     (forall c, has_column c df -> c = "no." \/ c = "time") \/
     (~ has_column "Value" df /\
      forall time_cells c cells t v,
        column "time" df = Some time_cells ->
        In (c, cells) df -> c <> "no." -> c <> "time" ->
        ~ In (Some t, v) (combine (to_datetime time_cells) cells))).
Proof.
  destruct (read_sources_errors_by_file to_datetime files) as (H1 & H2 & H3).
  split; [exact H1|]. split.
  - rewrite H2. split.
    + intros (df & Hin & E). exists df. split; [exact Hin|].
      now apply (melt_source_Err to_datetime df) in E.
    + intros (df & Hin & Ht & Hv). exists df. split; [exact Hin|].
      apply melt_source_Err. auto.
  - rewrite H3. split.
    + intros [Hne H]. split; [exact Hne|]. intros df Hin.
      apply (melt_source_no_record to_datetime df). now apply H.
    + intros [Hne H]. split; [exact Hne|]. intros df Hin.
      apply (melt_source_no_record to_datetime df). now apply H.
Qed.

(** X12. Every record of the loader comes from a cell of a file: its name
    is the trimmed name of a column other than "no." and "time", its value
    the cell of that column in some row, its time the valid time of that
    row; and every such cell of every file is a record. *)
Theorem read_sources_records
    (to_datetime : list raw -> list (option Z)) (files : list Frame)
    (data : DataFrame) (r : Row) :
  read_sources to_datetime files = Ok data ->
  (In r data <->
   exists df time_cells c cells t,
     In df files /\
     column "time" df = Some time_cells /\
     In (c, cells) df /\ c <> "no." /\ c <> "time" /\
     col_time r = Some t /\
     col_name r = PyStr.strip c /\
     In (Some t, col_value r) (combine (to_datetime time_cells) cells)).
Proof.
  intros H. rewrite (read_sources_In to_datetime files data r H). split.
  - intros (df & d & Hf & Hm & Hr).
    apply (melt_source_In to_datetime df d r Hm) in Hr.
    destruct Hr as (tc & c & cells & t & Hr). exists df, tc, c, cells, t. tauto.
  - intros (df & tc & c & cells & t & Hf & Htc & Hc & N1 & N2 & Hr).
    destruct (melt_source to_datetime df) as [[d|]|e] eqn:Hm.
    + exists df, d. split; [exact Hf|]. split; [exact Hm|].
      apply (melt_source_In to_datetime df d r Hm).
      exists tc, c, cells, t. tauto.
    + exfalso. unfold melt_source in Hm. rewrite Htc in Hm.
      destruct (value_columns df) as [|x l] eqn:Ev.
      * assert (Hin : In (c, cells) (value_columns df))
          by (apply value_columns_In; auto).
        rewrite Ev in Hin. destruct Hin.
      * cbn [df_empty] in Hm. destruct (existsb _ df); discriminate.
    + exfalso.
      destruct (read_sources_Ok to_datetime files data H) as (dfs & Hc' & _).
      assert (He : collect_sources to_datetime files = Err ValueError_value_name).
      { apply collect_sources_Err. split; [reflexivity|]. exists df.
        split; [exact Hf|]. rewrite Hm. f_equal.
        unfold melt_source in Hm. rewrite Htc in Hm.
        destruct (df_empty (value_columns df)); [discriminate|].
        destruct (existsb _ df); congruence. }
      congruence.
Qed.

Lemma read_sources_records_witness :
  exists data,
    read_sources example_to_datetime [example_file_without_time; example_file]
    = Ok data /\
    In (mkRow (Some 20%Z) "Pump A Flow" (RNum 13)) data.
Proof.
  assert (H : exists data,
             read_sources example_to_datetime
                          [example_file_without_time; example_file] = Ok data)
    by (eexists; vm_compute; reflexivity).
  destruct H as [data H]. exists data. split; [exact H|].
  apply (read_sources_records _ _ _ _ H).
  exists example_file, [RStr "10"; RStr "20"], "Pump A Flow ",
         [RNum (25 # 2); RNum 13], 20%Z.
  split; [right; now left|]. split; [reflexivity|].
  split; [right; right; now left|].
  split; [discriminate|]. split; [discriminate|].
  split; [reflexivity|]. split; [reflexivity|].
  right. now left.
Defined.

(** ** The time window *)

Section Window.

Lemma window_of_In (data : DataFrame) (center minutes : Z) (r : Row) :
  In r (window_of data center minutes) <->
  In r data /\
  exists t, col_time r = Some t /\
            (center - minutes_delta minutes <= t <= center + minutes_delta minutes)%Z.
Proof.
  unfold window_of, in_window. rewrite filter_In.
  destruct (col_time r) as [t|].
  - rewrite andb_true_iff, !Z.leb_le. split.
    + intros [H1 H2]. split; [exact H1|]. now exists t.
    + intros [H1 (t' & E & H2)]. injection E as <-. tauto.
  - split; [intros [_ H]; discriminate|]. intros [_ (t & E & _)]. discriminate.
Qed.

Lemma filter_sublist {A : Type} (f : A -> bool) (l : list A) :
  sublist (List.filter f l) l.
Proof.
  induction l as [|x l IH]; simpl; [constructor|].
  destruct (f x); now constructor.
Qed.

End Window.

(** X13. The window holds exactly the records of the table whose timestamp
    lies between [center - minutes] and [center + minutes], both ends
    included, in the order of the table; a record without timestamp is never
    in it.  Windows around one center are nested: the window of a smaller
    radius is the window of that radius taken from the window of a larger
    one. *)
Theorem window_of_spec
    (data : DataFrame) (center minutes minutes' : Z) :
  (0 <= minutes <= minutes')%Z ->
  (forall r, In r (window_of data center minutes) <->
             In r data /\
             exists t, col_time r = Some t /\
                       (center - minutes_delta minutes <= t
                        <= center + minutes_delta minutes)%Z) /\
  sublist (window_of data center minutes) data /\
  window_of (window_of data center minutes') center minutes
  = window_of data center minutes.
Proof.
  intros Hm. split; [intros r; apply window_of_In|].
  split; [apply filter_sublist|].
  unfold window_of. induction data as [|r data IH]; simpl; [reflexivity|].
  assert (Himp : in_window (center - minutes_delta minutes)
                           (center + minutes_delta minutes) r = true ->
                 in_window (center - minutes_delta minutes')
                           (center + minutes_delta minutes') r = true).
  { unfold in_window, minutes_delta. destruct (col_time r) as [t|]; [|discriminate].
    rewrite !andb_true_iff, !Z.leb_le. lia. }
  destruct (in_window (center - minutes_delta minutes')
                      (center + minutes_delta minutes') r) eqn:E'; simpl.
  - rewrite IH. reflexivity.
  - rewrite IH.
    destruct (in_window (center - minutes_delta minutes)
                        (center + minutes_delta minutes) r) eqn:E; [|reflexivity].
    specialize (Himp eq_refl). discriminate.
Qed.

Lemma window_of_spec_witness :
  (0 <= 0 <= 1)%Z /\
  window_of (window_of pump_a_flow 1000 1) 1000 0 = window_of pump_a_flow 1000 0.
Proof.
  assert (H : (0 <= 0 <= 1)%Z) by lia.
  split; [exact H|].
  exact (proj2 (proj2 (window_of_spec pump_a_flow 1000 0 1 H))).
Defined.

(** X14. Loader, window and resolver together.  On a window of a table the
    loader returned, tier 1 of the resolver holds the rows whose name equals
    the source name after both are trimmed; and the aggregate of any rows of
    that table is absent exactly when none of their values is a number: a
    missing timestamp is never the reason. *)
Theorem loader_window_resolver
    (to_datetime : list raw -> list (option Z)) (files : list Frame)
    (data : DataFrame) (P : Pandas) (center minutes : Z) (src : string) :
  read_sources to_datetime files = Ok data ->
  let df_win := window_of data center minutes in
  (forall r, In r (exact_tier df_win (PyStr.strip src)) <->
             In r df_win /\ PyStr.strip (col_name r) = PyStr.strip src) /\
  (forall sub agg,
      (forall r, In r sub -> In r data) ->
      (agg_values P sub agg = None <->
       forall r, In r sub -> to_numeric P (col_value r) = None)).
Proof.
  intros H df_win.
  destruct (read_sources_invariant to_datetime files data H) as [_ Hinv].
  split.
  - intros r. rewrite exact_tier_In. split; intros [Hin He]; split;
      try exact Hin.
    + apply window_of_In in Hin. destruct Hin as [Hin _].
      destruct (Hinv r Hin) as [_ Hn]. now rewrite Hn.
    + apply window_of_In in Hin. destruct Hin as [Hin _].
      destruct (Hinv r Hin) as [_ Hn]. now rewrite <- Hn.
  - intros sub agg Hsub. rewrite agg_values_None_dropped, List.Forall_forall.
    split.
    + intros Hall r Hr. destruct (Hall r Hr) as [Hv|Ht]; [exact Hv|].
      destruct (Hinv r (Hsub r Hr)) as [Hne _]. contradiction.
    + intros Hall r Hr. left. now apply Hall.
Qed.

Lemma loader_window_resolver_witness :
  read_sources example_to_datetime [example_file_without_time; example_file]
  = Ok example_table /\
  window_of example_table 20 0
  = [ mkRow (Some 20%Z) "Pump A Flow" (RNum 13);
      mkRow (Some 20%Z) "Tank" (RNum 4) ] /\
  In (mkRow (Some 20%Z) "Pump A Flow" (RNum 13))
     (exact_tier (window_of example_table 20 0) (PyStr.strip "  Pump A Flow ")) /\
  ~ In (mkRow (Some 20%Z) "Tank" (RNum 4))
       (exact_tier (window_of example_table 20 0) (PyStr.strip "  Pump A Flow ")) /\
  agg_values ref_pandas [mkRow (Some 10%Z) "Tank" (RStr "x")] (Some "MAX") = None /\
  agg_values ref_pandas [mkRow (Some 20%Z) "Tank" (RNum 4)] (Some "MAX") <> None.
Proof.
  assert (H : read_sources example_to_datetime
                           [example_file_without_time; example_file]
              = Ok example_table) by (vm_compute; reflexivity).
  assert (W : window_of example_table 20 0
              = [ mkRow (Some 20%Z) "Pump A Flow" (RNum 13);
                  mkRow (Some 20%Z) "Tank" (RNum 4) ])
    by (vm_compute; reflexivity).
  destruct (loader_window_resolver _ _ _ ref_pandas 20 0 "  Pump A Flow " H)
    as [Htier Hagg].
  split; [exact H|]. split; [exact W|]. split; [|split; [|split]].
  - apply Htier. rewrite W. split; [now left|]. vm_compute. reflexivity.
  - intros Hin. apply Htier in Hin. destruct Hin as [_ Hn].
    vm_compute in Hn. discriminate.
  - apply Hagg.
    + intros r [<-|[]]. right; right; now left.
    + intros r [<-|[]]. reflexivity.
  - intros Hnone.
    assert (Hsub : forall r, In r [mkRow (Some 20%Z) "Tank" (RNum 4)] ->
                             In r example_table)
      by (intros r [<-|[]]; right; right; right; now left).
    pose proof (proj1 (Hagg _ _ Hsub) Hnone _ (or_introl eq_refl)) as Hv.
    discriminate.
Defined.

(** ** The choice of the worksheet *)

Section PickSheet.

Lemma find_snoc {A : Type} (p : A -> bool) (l : list A) (x : A) :
  List.find p (l ++ [x])
  = match List.find p l with
    | Some y => Some y
    | None => if p x then Some x else None
    end.
Proof.
  induction l as [|y l IH]; simpl; [reflexivity|].
  destruct (p y); [reflexivity|exact IH].
Qed.

(** The dictionary keeps, for a key, the last name that has it. *)
Lemma sheet_map_lookup (names : list string) (k : string) :
  sheet_map names !! k = List.find (fun n => norm n =? k) (rev names).
Proof.
  unfold sheet_map.
  assert (Hgen : forall (m0 : gmap string string),
             fold_left (fun m n => <[norm n := n]> m) names m0 !! k
             = match List.find (fun n => norm n =? k) (rev names) with
               | Some n => Some n
               | None => m0 !! k
               end).
  { induction names as [|n ns IH]; intros m0; simpl; [reflexivity|].
    rewrite IH, find_snoc.
    destruct (List.find _ (rev ns)); [reflexivity|].
    destruct (String.eqb_spec (norm n) k) as [->|Hne].
    - apply lookup_insert_eq.
    - now apply lookup_insert_ne. }
  rewrite Hgen. destruct (List.find _ (rev names)); [reflexivity|].
  apply lookup_empty.
Qed.

Lemma cn_candidates_In (names : list string) (n : string) :
  In n (cn_candidates names) <->
  In n names /\ PyStr.contains "CN" (PyStr.upper n) = true.
Proof.
  unfold cn_candidates.
  apply (filter_In (fun n => PyStr.contains "CN" (PyStr.upper n))).
Qed.

Lemma string_of_list_snoc (l : list ascii) (c : ascii) (s : string) :
  (string_of_list_ascii (l ++ [c]) ++ s)%string
  = (string_of_list_ascii l ++ String c s)%string.
Proof.
  induction l as [|x l IH]; [reflexivity|]. exact (f_equal (String x) IH).
Qed.

Lemma append_empty_r (s : string) : (s ++ "")%string = s.
Proof.
  induction s as [|c s IH]; [reflexivity|]. exact (f_equal (String c) IH).
Qed.

Lemma join_split_from (t : string) (tok : list ascii) :
  join (PyStr.split_from tok t)
  = (string_of_list_ascii (rev tok) ++ without_space t)%string.
Proof.
  revert tok. induction t as [|c t IH]; intros tok; simpl.
  - destruct tok as [|x tok]; [reflexivity|]. cbn [PyStr.close_token join].
    reflexivity.
  - destruct (PyStr.isspace c).
    + destruct tok as [|x tok]; cbn [PyStr.close_token join].
      * now rewrite IH.
      * now rewrite IH.
    + rewrite IH. cbn [rev]. apply string_of_list_snoc.
Qed.

(** [norm] keeps the characters that are not whitespace, in lower case. *)
Lemma norm_without_space (s : string) : norm s = without_space (PyStr.lower s).
Proof. unfold norm, PyStr.split. now rewrite join_split_from. Qed.

End PickSheet.

(** X15. [pick_sheet] returns a title of the workbook, never another
    string: one whose normal form is that of the preferred name or, when
    there is none, one that contains "CN" in any letter case.  It raises
    exactly when the workbook has neither. *)
Theorem pick_sheet_result (sheetnames : list string) (preferred : string) :
  (forall n, pick_sheet sheetnames preferred = Some n ->
             In n sheetnames /\
             (norm n = norm preferred \/
              (forall m, In m sheetnames -> norm m <> norm preferred) /\
              PyStr.contains "CN" (PyStr.upper n) = true)) /\
  (pick_sheet sheetnames preferred = None <->
   forall n, In n sheetnames ->
             norm n <> norm preferred /\
             PyStr.contains "CN" (PyStr.upper n) = false).
Proof.
  unfold pick_sheet. rewrite sheet_map_lookup.
  destruct (List.find _ (rev sheetnames)) as [n0|] eqn:E.
  - apply find_some in E. destruct E as [Hin He].
    apply in_rev in Hin. apply String.eqb_eq in He. split.
    + intros n H. injection H as <-. auto.
    + split; [discriminate|]. intros H. destruct (H n0 Hin) as [Hne _].
      contradiction.
  - assert (Hnone : forall m, In m sheetnames -> norm m <> norm preferred).
    { intros m Hm. apply in_rev in Hm.
      pose proof (find_none _ _ E m Hm) as Hf. simpl in Hf.
      now apply String.eqb_neq. }
    destruct (cn_candidates sheetnames) as [|c cs] eqn:Ec.
    + split; [discriminate|]. split; [|reflexivity].
      intros _ n Hn. split; [now apply Hnone|].
      destruct (PyStr.contains "CN" (PyStr.upper n)) eqn:Ecn; [|reflexivity].
      assert (Hin : In n (cn_candidates sheetnames))
        by (apply cn_candidates_In; auto).
      rewrite Ec in Hin. destruct Hin.
    + assert (Hc : In c (cn_candidates sheetnames)) by (rewrite Ec; now left).
      apply cn_candidates_In in Hc. destruct Hc as [Hin Hcn]. split.
      * intros n H. injection H as <-. auto.
      * split; [discriminate|]. intros H. destruct (H c Hin) as [_ Hf].
        congruence.
Qed.

(** X16. Which sheet is picked.  When several titles have the normal form
    of the preferred name, the last of them in workbook order is picked;
    when none has, the first title that contains "CN" is. *)
Theorem pick_sheet_order
    (pre post : list string) (n preferred : string) :
  (norm n = norm preferred ->
   (forall m, In m post -> norm m <> norm preferred) ->
   pick_sheet (pre ++ n :: post) preferred = Some n) /\
  ((forall m, In m (pre ++ n :: post) -> norm m <> norm preferred) ->
   PyStr.contains "CN" (PyStr.upper n) = true ->
   (forall m, In m pre -> PyStr.contains "CN" (PyStr.upper m) = false) ->
   pick_sheet (pre ++ n :: post) preferred = Some n).
Proof.
  unfold pick_sheet. rewrite sheet_map_lookup. split.
  - intros Hn Hpost.
    rewrite rev_app_distr. cbn [rev]. rewrite <- app_assoc. cbn [app].
    assert (Hfind : forall l1 l2,
               (forall m, In m l1 -> norm m <> norm preferred) ->
               List.find (fun x => norm x =? norm preferred) (l1 ++ n :: l2)
               = Some n).
    { induction l1 as [|x l1 IH]; intros l2 Hl1; simpl.
      - apply String.eqb_eq in Hn. now rewrite Hn.
      - assert (Hx : norm x <> norm preferred) by (apply Hl1; now left).
        apply String.eqb_neq in Hx. rewrite Hx. apply IH.
        intros m Hm. apply Hl1. now right. }
    rewrite Hfind; [reflexivity|].
    intros m Hm. apply Hpost. now apply in_rev.
  - intros Hnone Hcn Hpre.
    destruct (List.find _ (rev (pre ++ n :: post))) as [x|] eqn:E.
    + apply find_some in E. destruct E as [Hin He].
      apply in_rev in Hin. apply String.eqb_eq in He.
      now destruct (Hnone x Hin).
    + unfold cn_candidates. rewrite List.filter_app. simpl. rewrite Hcn.
      assert (Hf : List.filter (fun x => PyStr.contains "CN" (PyStr.upper x)) pre = []).
      { clear -Hpre. induction pre as [|x l IH]; simpl; [reflexivity|].
        rewrite (Hpre x (or_introl eq_refl)). apply IH.
        intros m Hm. apply Hpre. now right. }
      now rewrite Hf.
Qed.

(** X17. The preferred name is compared up to letter case and whitespace:
    the normal form of a string is the string of its characters that are
    not whitespace, in lower case, and two preferred names with the same
    normal form pick the same sheet of any workbook. *)
Theorem pick_sheet_normal_form (sheetnames : list string) (p p' : string) :
  without_space (PyStr.lower p) = without_space (PyStr.lower p') ->
  norm p = without_space (PyStr.lower p) /\
  pick_sheet sheetnames p = pick_sheet sheetnames p'.
Proof.
  intros H. split; [apply norm_without_space|].
  unfold pick_sheet. now rewrite !(norm_without_space p), H, <- norm_without_space.
Qed.

Lemma pick_sheet_normal_form_witness :
  without_space (PyStr.lower "daily rev0(+cn)")
  = without_space (PyStr.lower " Daily  Rev0 (+CN)") /\
  pick_sheet ["Summary"; "Daily Rev0(+CN)"] "daily rev0(+cn)"
  = pick_sheet ["Summary"; "Daily Rev0(+CN)"] " Daily  Rev0 (+CN)".
Proof.
  assert (H : without_space (PyStr.lower "daily rev0(+cn)")
              = without_space (PyStr.lower " Daily  Rev0 (+CN)")) by reflexivity.
  split; [exact H|].
  exact (proj2 (pick_sheet_normal_form ["Summary"; "Daily Rev0(+CN)"] _ _ H)).
Defined.

(** ** The parser of the report time *)

(** X18. [parse_center_time] raises the "time is blank" error exactly on a
    missing, empty or all-whitespace input and never asks [strptime] then;
    whitespace around the input does not change the result; and on any
    other input the dash format is tried first, the slash format only when
    it fails, and the "wrong format" error is raised when both fail. *)
Theorem parse_center_time_spec
    (strptime : string -> string -> option Z) (s : string) :
  parse_center_time strptime None = Err time_blank /\
  (parse_center_time strptime (Some s) = Err time_blank <->
   PyStr.all_space s = true) /\
  parse_center_time strptime (Some (PyStr.strip s))
  = parse_center_time strptime (Some s) /\
  (forall t, strptime (PyStr.strip s) "%Y-%m-%d %H:%M" = Some t ->
             PyStr.all_space s = false ->
             parse_center_time strptime (Some s) = Ok t) /\
  (parse_center_time strptime (Some s) = Err time_format <->
   PyStr.all_space s = false /\
   strptime (PyStr.strip s) "%Y-%m-%d %H:%M" = None /\
   strptime (PyStr.strip s) "%Y/%m/%d %H:%M" = None).
Proof.
  unfold parse_center_time.
  rewrite PyStrFacts.strip_idem, !PyStrFacts.strip_is_empty.
  split; [reflexivity|].
  destruct (PyStr.all_space s) eqn:E.
  - split; [tauto|]. split; [reflexivity|]. split; [discriminate|].
    split; [discriminate|]. intros [H _]. discriminate.
  - split.
    { split; [|discriminate].
      destruct (strptime (PyStr.strip s) "%Y-%m-%d %H:%M"); [discriminate|].
      destruct (strptime (PyStr.strip s) "%Y/%m/%d %H:%M"); discriminate. }
    split; [reflexivity|]. split.
    { intros t Ht _. now rewrite Ht. }
    destruct (strptime (PyStr.strip s) "%Y-%m-%d %H:%M").
    + split; [discriminate|]. intros (_ & H & _). discriminate.
    + destruct (strptime (PyStr.strip s) "%Y/%m/%d %H:%M").
      * split; [discriminate|]. intros (_ & _ & H). discriminate.
      * tauto.
Qed.

(** ** The aggregator: how the modes relate *)

Section Bounds.
Local Open Scope Q_scope.

Lemma float_correct (q : Q) : float q == q.
Proof. apply Qred_correct. Qed.

Lemma agg_values_modes (P : Pandas) (df : DataFrame) (d : Obs) (rest : list Obs) :
  coerce_dropna P df = d :: rest ->
  agg_values P df (Some "MIN")
  = Some (float (series_min (obs_value d) (map obs_value rest))) /\
  agg_values P df (Some "MAX")
  = Some (float (series_max (obs_value d) (map obs_value rest))).
Proof.
  intros E. unfold agg_values. destruct df as [|r df]; [discriminate|].
  cbn [df_empty]. rewrite E. repeat split; reflexivity.
Qed.

End Bounds.

(** X19. How the modes that only compare relate on one subset with at
    least one surviving record.  MIN and MAX are values of surviving records
    and bound all of them, and LAST lies between MIN and MAX.  (AVG and SUM
    round, and are not bound by them: see [agg_avg_above_max].) *)
Theorem agg_values_between
    (P : Pandas) (df : DataFrame) (d : Obs) (rest : list Obs) :
  argsort_ok (argsort P) ->
  coerce_dropna P df = d :: rest ->
  exists lo hi lst : Q,
    agg_values P df (Some "MIN") = Some lo /\
    agg_values P df (Some "MAX") = Some hi /\
    agg_values P df (Some "LAST") = Some lst /\
    (forall o, In o (d :: rest) -> (lo <= obs_value o <= hi)%Q) /\
    (exists o, In o (d :: rest) /\ (obs_value o == lo)%Q) /\
    (exists o, In o (d :: rest) /\ (obs_value o == hi)%Q) /\
    (lo <= lst <= hi)%Q.
Proof.
  intros Hs E.
  destruct (agg_values_modes P df d rest E) as (Hmin & Hmax).
  destruct (series_min_spec (map obs_value rest) (obs_value d)) as [Hin_lo Hle_lo].
  destruct (series_max_spec (map obs_value rest) (obs_value d)) as [Hin_hi Hle_hi].
  change (obs_value d :: map obs_value rest) with (map obs_value (d :: rest)) in *.
  set (lo0 := series_min (obs_value d) (map obs_value rest)) in *.
  set (hi0 := series_max (obs_value d) (map obs_value rest)) in *.
  assert (Hb : forall o, In o (d :: rest) -> (lo0 <= obs_value o <= hi0)%Q).
  { intros o Ho. split; [apply Hle_lo|apply Hle_hi]; now apply in_map. }
  exists (float lo0), (float hi0),
         (float (obs_value (List.last (sort_values P d (d :: rest)) d))).
  split; [exact Hmin|]. split; [exact Hmax|].
  split; [now apply agg_values_last|].
  split; [|split; [|split]].
  - intros o Ho. rewrite !float_correct. now apply Hb.
  - apply in_map_iff in Hin_lo. destruct Hin_lo as (o & Ho & Hin).
    exists o. split; [exact Hin|]. now rewrite float_correct, Ho.
  - apply in_map_iff in Hin_hi. destruct Hin_hi as (o & Ho & Hin).
    exists o. split; [exact Hin|]. now rewrite float_correct, Ho.
  - rewrite !float_correct. apply Hb.
    apply (sorted_last_latest P Hs d rest).
Qed.

Lemma agg_values_between_witness :
  argsort_ok (argsort ref_pandas) /\
  coerce_dropna ref_pandas pump_a_flow
  = [mkObs 1000 "Pump A Flow" (25 # 2); mkObs 1010 "Pump A Flow" 13] /\
  exists lo hi lst : Q,
    agg_values ref_pandas pump_a_flow (Some "MIN") = Some lo /\
    agg_values ref_pandas pump_a_flow (Some "MAX") = Some hi /\
    agg_values ref_pandas pump_a_flow (Some "LAST") = Some lst /\
    (lo <= lst <= hi)%Q.
Proof.
  assert (E : coerce_dropna ref_pandas pump_a_flow
              = [mkObs 1000 "Pump A Flow" (25 # 2); mkObs 1010 "Pump A Flow" 13])
    by reflexivity.
  split; [exact RefFacts.ref_argsort_ok|]. split; [exact E|].
  destruct (agg_values_between ref_pandas pump_a_flow _ _
              RefFacts.ref_argsort_ok E)
    as (lo & hi & lst & H1 & H2 & H3 & _ & _ & _ & H4).
  exists lo, hi, lst. auto.
Defined.

(** The mean is not bound by MIN and MAX: three readings of 0.1 add up to
    0.30000000000000004, a third of which is 0.10000000000000002. *)
Lemma agg_avg_above_max :
  let df := [ mkRow (Some 1%Z) "x" (RNum (Ref.round64 (1 # 10)));
              mkRow (Some 2%Z) "x" (RNum (Ref.round64 (1 # 10)));
              mkRow (Some 3%Z) "x" (RNum (Ref.round64 (1 # 10))) ] in
  agg_values ref_pandas df (Some "MAX") = Some (Ref.round64 (1 # 10)) /\
  agg_values ref_pandas df (Some "AVG")
  = Some (Ref.round64 (10000000000000002 # 100000000000000000)) /\
  (Ref.round64 (1 # 10)
   < Ref.round64 (10000000000000002 # 100000000000000000))%Q.
Proof.
  cbv zeta. split; [vm_compute; reflexivity|].
  split; [vm_compute; reflexivity|]. vm_compute. reflexivity.
Qed.

(** ** The resolver and the ranker: what they return *)

Lemma select_sublist {A : Type} (df : list A) (mask : list bool) :
  sublist (select df mask) df.
Proof.
  revert mask. induction df as [|r df IH]; intros mask.
  - destruct mask; apply sublist_nil_l.
  - destruct mask as [|b mask]; [apply sublist_nil_l|]. simpl.
    destruct b; [apply sublist_skip|apply sublist_cons]; apply IH.
Qed.

(** X20. When the resolver returns, it returns rows of the table it is
    given, in the order of the table and each at most as often as the table
    has it; and whitespace around the source name does not change what it
    does, result or exception. *)
Theorem match_rows_rows_of_table (P : Pandas) (df : DataFrame) (src : string) :
  (forall sub, match_rows P df src = Returned sub -> sublist sub df) /\
  match_rows P df (PyStr.strip src) = match_rows P df src.
Proof.
  split.
  - unfold match_rows, exact_tier, contains_tier, keyword_tier.
    destruct (PyStr.is_empty (PyStr.strip src) || df_empty df).
    { intros sub H. injection H as <-. apply sublist_nil_l. }
    destruct (negb (df_empty (select df _))).
    { intros sub H. injection H as <-. apply select_sublist. }
    destruct (str_contains P (PyStr.strip src) (map col_name df)) as [m|e];
      simpl; [|discriminate].
    destruct (negb (df_empty (select df m))).
    { intros sub H. injection H as <-. apply select_sublist. }
    destruct (keyword_loop P _ _ _) as [mask|e]; simpl; [|discriminate].
    intros sub H. injection H as <-. apply select_sublist.
  - unfold match_rows. now rewrite PyStrFacts.strip_idem.
Qed.

Section RankerMore.

Lemma slice_all {A : Type} (l : list A) (k : Z) :
  (Z.of_nat (List.length l) <= k)%Z -> slice_to l k = l.
Proof.
  intros H. unfold slice_to. destruct (Z.leb_spec 0 k); [|lia].
  apply firstn_all2. lia.
Qed.

Lemma unique_length (l : list string) : List.length (unique l) <= List.length l.
Proof.
  induction l as [|x l IH]; simpl; [lia|].
  pose proof (filter_length_le (fun y => negb (y =? x)) (unique l)). lia.
Qed.

Lemma collect_hits_length (kws c : list string) :
  List.length (collect_hits kws c) <= List.length c.
Proof.
  induction c as [|n c IH]; simpl; [lia|].
  destruct (0 <? score kws n)%nat; simpl; lia.
Qed.

End RankerMore.

(** X21. The ranking does not depend on [topk], which only cuts it: for a
    count [topk] the result is the first [topk] names of the full ranking
    (the one asked with [topk] the number of rows of the window).  The full
    ranking names every name of the window that contains a keyword, and no
    name twice. *)
Theorem miss_candidates_full_ranking
    (df_win : DataFrame) (src : string) (topk : Z) :
  (0 <= topk)%Z ->
  let full := miss_candidates df_win src (Z.of_nat (List.length df_win)) in
  miss_candidates df_win src topk = firstn (Z.to_nat topk) full /\
  List.NoDup full /\
  forall n, In n full <->
            In n (map col_name df_win) /\
            (0 < score (keywords_of (PyStr.strip src)) n)%nat.
Proof.
  intros Hk full. subst full. unfold miss_candidates.
  destruct df_win as [|r0 df] eqn:Edf.
  { cbn [df_empty]. rewrite firstn_nil. split; [reflexivity|].
    split; [constructor|]. intros n. simpl. tauto. }
  rewrite <- Edf. replace (df_empty df_win) with false by now subst.
  destruct (PyStr.is_empty (PyStr.strip src)) eqn:Es.
  { rewrite firstn_nil. split; [reflexivity|]. split; [constructor|].
    intros n. split; [intros []|]. intros [_ H].
    apply PyStrFacts.is_empty_true in Es. rewrite Es in H.
    vm_compute in H. lia. }
  remember (keywords_of (PyStr.strip src)) as kws eqn:Ekws.
  destruct (df_empty kws) eqn:Ek.
  { rewrite firstn_nil. split; [reflexivity|]. split; [constructor|].
    intros n. split; [intros []|]. intros [_ H].
    destruct kws; [|discriminate]. unfold score in H. simpl in H. lia. }
  set (hits := collect_hits kws (unique (map col_name df_win))).
  pose proof (sort_by_perm hit_le hits) as Hperm.
  assert (Hlen : (Z.of_nat (List.length (sort_by hit_le hits))
                  <= Z.of_nat (List.length df_win))%Z).
  { rewrite (Permutation_length Hperm).
    pose proof (collect_hits_length kws (unique (map col_name df_win))).
    pose proof (unique_length (map col_name df_win)).
    rewrite length_map in *. fold hits in H. lia. }
  rewrite (slice_all _ _ Hlen), (slice_to_firstn _ _ Hk), firstn_map.
  split; [reflexivity|]. split.
  - apply (Permutation_NoDup (l := map snd hits)).
    + apply Permutation_map, Permutation_sym, Hperm.
    + apply collect_hits_NoDup, unique_NoDup.
  - intros n. rewrite in_map_iff. split.
    + intros (p & <- & Hp). apply (Permutation_in _ Hperm) in Hp.
      apply collect_hits_In in Hp. rewrite unique_In in Hp.
      destruct Hp as (Hin & Hs & Hpos). split; [exact Hin|]. now rewrite <- Hs.
    + intros [Hin Hpos]. exists (score kws n, n). split; [reflexivity|].
      apply (Permutation_in _ (Permutation_sym Hperm)).
      apply collect_hits_In. simpl. rewrite unique_In. auto.
Qed.

Lemma miss_candidates_full_ranking_witness :
  (0 <= 2)%Z /\
  miss_candidates window "pump a" 2
  = firstn 2 (miss_candidates window "pump a" 5).
Proof.
  assert (H : (0 <= 2)%Z) by lia. split; [exact H|].
  exact (proj1 (miss_candidates_full_ranking window "pump a" 2 H)).
Defined.
